(** * Event-catalog pipeline: a shallow embedding of the adaptive
      extraction-and-enrichment core (db.py, parser.py, ein_enrichment.py)

    Python text is modelled by [string]: the UTF-8 bytes of the [str].  Case
    folding and the whitespace class are those of the ASCII range, which is
    where CPython's [str.lower], [str.strip] and the [re] class [\s] agree with
    the byte-level functions below. *)

From Stdlib Require Import NArith ZArith List String Ascii Bool Lia.
From Stdlib Require Import Numbers.DecimalString.
Import ListNotations.
Open Scope string_scope.
Set Warnings "-register-all".

(** ** Python [str] primitives *)
Module PyStr.

Definition code (c : ascii) : N := N_of_ascii c.

Definition is_upper (c : ascii) : bool :=
  (65 <=? code c)%N && (code c <=? 90)%N.

Definition lower_char (c : ascii) : ascii :=
  if is_upper c then ascii_of_N (code c + 32) else c.

(** [s.lower()] *)
Fixpoint lower (s : string) : string :=
  match s with
  | EmptyString => EmptyString
  | String c r => String (lower_char c) (lower r)
  end.

(** [c.isspace()]: TAB..CR, FS..US and the blank. *)
Definition isspace (c : ascii) : bool :=
  ((9 <=? code c)%N && (code c <=? 13)%N)
  || ((28 <=? code c)%N && (code c <=? 32)%N).

Fixpoint lstrip (s : string) : string :=
  match s with
  | EmptyString => EmptyString
  | String c r => if isspace c then lstrip r else s
  end.

Fixpoint rstrip (s : string) : string :=
  match s with
  | EmptyString => EmptyString
  | String c r =>
      match rstrip r with
      | EmptyString => if isspace c then EmptyString else String c EmptyString
      | r' => String c r'
      end
  end.

(** [s.strip()] *)
Definition strip (s : string) : string := rstrip (lstrip s).

(** [sep.join(parts)] *)
Fixpoint join (sep : string) (parts : list string) : string :=
  match parts with
  | [] => EmptyString
  | [p] => p
  | p :: rest => p ++ sep ++ join sep rest
  end.

(** [s.startswith(p)] *)
Definition startswith (p s : string) : bool := String.prefix p s.

(** Whether [s] is the empty text. *)
Definition is_empty (s : string) : bool :=
  match s with EmptyString => true | _ => false end.

(** [s.replace(a, b)] for one-character [a] and [b]. *)
Fixpoint replace_char (a b : ascii) (s : string) : string :=
  match s with
  | EmptyString => EmptyString
  | String c r =>
      String (if Ascii.eqb c a then b else c) (replace_char a b r)
  end.

(** [s[n:]] *)
Fixpoint drop (n : nat) (s : string) : string :=
  match n, s with
  | O, _ => s
  | S m, String _ r => drop m r
  | S _, EmptyString => EmptyString
  end.

(** [s[:n]] *)
Fixpoint take (n : nat) (s : string) : string :=
  match n, s with
  | S m, String c r => String c (take m r)
  | _, _ => EmptyString
  end.

(** [needle in s] *)
Fixpoint contains (needle s : string) : bool :=
  String.prefix needle s
  || match s with
     | EmptyString => false
     | String _ r => contains needle r
     end.

End PyStr.

(** ** SHA-256 (FIPS 180-4), as [hashlib.sha256(b).hexdigest()] *)
Module Sha256.
Local Open Scope N_scope.

Definition mask32 : N := 0xffffffff.
Definition add32 (x y : N) : N := N.land (x + y) mask32.
Definition rotr (n x : N) : N :=
  N.land (N.lor (N.shiftr x n) (N.shiftl x (32 - n))) mask32.

Definition Ch (x y z : N) : N :=
  N.lxor (N.land x y) (N.land (N.lxor x mask32) z).
Definition Maj (x y z : N) : N :=
  N.lxor (N.lxor (N.land x y) (N.land x z)) (N.land y z).
Definition bsig0 (x : N) : N :=
  N.lxor (N.lxor (rotr 2 x) (rotr 13 x)) (rotr 22 x).
Definition bsig1 (x : N) : N :=
  N.lxor (N.lxor (rotr 6 x) (rotr 11 x)) (rotr 25 x).
Definition ssig0 (x : N) : N :=
  N.lxor (N.lxor (rotr 7 x) (rotr 18 x)) (N.shiftr x 3).
Definition ssig1 (x : N) : N :=
  N.lxor (N.lxor (rotr 17 x) (rotr 19 x)) (N.shiftr x 10).

(** The first 64 primes. *)
Definition primes : list N :=
  [ 2; 3; 5; 7; 11; 13; 17; 19; 23; 29; 31; 37; 41; 43; 47; 53;
    59; 61; 67; 71; 73; 79; 83; 89; 97; 101; 103; 107; 109; 113; 127; 131;
    137; 139; 149; 151; 157; 163; 167; 173; 179; 181; 191; 193; 197; 199; 211; 223;
    227; 229; 233; 239; 241; 251; 257; 263; 269; 271; 277; 281; 283; 293; 307; 311 ].

(** The integer cube root of [n], found bit by bit below [2 ^ bits]. *)
Fixpoint cube_root (bits : nat) (n acc : N) : N :=
  match bits with
  | O => acc
  | S b =>
      let c := acc + 2 ^ N.of_nat b in
      if c * c * c <=? n then cube_root b n c else cube_root b n acc
  end.

(** The round constants: the first 32 bits of the fractional parts of the
    cube roots of the first 64 primes. *)
Definition K : list N :=
  List.map (fun p => N.land (cube_root 36 (p * 2 ^ 96) 0) mask32) primes.

(** The initial hash value: the first 32 bits of the fractional parts of the
    square roots of the first 8 primes. *)
Definition H0 : list N :=
  List.map (fun p => N.land (N.sqrt (p * 2 ^ 64)) mask32) (firstn 8 primes).

(** Big-endian bytes of [x], [n] of them. *)
Fixpoint be_bytes (n : nat) (x : N) : list N :=
  match n with
  | O => []
  | S m => be_bytes m (N.shiftr x 8) ++ [N.land x 0xff]
  end.

(** Padding: a one bit, zeros up to 56 mod 64, the bit length on 8 bytes. *)
Definition pad (msg : list N) : list N :=
  let len := N.of_nat (List.length msg) in
  let zeros := (119 - len mod 64) mod 64 in
  msg ++ [0x80] ++ List.repeat 0 (N.to_nat zeros) ++ be_bytes 8 (len * 8).

Fixpoint words (fuel : nat) (bs : list N) : list N :=
  match fuel, bs with
  | S f, b0 :: b1 :: b2 :: b3 :: rest =>
      (N.shiftl b0 24 + N.shiftl b1 16 + N.shiftl b2 8 + b3) :: words f rest
  | _, _ => []
  end.

(** The message schedule, newest word first. *)
Fixpoint schedule (n : nat) (rev_w : list N) : list N :=
  match n with
  | O => rev_w
  | S m =>
      let w2 := nth 1 rev_w 0 in
      let w7 := nth 6 rev_w 0 in
      let w15 := nth 14 rev_w 0 in
      let w16 := nth 15 rev_w 0 in
      schedule m
        (add32 (add32 (ssig1 w2) w7) (add32 (ssig0 w15) w16) :: rev_w)
  end.

Record regs := Regs { ra : N; rb : N; rc : N; rd : N;
                      re : N; rf : N; rg : N; rh : N }.

Definition round (s : regs) (kw : N * N) : regs :=
  let t1 := add32 (add32 (add32 (rh s) (bsig1 (re s)))
                         (add32 (Ch (re s) (rf s) (rg s)) (fst kw)))
                  (snd kw) in
  let t2 := add32 (bsig0 (ra s)) (Maj (ra s) (rb s) (rc s)) in
  Regs (add32 t1 t2) (ra s) (rb s) (rc s) (add32 (rd s) t1) (re s) (rf s) (rg s).

Definition regs_of (h : list N) : regs :=
  Regs (nth 0 h 0) (nth 1 h 0) (nth 2 h 0) (nth 3 h 0)
       (nth 4 h 0) (nth 5 h 0) (nth 6 h 0) (nth 7 h 0).

Definition compress (h : list N) (block : list N) : list N :=
  let w := List.rev (schedule 48 (List.rev block)) in
  let s0 := regs_of h in
  let s := fold_left round (List.combine K w) s0 in
  [ add32 (ra s0) (ra s); add32 (rb s0) (rb s);
    add32 (rc s0) (rc s); add32 (rd s0) (rd s);
    add32 (re s0) (re s); add32 (rf s0) (rf s);
    add32 (rg s0) (rg s); add32 (rh s0) (rh s) ].

Fixpoint blocks (fuel : nat) (h : list N) (ws : list N) : list N :=
  match fuel, ws with
  | S f, _ :: _ => blocks f (compress h (firstn 16 ws)) (skipn 16 ws)
  | _, _ => h
  end.

Definition digest (msg : list N) : list N :=
  let p := pad msg in
  let ws := words (List.length p) p in
  blocks (List.length ws) H0 ws.

Definition hex_digit (d : N) : ascii :=
  if d <? 10 then ascii_of_N (48 + d) else ascii_of_N (87 + d).

Fixpoint hex_of (digits : nat) (x : N) (acc : string) : string :=
  match digits with
  | O => acc
  | S m => hex_of m (N.shiftr x 4) (String (hex_digit (N.land x 15)) acc)
  end.

Definition bytes_of_string (s : string) : list N :=
  List.map N_of_ascii (list_ascii_of_string s).

(** [hashlib.sha256(s.encode("utf-8")).hexdigest()] *)
Definition hexdigest (s : string) : string :=
  fold_right (fun w acc => hex_of 8 w acc) EmptyString
             (digest (bytes_of_string s)).

End Sha256.

(** ** Python values

    The values a decoded model reply can hold, which is what the records of
    the pipeline are made of.  A [dict] keeps insertion order as an
    association list; keys are [str], as in JSON.  A double is kept as the
    decimal literal it was read from, so rounding, overflow and underflow of
    the binary64 conversion are not modelled. *)
Inductive value : Type :=
| VNone
| VBool (b : bool)
| VInt (z : Z)
| VFloat (lit : string)
| VStr (s : string)
| VList (items : list value)
| VDict (items : list (string * value)).

Definition dict : Type := list (string * value).

(** Exceptions carry their class and their [str(e)]. *)
Record exn : Type := Exn { exn_class : string; exn_msg : string }.

Inductive res (A : Type) : Type :=
| Ok (a : A)
| Raise (e : exn).
Arguments Ok {A} a.
Arguments Raise {A} e.

Definition bind {A B : Type} (m : res A) (k : A -> res B) : res B :=
  match m with
  | Ok a => k a
  | Raise e => Raise e
  end.

Notation "x <- m ;; k" := (bind m (fun x => k))
  (at level 61, m at next level, right associativity).

Module Py.
Import PyStr.

(** [d.get(k)] on the association list: the first binding. *)
Fixpoint assoc_get (k : string) (d : dict) : option value :=
  match d with
  | [] => None
  | (k', v) :: rest => if String.eqb k k' then Some v else assoc_get k rest
  end.

(** [d[k] = v]: overwrite in place, or append a new key. *)
Fixpoint assoc_set (k : string) (v : value) (d : dict) : dict :=
  match d with
  | [] => [(k, v)]
  | (k', v') :: rest =>
      if String.eqb k k' then (k, v) :: rest else (k', v') :: assoc_set k v rest
  end.

(** [k in d] *)
Definition assoc_mem (k : string) (d : dict) : bool :=
  match assoc_get k d with Some _ => true | None => false end.

Definition dict_get (d : dict) (k : string) : value :=
  match assoc_get k d with Some v => v | None => VNone end.

Definition type_name (v : value) : string :=
  match v with
  | VNone => "NoneType"
  | VBool _ => "bool"
  | VInt _ => "int"
  | VFloat _ => "float"
  | VStr _ => "str"
  | VList _ => "list"
  | VDict _ => "dict"
  end.

(** [v.get(k)]: only a [dict] has the method. *)
Definition py_get (v : value) (k : string) : res value :=
  match v with
  | VDict d => Ok (dict_get d k)
  | _ => Raise (Exn "AttributeError"
                    ("'" ++ type_name v ++ "' object has no attribute 'get'"))
  end.

(** [v[k] = x] with a [str] key [k]. *)
Definition py_setitem (v : value) (k : string) (x : value) : res value :=
  match v with
  | VDict d => Ok (VDict (assoc_set k x d))
  | VList _ =>
      Raise (Exn "TypeError" "list indices must be integers or slices, not str")
  | _ => Raise (Exn "TypeError"
                    ("'" ++ type_name v
                         ++ "' object does not support item assignment"))
  end.

Definition is_nonzero_digit (c : ascii) : bool :=
  (49 <=? code c)%N && (code c <=? 57)%N.

(** Whether the mantissa of a float literal has a non-zero digit. *)
Fixpoint mantissa_nonzero (lit : string) : bool :=
  match lit with
  | EmptyString => false
  | String c r =>
      if Ascii.eqb c "e" || Ascii.eqb c "E" then false
      else is_nonzero_digit c || mantissa_nonzero r
  end.

Definition float_truthy (lit : string) : bool :=
  String.eqb lit "NaN" || String.eqb lit "Infinity"
  || String.eqb lit "-Infinity" || mantissa_nonzero lit.

(** [bool(v)] *)
Definition truthy (v : value) : bool :=
  match v with
  | VNone => false
  | VBool b => b
  | VInt z => negb (Z.eqb z 0)
  | VFloat lit => float_truthy lit
  | VStr s => negb (is_empty s)
  | VList l => match l with [] => false | _ => true end
  | VDict d => match d with [] => false | _ => true end
  end.

Definition is_none (v : value) : bool :=
  match v with VNone => true | _ => false end.

Definition int_str (z : Z) : string := NilZero.string_of_int (Z.to_int z).

Definition float_str (lit : string) : string :=
  if String.eqb lit "NaN" then "nan"
  else if String.eqb lit "Infinity" then "inf"
  else if String.eqb lit "-Infinity" then "-inf"
  else lit.

Definition hex2 (n : N) : string :=
  String (Sha256.hex_digit (N.shiftr n 4))
         (String (Sha256.hex_digit (N.land n 15)) EmptyString).

(** The body of [repr(s)] between quotes [q]. *)
Fixpoint repr_chars (q : ascii) (s : string) : string :=
  match s with
  | EmptyString => EmptyString
  | String c r =>
      (if Ascii.eqb c q || Ascii.eqb c "\" then String "\" (String c EmptyString)
       else if Ascii.eqb c "009" then "\t"
       else if Ascii.eqb c "010" then "\n"
       else if Ascii.eqb c "013" then "\r"
       else if (code c <? 32)%N || (code c =? 127)%N then "\x" ++ hex2 (code c)
       else String c EmptyString)
      ++ repr_chars q r
  end.

Definition has_char (c : ascii) (s : string) : bool :=
  contains (String c EmptyString) s.

(** [repr(s)]: single quotes unless the text has one and no double quote. *)
Definition repr_str (s : string) : string :=
  let q : ascii := if has_char "'" s && negb (has_char "034" s)
                   then "034"%char else "'"%char in
  String q (repr_chars q s ++ String q EmptyString).

(** [repr(v)] *)
Fixpoint repr (v : value) : string :=
  match v with
  | VNone => "None"
  | VBool true => "True"
  | VBool false => "False"
  | VInt z => int_str z
  | VFloat lit => float_str lit
  | VStr s => repr_str s
  | VList l => "[" ++ join ", " (List.map repr l) ++ "]"
  | VDict d =>
      "{" ++ join ", "
               (List.map (fun kv => match kv with
                                    | (k, x) => repr_str k ++ ": " ++ repr x
                                    end) d)
          ++ "}"
  end.

(** [str(v)] *)
Definition str (v : value) : string :=
  match v with
  | VStr s => s
  | _ => repr v
  end.

(** Whether [str(v).strip()] is empty. *)
Definition blank (v : value) : bool := is_empty (strip (str v)).

End Py.

(** ** [json.loads]

    The decoder of CPython's [json] package with its defaults: [strict]
    strings, the constants [NaN], [Infinity] and [-Infinity] accepted, only
    blank, TAB, LF and CR as whitespace, and nothing but whitespace allowed
    after the value.  [None] stands for a raised [JSONDecodeError].  Two
    limits of the interpreter are not modelled: the bound on the digits of an
    integer literal, and the recursion limit on nesting (the fuel below is
    the length of the text, which no nesting exceeds). *)
Module Json.
Import PyStr.

Definition is_ws (c : ascii) : bool :=
  Ascii.eqb c " " || Ascii.eqb c "009" || Ascii.eqb c "010" || Ascii.eqb c "013".

Fixpoint skip_ws (s : string) : string :=
  match s with
  | String c r => if is_ws c then skip_ws r else s
  | EmptyString => EmptyString
  end.

Definition is_digit (c : ascii) : bool :=
  (48 <=? code c)%N && (code c <=? 57)%N.

(** The longest run of digits at the head of [s], and what follows. *)
Fixpoint take_digits (s : string) : string * string :=
  match s with
  | String c r =>
      if is_digit c
      then let (ds, rest) := take_digits r in (String c ds, rest)
      else (EmptyString, s)
  | EmptyString => (EmptyString, EmptyString)
  end.

Fixpoint digits_value (acc : Z) (ds : string) : Z :=
  match ds with
  | EmptyString => acc
  | String c r => digits_value (10 * acc + Z.of_N (code c - 48)) r
  end.

(** The integer part of [NUMBER_RE]: an optional minus, then a zero or a
    digit run that does not start with zero. *)
Definition match_integer (s : string) : option (string * string) :=
  let (sign, body) :=
    match s with
    | String "-" r => ("-", r)
    | _ => (EmptyString, s)
    end in
  match body with
  | String c r =>
      if Ascii.eqb c "0" then Some (sign ++ "0", r)
      else if is_digit c
           then let (ds, rest) := take_digits r in
                Some (sign ++ String c ds, rest)
           else None
  | EmptyString => None
  end.

(** The optional fraction of [NUMBER_RE]: a dot and at least one digit. *)
Definition match_frac (s : string) : string * string :=
  match s with
  | String "." r =>
      match take_digits r with
      | (EmptyString, _) => (EmptyString, s)
      | (ds, rest) => (String "." ds, rest)
      end
  | _ => (EmptyString, s)
  end.

(** The optional exponent of [NUMBER_RE]: e or E, an optional sign, and at
    least one digit. *)
Definition match_exp (s : string) : string * string :=
  match s with
  | String e r =>
      if Ascii.eqb e "e" || Ascii.eqb e "E" then
        let (sign, body) :=
          match r with
          | String "-" r' => ("-", r')
          | String "+" r' => ("+", r')
          | _ => (EmptyString, r)
          end in
        match take_digits body with
        | (EmptyString, _) => (EmptyString, s)
        | (ds, rest) => (String e (sign ++ ds), rest)
        end
      else (EmptyString, s)
  | EmptyString => (EmptyString, s)
  end.

Definition int_of_literal (lit : string) : Z :=
  match lit with
  | String "-" ds => - digits_value 0 ds
  | _ => digits_value 0 lit
  end.

(** A number: [int] without fraction and exponent, [float] otherwise. *)
Definition match_number (s : string) : option (value * string) :=
  match match_integer s with
  | None => None
  | Some (int_part, r1) =>
      let (frac, r2) := match_frac r1 in
      let (exp, r3) := match_exp r2 in
      if is_empty frac && is_empty exp
      then Some (VInt (int_of_literal int_part), r3)
      else Some (VFloat (int_part ++ frac ++ exp), r3)
  end.

Definition hex_value (c : ascii) : option N :=
  let n := code c in
  if (48 <=? n)%N && (n <=? 57)%N then Some (n - 48)%N
  else if (65 <=? n)%N && (n <=? 70)%N then Some (n - 55)%N
  else if (97 <=? n)%N && (n <=? 102)%N then Some (n - 87)%N
  else None.

Definition hex4 (a b c d : ascii) : option N :=
  match hex_value a, hex_value b, hex_value c, hex_value d with
  | Some x, Some y, Some z, Some t => Some (x * 4096 + y * 256 + z * 16 + t)%N
  | _, _, _, _ => None
  end.

Definition byte (n : N) : string := String (ascii_of_N n) EmptyString.

(** The UTF-8 bytes of [chr(cp)] (a lone surrogate is written on three
    bytes like any other code point of its range). *)
Definition utf8 (cp : N) : string :=
  if (cp <? 0x80)%N then byte cp
  else if (cp <? 0x800)%N then
    byte (0xC0 + N.shiftr cp 6) ++ byte (0x80 + N.land cp 0x3F)
  else if (cp <? 0x10000)%N then
    byte (0xE0 + N.shiftr cp 12) ++ byte (0x80 + N.land (N.shiftr cp 6) 0x3F)
         ++ byte (0x80 + N.land cp 0x3F)
  else
    byte (0xF0 + N.shiftr cp 18) ++ byte (0x80 + N.land (N.shiftr cp 12) 0x3F)
         ++ byte (0x80 + N.land (N.shiftr cp 6) 0x3F)
         ++ byte (0x80 + N.land cp 0x3F).

Definition backslash (e : ascii) : option ascii :=
  if Ascii.eqb e "034" then Some "034"%char
  else if Ascii.eqb e "\" then Some "\"%char
  else if Ascii.eqb e "/" then Some "/"%char
  else if Ascii.eqb e "b" then Some "008"%char
  else if Ascii.eqb e "f" then Some "012"%char
  else if Ascii.eqb e "n" then Some "010"%char
  else if Ascii.eqb e "r" then Some "013"%char
  else if Ascii.eqb e "t" then Some "009"%char
  else None.

Definition is_high_surrogate (u : N) : bool := (0xD800 <=? u)%N && (u <=? 0xDBFF)%N.
Definition is_low_surrogate (u : N) : bool := (0xDC00 <=? u)%N && (u <=? 0xDFFF)%N.

(** The second half of a surrogate pair at the head of [s], if any. *)
Definition low_surrogate (s : string) : option N :=
  match s with
  | String "\" (String "u" (String a (String b (String c (String d _))))) =>
      match hex4 a b c d with
      | Some u2 => if is_low_surrogate u2 then Some u2 else None
      | None => None
      end
  | _ => None
  end.

(** [scanstring]: the text after the opening quote up to the closing one,
    decoded, and what follows it. *)
Fixpoint scanstring (fuel : nat) (s : string) : option (string * string) :=
  match fuel with
  | O => None
  | S f =>
      match s with
      | EmptyString => None
      | String c r =>
          if Ascii.eqb c "034" then Some (EmptyString, r)
          else if Ascii.eqb c "\" then
            match r with
            | EmptyString => None
            | String e r' =>
                if Ascii.eqb e "u" then
                  match r' with
                  | String h1 (String h2 (String h3 (String h4 r4))) =>
                      match hex4 h1 h2 h3 h4 with
                      | None => None
                      | Some u =>
                          let (cp, rest) :=
                            match (if is_high_surrogate u
                                   then low_surrogate r4 else None) with
                            | Some u2 =>
                                ((0x10000
                                  + N.lor (N.shiftl (u - 0xD800) 10) (u2 - 0xDC00))%N,
                                 drop 6 r4)
                            | None => (u, r4)
                            end in
                          match scanstring f rest with
                          | Some (t, k) => Some (utf8 cp ++ t, k)
                          | None => None
                          end
                      end
                  | _ => None
                  end
                else
                  match backslash e with
                  | None => None
                  | Some ch =>
                      match scanstring f r' with
                      | Some (t, k) => Some (String ch t, k)
                      | None => None
                      end
                  end
            end
          else if (code c <? 32)%N then None
          else
            match scanstring f r with
            | Some (t, k) => Some (String c t, k)
            | None => None
            end
      end
  end.

Section Containers.
(** [scan_once] for the values inside a container. *)
Variable scan : string -> option (value * string).

(** [JSONArray] after the first element has been reached. *)
Fixpoint array_items (fuel : nat) (s : string) : option (list value * string) :=
  match fuel with
  | O => None
  | S f =>
      match scan s with
      | None => None
      | Some (v, r) =>
          match skip_ws r with
          | String "]" r' => Some ([v], r')
          | String "," r' =>
              match array_items f (skip_ws r') with
              | Some (vs, k) => Some (v :: vs, k)
              | None => None
              end
          | _ => None
          end
      end
  end.

Definition parse_array (fuel : nat) (s : string) : option (value * string) :=
  match skip_ws s with
  | String "]" r => Some (VList [], r)
  | s' =>
      match array_items fuel s' with
      | Some (vs, k) => Some (VList vs, k)
      | None => None
      end
  end.

(** [JSONObject] from the opening quote of a key on: the pairs in the
    order read. *)
Fixpoint object_pairs (fuel : nat) (s : string)
  : option (list (string * value) * string) :=
  match fuel with
  | O => None
  | S f =>
      match s with
      | String "034" r =>
          match scanstring (S (String.length r)) r with
          | None => None
          | Some (key, r1) =>
              match skip_ws r1 with
              | String ":" r2 =>
                  match scan (skip_ws r2) with
                  | None => None
                  | Some (v, r3) =>
                      match skip_ws r3 with
                      | String "}" r4 => Some ([(key, v)], r4)
                      | String "," r4 =>
                          match object_pairs f (skip_ws r4) with
                          | Some (ps, k) => Some ((key, v) :: ps, k)
                          | None => None
                          end
                      | _ => None
                      end
                  end
              | _ => None
              end
          end
      | _ => None
      end
  end.

(** [dict(pairs)]: a repeated key keeps its place and takes the last value. *)
Definition dict_of_pairs (ps : list (string * value)) : dict :=
  fold_left (fun d kv => Py.assoc_set (fst kv) (snd kv) d) ps [].

Definition parse_object (fuel : nat) (s : string) : option (value * string) :=
  match skip_ws s with
  | String "}" r => Some (VDict [], r)
  | s' =>
      match object_pairs fuel s' with
      | Some (ps, k) => Some (VDict (dict_of_pairs ps), k)
      | None => None
      end
  end.
End Containers.

(** [scan_once] *)
Fixpoint scan_once (fuel : nat) (s : string) : option (value * string) :=
  match fuel with
  | O => None
  | S f =>
      match s with
      | EmptyString => None
      | String c r =>
          if Ascii.eqb c "034" then
            match scanstring (S (String.length r)) r with
            | Some (t, k) => Some (VStr t, k)
            | None => None
            end
          else if Ascii.eqb c "{" then parse_object (scan_once f) f r
          else if Ascii.eqb c "[" then parse_array (scan_once f) f r
          else if prefix "null" s then Some (VNone, drop 4 s)
          else if prefix "true" s then Some (VBool true, drop 4 s)
          else if prefix "false" s then Some (VBool false, drop 5 s)
          else
            match match_number s with
            | Some (v, k) => Some (v, k)
            | None =>
                if prefix "NaN" s then Some (VFloat "NaN", drop 3 s)
                else if prefix "Infinity" s
                     then Some (VFloat "Infinity", drop 8 s)
                else if prefix "-Infinity" s
                     then Some (VFloat "-Infinity", drop 9 s)
                else None
            end
      end
  end.

(** [json.loads(s)] *)
Definition loads (s : string) : option value :=
  match scan_once (S (String.length s)) (skip_ws s) with
  | Some (v, r) =>
      match skip_ws r with
      | EmptyString => Some v
      | _ => None
      end
  | None => None
  end.

End Json.

(** ** Response Decoder: [safe_json]

    parser.py and ein_enrichment.py carry the same function, text for text. *)
Module Decoder.
Import PyStr.

Definition fence : string := "```".

(** Length of the match of [^```json|^```|```$] (flags [IGNORECASE] and
    [MULTILINE]) that starts at the head of [s], 0 when there is none;
    [bol] tells whether the head of [s] is at the beginning of a line. *)
Definition fence_at (bol : bool) (s : string) : nat :=
  if negb (prefix fence s) then 0
  else if bol && String.eqb (lower (substring 3 4 s)) "json" then 7
  else if bol then 3
  else match drop 3 s with
       | EmptyString => 3
       | String c _ => if Ascii.eqb c "010" then 3 else 0
       end.

(** [re.sub] of that pattern by the empty string: [skip] characters of a
    match in progress are still to be dropped. *)
Fixpoint sub_fences (skip : nat) (bol : bool) (s : string) : string :=
  match s with
  | EmptyString => EmptyString
  | String c r =>
      let bol' := Ascii.eqb c "010" in
      match skip with
      | S k => sub_fences k bol' r
      | O =>
          match fence_at bol s with
          | S k => sub_fences k bol' r
          | O => String c (sub_fences 0 bol' r)
          end
      end
  end.

Fixpoint from_first_open (s : string) : option string :=
  match s with
  | EmptyString => None
  | String c r => if Ascii.eqb c "{" then Some s else from_first_open r
  end.

Fixpoint upto_last_close (s : string) : option string :=
  match s with
  | EmptyString => None
  | String c r =>
      match upto_last_close r with
      | Some t => Some (String c t)
      | None => if Ascii.eqb c "}" then Some (String c EmptyString) else None
      end
  end.

(** [re.search(r"\{.*\}", s, flags=re.DOTALL)]: from the first opening brace
    to the last closing brace after it. *)
Definition brace_span (s : string) : option string :=
  match from_first_open s with
  | Some t => upto_last_close t
  | None => None
  end.

Definition safe_json (text : string) : value :=
  if is_empty text then VDict []
  else
    let cleaned := strip (sub_fences 0 true (strip text)) in
    let cleaned :=
      if startswith "{" (strip cleaned) then cleaned
      else match brace_span cleaned with
           | Some m => m
           | None => cleaned
           end in
    match Json.loads cleaned with
    | Some v => v
    | None =>
        let alt := replace_char "'" "034" cleaned in
        match Json.loads alt with
        | Some v => v
        | None => VDict []
        end
    end.

End Decoder.

(** ** db.py: identity hash, upserts and logs

    A table is the list of its rows in insertion order and its
    [AUTO_INCREMENT] counter.  A column holds the Python value that was bound
    to the statement; SQL reads [None] as [NULL]. *)
Module Db.
Import PyStr.

(** The text [raw] that [generate_uid] hashes. *)
Definition raw_key (args : list value) : string :=
  join "-" (List.map (fun a => strip (lower (Py.str a)))
                     (List.filter Py.truthy args)).

(** [generate_uid]: the key fields are its positional arguments. *)
Definition generate_uid (args : list value) : string :=
  take 64 (Sha256.hexdigest (raw_key args)).

Record organizer_row : Type := OrganizerRow {
  org_id : Z;
  org_uid : string;
  org_name : value;
  org_ein : value;
  org_website : value;
  org_email : value;
  org_phone : value;
  org_contact_name : value;
  org_contact_title : value;
  org_contact_email : value;
  org_facebook : value;
  org_instagram : value
}.

Record event_row : Type := EventRow {
  ev_id : Z;
  ev_uid : string;
  ev_name : value;
  ev_date : value;
  ev_event_type : value;
  ev_description : value;
  ev_venue_name : value;
  ev_venue_address : value;
  ev_venue_city : value;
  ev_venue_state : value;
  ev_venue_zip : value;
  ev_venue_parking : value;
  ev_venue_website : value;
  ev_registration_url : value;
  ev_sponsorship_url : value;
  ev_sponsorship_tiers : value;
  ev_sponsorship_contact : value;
  ev_past_sponsors : value;
  ev_dress_code : value;
  ev_organizer_id : option Z
}.

Record parse_log : Type := ParseLog {
  pl_raw_link_id : Z;
  pl_status : string;
  pl_message : string
}.

Record database : Type := Database {
  organizers : list organizer_row;
  organizers_auto_increment : Z;
  events : list event_row;
  events_auto_increment : Z;
  parse_logs : list parse_log;
  (** Whether the engine spends an [AUTO_INCREMENT] value on an insert that
      ends in [ON DUPLICATE KEY UPDATE] (InnoDB does, outside the
      traditional lock mode). *)
  autoinc_gaps : bool
}.

(** What happens to one statement: [create_connection()] gave no
    connection, [cursor.execute] raised a [mysql.connector.Error], or the
    statement was executed and committed. *)
Inductive session : Type :=
| NoConnection
| ExecuteError (msg : string)
| Executed.

Definition find_organizer (uid : string) (db : database) : option organizer_row :=
  List.find (fun r => String.eqb (org_uid r) uid) (organizers db).

Definition find_event (uid : string) (db : database) : option event_row :=
  List.find (fun r => String.eqb (ev_uid r) uid) (events db).

(** The identity of an organizer record. *)
Definition organizer_uid (data : dict) : string :=
  generate_uid [Py.dict_get data "organizer_name";
                Py.dict_get data "organizer_website"].

Definition spend (db : database) (counter : Z) : Z :=
  if autoinc_gaps db then counter + 1 else counter.

(** [insert_organizer(data)]: the organizer id, or [None]. *)
Definition insert_organizer (sess : session) (db : database) (data : dict)
  : database * option Z :=
  match sess with
  | NoConnection => (db, None)
  | ExecuteError _ => (db, None)
  | Executed =>
      let get := Py.dict_get data in
      let uid := organizer_uid data in
      match find_organizer uid db with
      | Some r =>
          (* ON DUPLICATE KEY UPDATE id=LAST_INSERT_ID(id) *)
          (Database (organizers db)
                    (spend db (organizers_auto_increment db))
                    (events db) (events_auto_increment db)
                    (parse_logs db) (autoinc_gaps db),
           Some (org_id r))
      | None =>
          let id := organizers_auto_increment db in
          let row :=
            OrganizerRow id uid (get "organizer_name") (get "organizer_ein")
              (get "organizer_website") (get "organizer_email")
              (get "organizer_phone") (get "organizer_contact_name")
              (get "organizer_contact_title") (get "organizer_contact_email")
              (get "organizer_facebook") (get "organizer_instagram") in
          (Database (organizers db ++ [row]) (id + 1)
                    (events db) (events_auto_increment db)
                    (parse_logs db) (autoinc_gaps db),
           Some id)
      end
  end.

(** The date as [insert_event] binds it: blank becomes [None]. *)
Definition event_date_param (data : dict) : value :=
  let event_date := Py.dict_get data "event_date" in
  if negb (Py.truthy event_date) || Py.blank event_date then VNone
  else event_date.

(** The identity of an event record. *)
Definition event_uid (data : dict) : string :=
  generate_uid [Py.dict_get data "event_name"; event_date_param data;
                Py.dict_get data "venue_name"].

(** [insert_event(data, organizer_id)]; the function returns nothing. *)
Definition insert_event (sess : session) (db : database) (data : dict)
                        (organizer_id : option Z) : database :=
  match sess with
  | NoConnection => db
  | ExecuteError _ => db
  | Executed =>
      let get := Py.dict_get data in
      let event_date := event_date_param data in
      let uid := event_uid data in
      match find_event uid db with
      | Some _ =>
          (* ON DUPLICATE KEY UPDATE id=id *)
          Database (organizers db) (organizers_auto_increment db)
                   (events db) (spend db (events_auto_increment db))
                   (parse_logs db) (autoinc_gaps db)
      | None =>
          let id := events_auto_increment db in
          let row :=
            EventRow id uid (get "event_name") event_date (get "event_type")
              (get "description") (get "venue_name") (get "venue_address")
              (get "venue_city") (get "venue_state") (get "venue_zip")
              (get "venue_parking") (get "venue_website")
              (get "registration_url") (get "sponsorship_url")
              (get "sponsorship_tiers") (get "sponsorship_contact")
              (get "past_sponsors") (get "dress_code") organizer_id in
          Database (organizers db) (organizers_auto_increment db)
                   (events db ++ [row]) (id + 1)
                   (parse_logs db) (autoinc_gaps db)
      end
  end.

(** [log_parse_result(raw_link_id, status, message)] *)
Definition log_parse_result (sess : session) (db : database)
                            (raw_link_id : Z) (status message : string)
  : database :=
  match sess with
  | Executed =>
      Database (organizers db) (organizers_auto_increment db)
               (events db) (events_auto_increment db)
               (parse_logs db ++ [ParseLog raw_link_id status message])
               (autoinc_gaps db)
  | _ => db
  end.

End Db.

(** ** parser.py: extraction, completeness-driven escalation, persistence *)
Module Parser.
Import PyStr.

Definition MAX_GPT_RETRIES : nat := 5.
Definition MISSING_FIELDS_THRESHOLD : nat := 4.

Definition REQUIRED_FIELDS : list string :=
  [ "event_name"; "event_date"; "event_type"; "description"; "venue_name";
    "venue_address"; "venue_city"; "venue_state"; "venue_zip"; "venue_parking";
    "venue_website"; "registration_url"; "sponsorship_url"; "sponsorship_tiers";
    "sponsorship_contact"; "past_sponsors"; "dress_code"; "organizer_name";
    "organizer_ein"; "organizer_website"; "organizer_email"; "organizer_phone";
    "organizer_contact_name"; "organizer_contact_title"; "organizer_contact_email";
    "organizer_facebook"; "organizer_instagram" ].

(** [re.sub(r"\s+", " ", s)] *)
Fixpoint collapse_spaces (in_run : bool) (s : string) : string :=
  match s with
  | EmptyString => EmptyString
  | String c r =>
      if isspace c
      then if in_run then collapse_spaces true r
           else String " " (collapse_spaces true r)
      else String c (collapse_spaces false r)
  end.

Definition clean_text (s : value) : value :=
  if negb (Py.truthy s) then VNone
  else VStr (strip (collapse_spaces false (Py.str s))).

(** [min(2 * (2 ** (i - 1)), 20)], the seconds slept before attempt [i + 1]. *)
Definition backoff_delay (i : nat) : nat := Nat.min (2 * 2 ^ (i - 1)) 20.

Definition any_in (toks : list string) (msg : string) : bool :=
  List.existsb (fun tok => contains tok msg) toks.

Definition is_rate_limit (msg : string) : bool :=
  any_in ["rate limit"; "rate_limit_exceeded"; "429"; "requests per min"] msg.

Definition is_transient (msg : string) : bool :=
  any_in ["timeout"; "timed out"; "502"; "503"; "504"; "temporarily unavailable"] msg.

(** [gpt_call]: [client attempt] is what the chat-completion request of the
    given attempt does, the text of the reply or the exception raised;
    [remaining] counts the attempts left of [range(1, max_retries + 1)]. *)
Fixpoint gpt_attempts (client : nat -> res string) (attempt remaining : nat)
  : value :=
  match remaining with
  | O => VDict []
  | S k =>
      let outcome :=
        content <- client attempt ;;
        let parsed := Decoder.safe_json content in
        if Py.truthy parsed then Ok parsed
        else Raise (Exn "ValueError" "OpenAI returned non-JSON/invalid JSON") in
      match outcome with
      | Ok parsed => parsed
      | Raise e =>
          let msg := lower (exn_msg e) in
          if is_rate_limit msg then gpt_attempts client (S attempt) k
          else if is_transient msg then gpt_attempts client (S attempt) k
          else VDict []
      end
  end.

Definition gpt_call (client : nat -> res string) (max_retries : nat) : value :=
  gpt_attempts client 1 max_retries.

(** The loop of [count_missing_fields] over the fields still to visit. *)
Fixpoint count_missing (parsed : value) (fields : list string) (miss : nat)
  : res nat :=
  match fields with
  | [] => Ok miss
  | f :: rest =>
      v <- Py.py_get parsed f ;;
      count_missing parsed rest
        (if Py.is_none v || Py.blank v then S miss else miss)
  end.

Definition count_missing_fields (parsed : value) : res nat :=
  if negb (Py.truthy parsed) then Ok (List.length REQUIRED_FIELDS)
  else count_missing parsed REQUIRED_FIELDS 0.

(** What lines 214 to 232 of [deep_synthesize_fields] come to: an exception
    (of [urlparse], say), no candidate link, or a synthesis prompt whose
    chat-completion attempts behave as [client]. *)
Inductive deep_search : Type :=
| DeepRaises (e : exn)
| DeepNoCandidates
| DeepPrompt (client : nat -> res string).

(** The last loop of [deep_synthesize_fields]: the populated fields. *)
Fixpoint populated (synth : value) (fields : list string) (out : dict)
  : res dict :=
  match fields with
  | [] => Ok out
  | k :: rest =>
      v <- Py.py_get synth k ;;
      populated synth rest
        (if negb (Py.is_none v) && negb (Py.blank v)
         then Py.assoc_set k v out else out)
  end.

Definition deep_synthesize_fields (search : deep_search) : res dict :=
  match search with
  | DeepRaises e => Raise e
  | DeepNoCandidates => Ok []
  | DeepPrompt client =>
      let synth := gpt_call client MAX_GPT_RETRIES in
      if negb (Py.truthy synth) then Ok []
      else populated synth REQUIRED_FIELDS []
  end.

(** The merge loop of [process_links] (lines 310 to 312).  [data] is updated
    in place, so what was written before an exception stays written. *)
Fixpoint merge_supplement (data : value) (items : list (string * value))
  : value * option exn :=
  match items with
  | [] => (data, None)
  | (k, v) :: rest =>
      if Py.truthy v then
        match Py.py_get data k with
        | Raise e => (data, Some e)
        | Ok cur =>
            if negb (Py.truthy cur) || Py.blank cur then
              match Py.py_setitem data k v with
              | Raise e => (data, Some e)
              | Ok data' => merge_supplement data' rest
              end
            else merge_supplement data rest
        end
      else merge_supplement data rest
  end.

(** The collaborators of [process_links] for one run. *)
Record world : Type := World {
  (** [fetch_page(url)] *)
  fetch_page : string -> option string;
  (** the chat-completion attempts of [parse_event_with_gpt(html, url)], or
      the exception of the text extraction before them *)
  parse_prompt : string -> string -> res (nat -> res string);
  (** the search part of [deep_synthesize_fields(url, data)] *)
  deep_search_of : string -> value -> deep_search;
  (** [soup.title.string.strip()], [None] without a title *)
  page_title : string -> res (option string);
  (** [dateparser.parse(s, fuzzy=True).strftime("%Y-%m-%d")], [None] when
      it raises *)
  parse_date : string -> option string;
  (** the database sessions of the link with the given id *)
  organizer_session : Z -> Db.session;
  event_session : Z -> Db.session;
  log_session : Z -> Db.session
}.

Definition normalize_date (w : world) (date_str : value) : value :=
  if negb (Py.truthy date_str) then VNone
  else match parse_date w (Py.str date_str) with
       | Some d => VStr d
       | None => VNone
       end.

Definition parse_event_with_gpt (w : world) (page_html url : string) : res value :=
  client <- parse_prompt w page_html url ;;
  Ok (gpt_call client MAX_GPT_RETRIES).

Record raw_link : Type := RawLink { link_id : Z; link_url : string }.

(** The calls [process_links] makes to its collaborators, in order. *)
Inductive action : Type :=
| DeepSynthesize (url : string) (data : value)
| InsertOrganizer (data : dict)
| InsertEvent (data : dict) (organizer_id : Z)
| LogParseResult (raw_link_id : Z) (status message : string).

Definition fallback_record (title : option string) (url : string) : dict :=
  [ ("event_name", VStr (match title with
                         | Some t => t
                         | None => EmptyString
                         end));
    ("event_date", VStr EmptyString); ("event_type", VStr EmptyString); ("description", VStr EmptyString);
    ("venue_name", VStr EmptyString); ("venue_address", VStr EmptyString); ("venue_city", VStr EmptyString);
    ("venue_state", VStr EmptyString); ("venue_zip", VStr EmptyString); ("venue_parking", VStr EmptyString);
    ("venue_website", VStr EmptyString); ("registration_url", VStr url);
    ("sponsorship_url", VStr EmptyString); ("sponsorship_tiers", VStr EmptyString);
    ("sponsorship_contact", VStr EmptyString); ("past_sponsors", VStr EmptyString);
    ("dress_code", VStr EmptyString); ("organizer_name", VStr EmptyString);
    ("organizer_ein", VStr EmptyString); ("organizer_website", VStr EmptyString);
    ("organizer_email", VStr EmptyString); ("organizer_phone", VStr EmptyString);
    ("organizer_contact_name", VStr EmptyString); ("organizer_contact_title", VStr EmptyString);
    ("organizer_contact_email", VStr EmptyString); ("organizer_facebook", VStr EmptyString);
    ("organizer_instagram", VStr EmptyString) ].

Definition CLEANED_FIELDS : list string :=
  [ "event_name"; "event_type"; "description"; "venue_name"; "venue_address";
    "venue_city"; "venue_state"; "venue_zip"; "venue_parking"; "venue_website";
    "sponsorship_url"; "sponsorship_tiers"; "sponsorship_contact";
    "past_sponsors"; "dress_code"; "organizer_name"; "organizer_ein";
    "organizer_website"; "organizer_email"; "organizer_phone";
    "organizer_contact_name"; "organizer_contact_title"; "organizer_contact_email";
    "organizer_facebook"; "organizer_instagram" ].

(** Lines 355 and 356. *)
Definition default_registration_url (url : string) (data : dict) : dict :=
  if negb (Py.truthy (Py.dict_get data "registration_url"))
  then Py.assoc_set "registration_url" (VStr url) data
  else data.

(** Lines 358 to 368. *)
Definition clean_fields (data : dict) : dict :=
  fold_left (fun d k => match Py.assoc_get k d with
                        | Some v => Py.assoc_set k (clean_text v) d
                        | None => d
                        end)
            CLEANED_FIELDS data.

(** Lines 355 to 368: the record as it is handed to the upsert layer. *)
Definition prepare (w : world) (url : string) (data : dict) : dict :=
  let data := default_registration_url url data in
  let data := Py.assoc_set "event_date"
                (normalize_date w (Py.dict_get data "event_date")) data in
  clean_fields data.

(** How the body of the loop ends for a link: it goes on to the next link,
    or an exception leaves [process_links]. *)
Inductive ending : Type :=
| NextLink
| Uncaught (e : exn).

Record result : Type := Result {
  final_db : Db.database;
  trace : list action;
  how : ending
}.

Definition logged (w : world) (db : Db.database) (tr : list action)
                  (id : Z) (status message : string) : result :=
  Result (Db.log_parse_result (log_session w id) db id status message)
         (tr ++ [LogParseResult id status message])%list NextLink.

(** Lines 306 to 316: escalation, with the exceptions of the [try] block
    swallowed. *)
Definition escalate (w : world) (url : string) (data : value) : value :=
  match deep_synthesize_fields (deep_search_of w url data) with
  | Raise _ => data
  | Ok synth => fst (merge_supplement data synth)
  end.

(** Lines 369 to 378. *)
Definition save (w : world) (db : Db.database) (tr : list action)
                (id : Z) (data : dict) : result :=
  let (db1, organizer_id) :=
    Db.insert_organizer (organizer_session w id) db data in
  let tr1 := (tr ++ [InsertOrganizer data])%list in
  let (db2, tr2) :=
    match organizer_id with
    | Some oid =>
        if negb (Z.eqb oid 0)
        then (Db.insert_event (event_session w id) db1 data (Some oid),
              (tr1 ++ [InsertEvent data oid])%list)
        else (db1, tr1)
    | None => (db1, tr1)
    end in
  match count_missing_fields (VDict data) with
  | Raise e =>
      logged w db2 tr2 id "failed" ("Save error: " ++ exn_msg e)
  | Ok final_missing =>
      logged w db2 tr2 id
        (if (final_missing <? List.length REQUIRED_FIELDS)%nat
         then "success" else "failed")
        ("Parsed and saved (missing_fields="
           ++ Py.int_str (Z.of_nat final_missing) ++ ")")
  end.

(** The body of the loop of [process_links] for one link. *)
Definition process_link (w : world) (db : Db.database) (link : raw_link)
  : result :=
  let id := link_id link in
  let url := link_url link in
  match fetch_page w url with
  | None => logged w db [] id "failed" "Fetch failed (headless + fallback)"
  | Some html =>
      if is_empty html
      then logged w db [] id "failed" "Fetch failed (headless + fallback)"
      else
        match parse_event_with_gpt w html url with
        | Raise e => logged w db [] id "failed" ("Parse error: " ++ exn_msg e)
        | Ok data =>
            match count_missing_fields data with
            | Raise e => Result db [] (Uncaught e)
            | Ok missing_count =>
                let escalated := (MISSING_FIELDS_THRESHOLD <=? missing_count)%nat in
                let tr := if escalated then [DeepSynthesize url data] else [] in
                let data := if escalated then escalate w url data else data in
                let usable : res (option dict) :=
                  match data with
                  | VDict d =>
                      n <- count_missing_fields data ;;
                      Ok (if (n =? List.length REQUIRED_FIELDS)%nat
                          then None else Some d)
                  | _ => Ok None
                  end in
                match usable with
                | Raise e => Result db tr (Uncaught e)
                | Ok (Some d) => save w db tr id (prepare w url d)
                | Ok None =>
                    match page_title w html with
                    | Raise e =>
                        logged w db tr id "failed"
                          ("Parse failed and fallback error: " ++ exn_msg e)
                    | Ok title =>
                        let r := logged w db tr id "failed"
                                   "Parse failed: invalid JSON (fallback used)" in
                        save w (final_db r) (trace r) id
                             (prepare w url (fallback_record title url))
                    end
                end
            end
        end
  end.

(** The loop of [process_links] over the links it fetched. *)
Fixpoint process_links (w : world) (db : Db.database) (links : list raw_link)
  : Db.database * list action * ending :=
  match links with
  | [] => (db, [], NextLink)
  | link :: rest =>
      let r := process_link w db link in
      match how r with
      | Uncaught e => (final_db r, trace r, Uncaught e)
      | NextLink =>
          let '(db', tr, e) := process_links w (final_db r) rest in
          (db', (trace r ++ tr)%list, e)
      end
  end.

End Parser.

(** ** ein_enrichment.py: search clients, EIN locator, batch enrichment

    The payloads of the search providers are taken with the fields their
    interfaces document: text, or nothing ([None] for a key that is absent or
    null). *)
Module EinEnrichment.
Import PyStr.

(** [os.getenv] of the key, stripped, with the hard-coded fallback of lines
    40 to 47. *)
Definition key_or (environ : string -> option string)
                  (name placeholder : string) : string :=
  let v := strip (match environ name with Some s => s | None => EmptyString end) in
  if is_empty v then placeholder else v.

Definition SERPAPI_KEY (environ : string -> option string) : string :=
  key_or environ "SERPAPI_KEY" "SERPAI_KEY".
Definition GOOGLE_API_KEY (environ : string -> option string) : string :=
  key_or environ "GOOGLE_API_KEY" "GOOGLE_API_KEY".
Definition GOOGLE_CSE_ID (environ : string -> option string) : string :=
  key_or environ "GOOGLE_CSE_ID" "GOOGLE_CSE_ID".

(** A normalized search result, [{title, link, snippet}]. *)
Record hit : Type := Hit {
  title : option string;
  link : option string;
  snippet : option string
}.

(** An entry of SerpAPI's [organic_results]. *)
Record serp_item : Type := SerpItem {
  serp_title : option string;
  serp_link : option string;
  serp_url : option string;
  serp_snippet : option string
}.

(** An entry of the [items] of Google Custom Search. *)
Record cse_item : Type := CseItem {
  cse_title : option string;
  cse_link : option string;
  cse_snippet : option string
}.

(** The outside world of the module.  An optional client is [None] when
    its import failed; [Raise] is any exception inside the [try] that wraps
    the request and the reading of its payload. *)
Record providers : Type := Providers {
  environ : string -> option string;
  GoogleSearch : option (string -> nat -> res (list serp_item));
  google_build : option (string -> nat -> res (list cse_item));
  cse_http : string -> nat -> res (list cse_item);
  (** [requests.get(link, timeout=REQUEST_TIMEOUT).text] *)
  page_text : string -> res string
}.

(** The requests that leave the process, in order. *)
Inductive call : Type :=
| SerpApiCall (query : string) (num : nat)
| CseClientCall (query : string) (num : nat)
| CseHttpCall (query : string) (num : nat)
| PageGet (url : string).

Definition is_cse_call (c : call) : bool :=
  match c with
  | CseClientCall _ _ | CseHttpCall _ _ => true
  | _ => false
  end.

Definition is_serp_call (c : call) : bool :=
  match c with
  | SerpApiCall _ _ => true
  | _ => false
  end.

(** [bool(x)] of an optional text. *)
Definition some_text (x : option string) : bool :=
  match x with
  | Some s => negb (is_empty s)
  | None => false
  end.

(** [a or b] *)
Definition por (a b : option string) : option string :=
  if some_text a then a else b.

Definition serp_hit (item : serp_item) : hit :=
  Hit (serp_title item)
      (por (serp_link item) (serp_url item))
      (por (serp_snippet item) (Some EmptyString)).

Definition cse_hit (it : cse_item) : hit :=
  Hit (cse_title it) (cse_link it) (cse_snippet it).

Definition serpapi_search (P : providers) (query : string) (num_results : nat)
  : list hit * list call :=
  match is_empty (SERPAPI_KEY (environ P)), GoogleSearch P with
  | false, Some get_dict =>
      match get_dict query num_results with
      | Ok items => (List.map serp_hit items, [SerpApiCall query num_results])
      | Raise _ => ([], [SerpApiCall query num_results])
      end
  | _, _ => ([], [])
  end.

Definition cse_over_http (P : providers) (query : string) (num_results : nat)
  : list hit * list call :=
  match cse_http P query num_results with
  | Ok items => (List.map cse_hit items, [CseHttpCall query num_results])
  | Raise _ => ([], [CseHttpCall query num_results])
  end.

Definition google_cse_search (P : providers) (query : string) (num_results : nat)
  : list hit * list call :=
  if is_empty (GOOGLE_API_KEY (environ P)) || is_empty (GOOGLE_CSE_ID (environ P))
  then ([], [])
  else
    match google_build P with
    | Some execute =>
        let num := Nat.min num_results 500 in
        match execute query num with
        | Ok items => (List.map cse_hit items, [CseClientCall query num])
        | Raise _ =>
            let (out, t) := cse_over_http P query num_results in
            (out, (CseClientCall query num :: t))
        end
    | None => cse_over_http P query num_results
    end.

Definition unified_search (P : providers) (query : string) (num_results : nat)
  : list hit * list call :=
  let (results, t1) := serpapi_search P query num_results in
  match results with
  | _ :: _ => (results, t1)
  | [] =>
      let (fallback, t2) := google_cse_search P query num_results in
      (fallback, (t1 ++ t2)%list)
  end.

Definition is_digit (c : ascii) : bool := (48 <=? code c)%N && (code c <=? 57)%N.

(** The class [\w]. *)
Definition is_word (c : ascii) : bool :=
  is_digit c || Ascii.eqb c "_"
  || ((65 <=? code c)%N && (code c <=? 90)%N)
  || ((97 <=? code c)%N && (code c <=? 122)%N).

Fixpoint digits_then (n : nat) (k : string -> bool) (s : string) : bool :=
  match n with
  | O => k s
  | S m =>
      match s with
      | String c r => is_digit c && digits_then m k r
      | EmptyString => false
      end
  end.

Definition at_word_end (s : string) : bool :=
  match s with
  | EmptyString => true
  | String c _ => negb (is_word c)
  end.

Definition hyphen_then (k : string -> bool) (s : string) : bool :=
  match s with
  | String "-" r => k r
  | _ => false
  end.

(** Whether [\d{2}-\d{7}\b] matches at the head of [s]. *)
Definition ein_here (s : string) : bool :=
  digits_then 2 (hyphen_then (digits_then 7 at_word_end)) s.

(** [EIN_REGEX.search(s)]: the leftmost match of [\b\d{2}-\d{7}\b];
    [after_word] tells whether the character before [s] is of class [\w]. *)
Fixpoint ein_search (after_word : bool) (s : string) : option string :=
  match s with
  | EmptyString => None
  | String c r =>
      if negb after_word && ein_here s then Some (take 10 s)
      else ein_search (is_word c) r
  end.

Definition extract_ein_from_snippet (snippet : string) : option string :=
  if is_empty snippet then None else ein_search false snippet.

Definition text_or_empty (x : option string) : string :=
  match por x (Some EmptyString) with
  | Some s => s
  | None => EmptyString
  end.

(** The first loop of [search_site_for_ein]. *)
Fixpoint scan_snippets (results : list hit) : option string :=
  match results with
  | [] => None
  | r :: rest =>
      let snippet := text_or_empty (snippet r) ++ " " ++ text_or_empty (title r) in
      match extract_ein_from_snippet snippet with
      | Some ein => if is_empty ein then scan_snippets rest else Some ein
      | None => scan_snippets rest
      end
  end.

(** The second loop of [search_site_for_ein]: the pages themselves. *)
Fixpoint scan_pages (P : providers) (results : list hit)
  : option string * list call :=
  match results with
  | [] => (None, [])
  | r :: rest =>
      if some_text (link r) then
        let url := text_or_empty (link r) in
        let found :=
          match page_text P url with
          | Ok html => if is_empty html then None else ein_search false html
          | Raise _ => None
          end in
        match found with
        | Some ein => (Some ein, [PageGet url])
        | None => let (e, t) := scan_pages P rest in (e, PageGet url :: t)
        end
      else scan_pages P rest
  end.

Definition search_site_for_ein (P : providers) (query : string)
  : option string * list call :=
  let (results, t1) := unified_search P query 6 in
  match scan_snippets results with
  | Some ein => (Some ein, t1)
  | None =>
      let (e, t2) := scan_pages P results in
      (e, (t1 ++ t2)%list)
  end.

Definition registry_query (org_name : string) : string :=
  org_name ++ " site:projects.propublica.org OR site:apps.irs.gov".
Definition aggregator_query (org_name : string) : string :=
  org_name ++ " site:causeiq.com".
Definition rating_query (org_name : string) : string :=
  org_name ++ " site:charitynavigator.org".
Definition generic_query (org_name : string) : string :=
  org_name ++ " nonprofit EIN".

Definition search_ein_multisource (P : providers) (org_name : string)
  : option string * list call :=
  let (ein1, t1) := search_site_for_ein P (registry_query org_name) in
  if some_text ein1 then (ein1, t1)
  else
    let (ein2, t2) := search_site_for_ein P (aggregator_query org_name) in
    if some_text ein2 then (ein2, (t1 ++ t2)%list)
    else
      let (ein3, t3) := search_site_for_ein P (rating_query org_name) in
      if some_text ein3 then (ein3, (t1 ++ t2 ++ t3)%list)
      else
        let (ein4, t4) := search_site_for_ein P (generic_query org_name) in
        (ein4, (t1 ++ t2 ++ t3 ++ t4)%list).

(** *** Batch selection *)

Definition is_null (v : value) : bool := Py.is_none v.

Fixpoint ltrim_blanks (s : string) : string :=
  match s with
  | String " " r => ltrim_blanks r
  | _ => s
  end.

Fixpoint rtrim_blanks (s : string) : string :=
  match s with
  | EmptyString => EmptyString
  | String c r =>
      match rtrim_blanks r with
      | EmptyString => if Ascii.eqb c " " then EmptyString else String c EmptyString
      | r' => String c r'
      end
  end.

(** SQL [a = b] on text under the collation of the tables, which ignores
    letter case and trailing blanks. *)
Definition sql_text_eq (a b : string) : bool :=
  String.eqb (lower (rtrim_blanks a)) (lower (rtrim_blanks b)).

(** The [WHERE] clause of [fetch_organizers_to_enrich]. *)
Definition organizer_selectable (r : Db.organizer_row) : bool :=
  (is_null (Db.org_ein r) || is_null (Db.org_facebook r)
   || is_null (Db.org_instagram r) || is_null (Db.org_contact_title r))
  && negb (is_null (Db.org_name r))
  && negb (sql_text_eq (ltrim_blanks (rtrim_blanks (Py.str (Db.org_name r))))
                       EmptyString)
  && negb (List.existsb (sql_text_eq (Py.str (Db.org_name r)))
                        ["None"; "null"; "NULL"]).

(** The [WHERE] clause of [fetch_events_to_enrich]. *)
Definition event_selectable (r : Db.event_row) : bool :=
  is_null (Db.ev_description r) || is_null (Db.ev_event_type r)
  || is_null (Db.ev_dress_code r) || is_null (Db.ev_venue_parking r)
  || is_null (Db.ev_sponsorship_tiers r)
  || is_null (Db.ev_sponsorship_contact r)
  || is_null (Db.ev_past_sponsors r).

(** A [SELECT ... WHERE ... LIMIT] run through a session; without a
    connection [conn.cursor] fails on [None]. *)
Definition select {row : Type} (sess : Db.session) (rows : list row)
                  (where_ : row -> bool) (batch_size : nat) : res (list row) :=
  match sess with
  | Db.NoConnection =>
      Raise (Exn "AttributeError" "'NoneType' object has no attribute 'cursor'")
  | Db.ExecuteError msg => Raise (Exn "Error" msg)
  | Db.Executed => Ok (firstn batch_size (List.filter where_ rows))
  end.

Definition fetch_organizers_to_enrich (sess : Db.session) (db : Db.database)
                                      (batch_size : nat)
  : res (list Db.organizer_row) :=
  select sess (Db.organizers db) organizer_selectable batch_size.

Definition fetch_events_to_enrich (sess : Db.session) (db : Db.database)
                                  (batch_size : nat)
  : res (list Db.event_row) :=
  select sess (Db.events db) event_selectable batch_size.

(** *** Master runner *)

(** Why [enrich_data] stopped. *)
Inductive stop : Type :=
| BudgetExhausted
| NothingLeft
| Raised (e : exn).

Record report : Type := Report {
  end_db : Db.database;
  processed : Z;
  passes : nat;
  why : stop
}.

Section Runner.
(** [process_single_organizer] and [process_single_event]: the store they
    leave behind, and the exception they let through, if any. *)
Variable process_single_organizer :
  Db.database -> Db.organizer_row -> Db.database * option exn.
Variable process_single_event :
  Db.database -> Db.event_row -> Db.database * option exn.
(** The sessions of the two selections of each pass. *)
Variable organizers_session : nat -> Db.session.
Variable events_session : nat -> Db.session.

(** A [for] loop of [enrich_data]: one record, one more processed. *)
Fixpoint for_each {row : Type}
         (process : Db.database -> row -> Db.database * option exn)
         (batch : list row) (db : Db.database) (processed : Z)
  : Db.database * Z * option exn :=
  match batch with
  | [] => (db, processed, None)
  | x :: rest =>
      match process db x with
      | (db', Some e) => (db', processed, Some e)
      | (db', None) => for_each process rest db' (processed + 1)
      end
  end.

(** The [while] loop, [fuel] passes at most; [None] when they do not
    suffice. *)
Fixpoint enrich_passes (fuel pass : nat) (limit : Z)
                       (db : Db.database) (processed : Z) : option report :=
  match fuel with
  | O => None
  | S f =>
      if (processed <? limit)%Z then
        match fetch_organizers_to_enrich (organizers_session pass) db 8 with
        | Raise e => Some (Report db processed (S pass) (Raised e))
        | Ok orgs =>
            match for_each process_single_organizer orgs db processed with
            | (db1, p1, Some e) => Some (Report db1 p1 (S pass) (Raised e))
            | (db1, p1, None) =>
                match fetch_events_to_enrich (events_session pass) db1 8 with
                | Raise e => Some (Report db1 p1 (S pass) (Raised e))
                | Ok evs =>
                    match for_each process_single_event evs db1 p1 with
                    | (db2, p2, Some e) =>
                        Some (Report db2 p2 (S pass) (Raised e))
                    | (db2, p2, None) =>
                        match orgs, evs with
                        | [], [] => Some (Report db2 p2 (S pass) NothingLeft)
                        | _, _ => enrich_passes f (S pass) limit db2 p2
                        end
                    end
                end
            end
        end
      else Some (Report db processed pass BudgetExhausted)
  end.

(** [enrich_data(limit)] *)
Definition enrich_data (limit : Z) (db : Db.database) : option report :=
  enrich_passes (S (Z.to_nat limit)) 0 limit db 0.
End Runner.

End EinEnrichment.

(** ** Vocabulary of the properties *)
Module Spec.
Import PyStr.

(** A text made of whitespace only. *)
Fixpoint only_spaces (s : string) : bool :=
  match s with
  | EmptyString => true
  | String c r => isspace c && only_spaces r
  end.

(** Letter case folded and every whitespace character removed: what is left
    of a text when case and whitespace are disregarded altogether. *)
Fixpoint squeeze (s : string) : string :=
  match s with
  | EmptyString => EmptyString
  | String c r =>
      if isspace c then squeeze r else String (lower_char c) (squeeze r)
  end.

(** Two key fields that differ only by letter case and/or whitespace. *)
Definition differ_only_by_case_or_space (x y : value) : Prop :=
  match x, y with
  | VStr s, VStr t => squeeze s = squeeze t
  | _, _ => x = y
  end.

(** Two key fields that [generate_uid] does not tell apart: both dropped,
    or both kept with the same text once lower-cased and stripped of
    leading and trailing whitespace. *)
Definition key_equiv (x y : value) : Prop :=
  Py.truthy x = Py.truthy y
  /\ (Py.truthy x = true ->
      strip (lower (Py.str x)) = strip (lower (Py.str y))).

(** A schema field that is absent, [None] or whitespace-empty. *)
Definition missing (d : dict) (f : string) : bool :=
  match Py.assoc_get f d with
  | None => true
  | Some v => Py.is_none v || Py.blank v
  end.

Definition missing_count (d : dict) : nat :=
  List.length (List.filter (missing d) Parser.REQUIRED_FIELDS).

(** A field whose value the escalation merge may replace: absent, falsy
    ([None], empty text, zero, [False], empty list or mapping) or
    whitespace-only. *)
Definition unknown (v : value) : bool := negb (Py.truthy v) || Py.blank v.

(** The state of a field after the merge: as it was, or, when it was
    unknown, a truthy value of the supplement. *)
Definition merged_field (d d' : dict) (synth : list (string * value))
                        (k : string) : Prop :=
  Py.dict_get d' k = Py.dict_get d k
  \/ (unknown (Py.dict_get d k) = true
      /\ exists v, In (k, v) synth /\ Py.truthy v = true
                   /\ Py.dict_get d' k = v).

(** Two digits, a hyphen, seven digits, and nothing else. *)
Definition is_ein (e : string) : bool :=
  EinEnrichment.digits_then 2
    (EinEnrichment.hyphen_then (EinEnrichment.digits_then 7 PyStr.is_empty)) e.

(** The first answer of a list of attempts. *)
Fixpoint first_some {A : Type} (attempts : list (option A)) : option A :=
  match attempts with
  | [] => None
  | Some a :: _ => Some a
  | None :: rest => first_some rest
  end.

(** The tax id in the snippet and title of a search result. *)
Definition snippet_match (r : EinEnrichment.hit) : option string :=
  EinEnrichment.ein_search false
    (EinEnrichment.text_or_empty (EinEnrichment.snippet r) ++ " "
       ++ EinEnrichment.text_or_empty (EinEnrichment.title r)).

(** The tax id in the page a search result links to, when it has a link and
    the page can be fetched. *)
Definition page_match (P : EinEnrichment.providers) (r : EinEnrichment.hit)
  : option string :=
  match EinEnrichment.link r with
  | Some url =>
      if PyStr.is_empty url then None
      else match EinEnrichment.page_text P url with
           | Ok html => EinEnrichment.ein_search false html
           | Raise _ => None
           end
  | None => None
  end.



(** No search provider answers the query: each client is missing or raises. *)
Definition providers_down (P : EinEnrichment.providers)
                          (query : string) (n : nat) : Prop :=
  match EinEnrichment.GoogleSearch P with
  | Some get_dict => exists e, get_dict query n = Raise e
  | None => True
  end
  /\ match EinEnrichment.google_build P with
     | Some execute => exists e, execute query (Nat.min n 500) = Raise e
     | None => True
     end
  /\ exists e, EinEnrichment.cse_http P query n = Raise e.

(** A report of [enrich_data] whose reason to stop is borne out: the budget
    is reached, or the last pass selected nothing from the store it left. *)
Definition stops_well (organizers_session events_session : nat -> Db.session)
                      (limit : Z) (r : EinEnrichment.report) : Prop :=
  (EinEnrichment.why r = EinEnrichment.BudgetExhausted ->
   (limit <= EinEnrichment.processed r)%Z)
  /\ (EinEnrichment.why r = EinEnrichment.NothingLeft ->
      (EinEnrichment.processed r < limit)%Z
      /\ (0 < EinEnrichment.passes r)%nat
      /\ EinEnrichment.fetch_organizers_to_enrich
           (organizers_session (Nat.pred (EinEnrichment.passes r)))
           (EinEnrichment.end_db r) 8 = Ok []
      /\ EinEnrichment.fetch_events_to_enrich
           (events_session (Nat.pred (EinEnrichment.passes r)))
           (EinEnrichment.end_db r) 8 = Ok []).

(** A store with nothing in it. *)
Definition empty_db : Db.database := Db.Database [] 1 [] 1 [] true.

(** What [Parser.save] may add to the trace for the record [x]. *)
Definition from_save (x : dict) (a : Parser.action) : Prop :=
  match a with
  | Parser.DeepSynthesize _ _ => False
  | Parser.InsertOrganizer d => d = x
  | Parser.InsertEvent d _ => d = x
  | Parser.LogParseResult _ _ _ => True
  end.

(** The records handed to the upsert layer by an action. *)
Definition persisted (a : Parser.action) : option dict :=
  match a with
  | Parser.InsertOrganizer d => Some d
  | Parser.InsertEvent d _ => Some d
  | _ => None
  end.

(** An action that persists nothing but records made by [Parser.prepare]. *)
Definition from_prepare (w : Parser.world) (url : string) (a : Parser.action)
  : Prop :=
  forall x, persisted a = Some x -> exists d, x = Parser.prepare w url d.

Definition is_deep (a : Parser.action) : bool :=
  match a with
  | Parser.DeepSynthesize _ _ => true
  | _ => false
  end.

End Spec.

(** ** Sample records *)
Module Samples.

Definition gala : dict :=
  [("organizer_name", VStr "Example Gala"); ("organizer_website", VStr "example.org");
   ("event_name", VStr "Spring Gala"); ("event_date", VStr "2025-05-01");
   ("venue_name", VStr "Grand Hall")].

Definition gala_variant : dict :=
  [("organizer_name", VStr " EXAMPLE GALA "); ("organizer_website", VStr "example.org");
   ("organizer_email", VStr "info@example.org");
   ("event_name", VStr "SPRING GALA"); ("event_date", VStr "2025-05-01 ");
   ("venue_name", VStr " grand hall"); ("dress_code", VStr "Black-tie")].

End Samples.

(** ** Sample worlds *)
Module Worlds.
Import Parser.

(** A reply with 23 of the 27 schema fields filled. *)
Definition reply_four_missing : string :=
  "{'event_name': 'Spring Gala', "
  ++ "'event_date': '2025-05-01', "
  ++ "'event_type': 'Gala', "
  ++ "'description': 'Annual benefit', "
  ++ "'venue_name': 'Grand Hall', "
  ++ "'venue_address': '1 Main St', "
  ++ "'venue_city': 'Chicago', "
  ++ "'venue_state': 'IL', "
  ++ "'venue_zip': '60601', "
  ++ "'venue_parking': 'Valet', "
  ++ "'venue_website': 'https://hall.example', "
  ++ "'registration_url': 'https://example.org/gala', "
  ++ "'sponsorship_url': 'https://example.org/sponsor', "
  ++ "'sponsorship_tiers': 'Gold', "
  ++ "'sponsorship_contact': 'a@example.org', "
  ++ "'past_sponsors': 'Acme', "
  ++ "'dress_code': 'Black-tie', "
  ++ "'organizer_name': 'Example Gala', "
  ++ "'organizer_ein': '12-3456789', "
  ++ "'organizer_website': 'example.org', "
  ++ "'organizer_email': 'info@example.org', "
  ++ "'organizer_phone': '555-0100', "
  ++ "'organizer_contact_name': 'Pat'}".


(** A reply with 24 of the 27 schema fields filled. *)
Definition reply_three_missing : string :=
  "{'event_name': 'Spring Gala', "
  ++ "'event_date': '2025-05-01', "
  ++ "'event_type': 'Gala', "
  ++ "'description': 'Annual benefit', "
  ++ "'venue_name': 'Grand Hall', "
  ++ "'venue_address': '1 Main St', "
  ++ "'venue_city': 'Chicago', "
  ++ "'venue_state': 'IL', "
  ++ "'venue_zip': '60601', "
  ++ "'venue_parking': 'Valet', "
  ++ "'venue_website': 'https://hall.example', "
  ++ "'registration_url': 'https://example.org/gala', "
  ++ "'sponsorship_url': 'https://example.org/sponsor', "
  ++ "'sponsorship_tiers': 'Gold', "
  ++ "'sponsorship_contact': 'a@example.org', "
  ++ "'past_sponsors': 'Acme', "
  ++ "'dress_code': 'Black-tie', "
  ++ "'organizer_name': 'Example Gala', "
  ++ "'organizer_ein': '12-3456789', "
  ++ "'organizer_website': 'example.org', "
  ++ "'organizer_email': 'info@example.org', "
  ++ "'organizer_phone': '555-0100', "
  ++ "'organizer_contact_name': 'Pat', "
  ++ "'organizer_contact_title': 'Director'}".

Definition record_three_missing : dict :=
  [ ("event_name", VStr "Spring Gala");
    ("event_date", VStr "2025-05-01");
    ("event_type", VStr "Gala");
    ("description", VStr "Annual benefit");
    ("venue_name", VStr "Grand Hall");
    ("venue_address", VStr "1 Main St");
    ("venue_city", VStr "Chicago");
    ("venue_state", VStr "IL");
    ("venue_zip", VStr "60601");
    ("venue_parking", VStr "Valet");
    ("venue_website", VStr "https://hall.example");
    ("registration_url", VStr "https://example.org/gala");
    ("sponsorship_url", VStr "https://example.org/sponsor");
    ("sponsorship_tiers", VStr "Gold");
    ("sponsorship_contact", VStr "a@example.org");
    ("past_sponsors", VStr "Acme");
    ("dress_code", VStr "Black-tie");
    ("organizer_name", VStr "Example Gala");
    ("organizer_ein", VStr "12-3456789");
    ("organizer_website", VStr "example.org");
    ("organizer_email", VStr "info@example.org");
    ("organizer_phone", VStr "555-0100");
    ("organizer_contact_name", VStr "Pat");
    ("organizer_contact_title", VStr "Director") ].

(** A run in which every page is fetched, the extraction prompt is answered
    by [reply] at once, the deep search finds candidates and its synthesis
    prompt is answered by [synthesis], and every statement is executed. *)
Definition answering (reply synthesis : string) : world :=
  World (fun _ => Some "<html><title>Gala</title></html>")
        (fun _ _ => Ok (fun _ => Ok reply))
        (fun _ _ => DeepPrompt (fun _ => Ok synthesis))
        (fun _ => Ok (Some "Gala"))
        (fun s => Some s)
        (fun _ => Db.Executed) (fun _ => Db.Executed) (fun _ => Db.Executed).

Definition a_link : raw_link := RawLink 1 "https://example.org/gala".

(** A SerpAPI that answers the registry query for Example Foundation with a
    snippet that carries the tax id, and nothing else anywhere. *)
Definition registry_knows : EinEnrichment.providers :=
  EinEnrichment.Providers
    (fun _ => None)
    (Some (fun query _ =>
             if String.eqb query
                  "Example Foundation site:projects.propublica.org OR site:apps.irs.gov"
             then Ok [EinEnrichment.SerpItem
                        (Some "Example Foundation - Nonprofit Explorer")
                        (Some "https://projects.propublica.org/nonprofits/organizations/123456789")
                        None
                        (Some "Example Foundation. EIN: 12-3456789. Chicago, IL.")]
             else Ok []))
    None
    (fun _ _ => Raise (Exn "HTTPError" "403 Client Error"))
    (fun _ => Raise (Exn "ConnectionError" "unreachable")).

(** No search client at all, and a Custom Search endpoint that refuses. *)
Definition nothing_works : EinEnrichment.providers :=
  EinEnrichment.Providers
    (fun _ => None) None None
    (fun _ _ => Raise (Exn "HTTPError" "403 Client Error"))
    (fun _ => Raise (Exn "ConnectionError" "unreachable")).

(** An organizer row of which only the name is known. *)
Definition unknown_organizer (id : Z) (name : string) : Db.organizer_row :=
  Db.OrganizerRow id name (VStr name) VNone VNone VNone VNone VNone VNone VNone
                  VNone VNone.

(** A store with three organizers to enrich and no event. *)
Definition three_pending : Db.database :=
  Db.Database [ unknown_organizer 1 "Org A"; unknown_organizer 2 "Org B";
                unknown_organizer 3 "Org C" ] 4 [] 1 [] true.

(** A processor that finds nothing and so leaves the store as it is. *)
Definition finds_nothing {row : Type} (db : Db.database) (_ : row)
  : Db.database * option exn := (db, None).

End Worlds.

(** ** Invariants of the store *)
Module Store.

(** No two rows of a table carry the same identity key. *)
Definition unique_uids (db : Db.database) : Prop :=
  NoDup (List.map Db.org_uid (Db.organizers db))
  /\ NoDup (List.map Db.ev_uid (Db.events db)).

(** The ids of a table are positive, pairwise different, and below its
    [AUTO_INCREMENT] counter, which is positive as well. *)
Definition ids_in_sequence (db : Db.database) : Prop :=
  (0 < Db.organizers_auto_increment db)%Z
  /\ (0 < Db.events_auto_increment db)%Z
  /\ Forall (fun r => (0 < Db.org_id r < Db.organizers_auto_increment db)%Z)
            (Db.organizers db)
  /\ NoDup (List.map Db.org_id (Db.organizers db))
  /\ Forall (fun r => (0 < Db.ev_id r < Db.events_auto_increment db)%Z)
            (Db.events db)
  /\ NoDup (List.map Db.ev_id (Db.events db)).

(** The organizer an event row points to, if any, is a row of the
    organizers table. *)
Definition event_has_organizer (db : Db.database) (e : Db.event_row) : Prop :=
  match Db.ev_organizer_id e with
  | Some oid => exists r, In r (Db.organizers db) /\ Db.org_id r = oid
  | None => True
  end.

Definition events_have_organizers (db : Db.database) : Prop :=
  Forall (event_has_organizer db) (Db.events db).

(** [db'] holds the rows and log entries of [db], unchanged and in place,
    followed by those that were added since. *)
Definition extends (db db' : Db.database) : Prop :=
  (exists rows, Db.organizers db' = (Db.organizers db ++ rows)%list)
  /\ (exists rows, Db.events db' = (Db.events db ++ rows)%list)
  /\ (exists rows, Db.parse_logs db' = (Db.parse_logs db ++ rows)%list).

(** The store at the end of a run of [process_links]. *)
Definition after_run (run : Db.database * list Parser.action * Parser.ending)
  : Db.database := fst (fst run).

End Store.

(** ** parser.py: selection of the links *)
Module Intake.

(** [fetch_unprocessed_links(limit)]: the links without a parse-log entry,
    [raw_links] being the table of the links with the columns that
    [process_links] reads. *)
Definition fetch_unprocessed_links (sess : Db.session)
                                   (raw_links : list Parser.raw_link)
                                   (db : Db.database) (limit : nat)
  : res (list Parser.raw_link) :=
  EinEnrichment.select sess raw_links
    (fun link =>
       negb (List.existsb
               (fun entry => Z.eqb (Db.pl_raw_link_id entry) (Parser.link_id link))
               (Db.parse_logs db)))
    limit.

(** [process_links(batch_limit)] from its first line. *)
Definition run (sess : Db.session) (w : Parser.world)
               (raw_links : list Parser.raw_link) (db : Db.database)
               (batch_limit : nat)
  : Db.database * list Parser.action * Parser.ending :=
  match fetch_unprocessed_links sess raw_links db batch_limit with
  | Raise e => (db, [], Parser.Uncaught e)
  | Ok links => Parser.process_links w db links
  end.

End Intake.

(** ** Vocabulary of the further properties *)
Module Terms.
Import PyStr.


(** An outcome of a chat-completion request after which [Parser.gpt_call]
    asks again: an exception whose text names a rate limit or a transient
    failure. *)
Definition retried (outcome : res string) : bool :=
  match outcome with
  | Raise e =>
      Parser.is_rate_limit (lower (exn_msg e))
      || Parser.is_transient (lower (exn_msg e))
  | Ok _ => false
  end.

(** What [Parser.gpt_call] makes of the outcome it stops at. *)
Definition settled (outcome : res string) : value :=
  match outcome with
  | Ok content =>
      if Py.truthy (Decoder.safe_json content)
      then Decoder.safe_json content else VDict []
  | Raise _ => VDict []
  end.

Definition fallback_message : string :=
  "Parse failed: invalid JSON (fallback used)".

Definition saved_message (missing : nat) : string :=
  "Parsed and saved (missing_fields=" ++ Py.int_str (Z.of_nat missing) ++ ")".

End Terms.

(** ** Slices of a [str]

    [len] and slices of a Python [str] count code points; in the UTF-8 bytes
    of the text a code point starts at every byte that is not a continuation
    byte (0x80 to 0xBF). *)
Module Utf8.
Import PyStr.

Definition is_continuation (c : ascii) : bool :=
  (128 <=? code c)%N && (code c <? 192)%N.

(** [len(s)] *)
Fixpoint length (s : string) : nat :=
  match s with
  | EmptyString => O
  | String c r => if is_continuation c then length r else S (length r)
  end.

(** [s[:n]] for [n >= 0] *)
Fixpoint take (n : nat) (s : string) : string :=
  match s with
  | EmptyString => EmptyString
  | String c r =>
      if is_continuation c then String c (take n r)
      else match n with
           | O => EmptyString
           | S m => String c (take m r)
           end
  end.

End Utf8.

(** ** ein_enrichment.py and db.py: the processors of the batch run *)
Module Enrich.
Import PyStr.

(** [gpt_call] of ein_enrichment.py.  [client i] is what the chat-completion
    request of attempt [i] does: the text of the reply (empty for a reply
    without content) or the exception raised. *)
Fixpoint gpt_attempts (client : nat -> res string) (i remaining : nat) : value :=
  match remaining with
  | O => VDict []
  | S k =>
      match client i with
      | Ok content =>
          Decoder.safe_json (if is_empty content then "{}" else content)
      | Raise e =>
          let msg := exn_msg e in
          if contains "rate limit" (lower msg) || contains "429" msg
          then gpt_attempts client (S i) k
          else if Parser.any_in ["timeout"; "timed out"; "502"; "503"; "504"]
                                (lower msg)
          then gpt_attempts client (S i) k
          else VDict []
      end
  end.

Definition gpt_call (client : nat -> res string) (max_retries : nat) : value :=
  gpt_attempts client 1 max_retries.

(** [trim_len(val, maxlen)]; every call of the module passes a positive
    literal for [maxlen]. *)
Definition trim_len (val : value) (maxlen : nat) : value :=
  if negb (Py.truthy val) then val
  else VStr (Utf8.take maxlen (Py.str val)).

(** [json_if_needed(val)], with [dumps] for
    [json.dumps(val, ensure_ascii=False)]; [None] is Python's [None]. *)
Definition json_if_needed (dumps : value -> string) (val : value)
  : option string :=
  match val with
  | VNone => None
  | VStr EmptyString => None
  | VList _ => Some (dumps val)
  | VDict _ => Some (dumps val)
  | _ => Some (Py.str val)
  end.

(** [a or b] *)
Definition py_or (a b : value) : value := if Py.truthy a then a else b.

(** [k in v] for a [str] [k] *)
Definition py_in (k : string) (v : value) : res bool :=
  match v with
  | VDict d => Ok (Py.assoc_mem k d)
  | VList l =>
      Ok (List.existsb (fun x => match x with
                                 | VStr s => String.eqb s k
                                 | _ => false
                                 end) l)
  | VStr s => Ok (contains k s)
  | _ => Raise (Exn "TypeError"
                    ("argument of type '" ++ Py.type_name v
                       ++ "' is not iterable"))
  end.

(** A row of [ein_enrichment_logs]. *)
Record ein_log : Type := EinLog {
  el_organizer_id : Z;
  el_source : string;
  el_ein : option string;
  el_status : string;
  el_message : string
}.

(** The tables the batch run writes to. *)
Record store : Type := Store {
  db : Db.database;
  ein_logs : list ein_log
}.

Definition with_organizers (rows : list Db.organizer_row) (d : Db.database)
  : Db.database :=
  Db.Database rows (Db.organizers_auto_increment d)
              (Db.events d) (Db.events_auto_increment d)
              (Db.parse_logs d) (Db.autoinc_gaps d).

Definition with_events (rows : list Db.event_row) (d : Db.database)
  : Db.database :=
  Db.Database (Db.organizers d) (Db.organizers_auto_increment d)
              rows (Db.events_auto_increment d)
              (Db.parse_logs d) (Db.autoinc_gaps d).

(** One assignment [column = %s] of an [UPDATE organizers]. *)
Definition set_organizer_column (r : Db.organizer_row)
                                (assignment : string * value)
  : Db.organizer_row :=
  let (column, v) := assignment in
  if String.eqb column "ein" then
    Db.OrganizerRow (Db.org_id r) (Db.org_uid r) (Db.org_name r) v
      (Db.org_website r) (Db.org_email r) (Db.org_phone r)
      (Db.org_contact_name r) (Db.org_contact_title r)
      (Db.org_contact_email r) (Db.org_facebook r) (Db.org_instagram r)
  else if String.eqb column "facebook" then
    Db.OrganizerRow (Db.org_id r) (Db.org_uid r) (Db.org_name r) (Db.org_ein r)
      (Db.org_website r) (Db.org_email r) (Db.org_phone r)
      (Db.org_contact_name r) (Db.org_contact_title r)
      (Db.org_contact_email r) v (Db.org_instagram r)
  else if String.eqb column "instagram" then
    Db.OrganizerRow (Db.org_id r) (Db.org_uid r) (Db.org_name r) (Db.org_ein r)
      (Db.org_website r) (Db.org_email r) (Db.org_phone r)
      (Db.org_contact_name r) (Db.org_contact_title r)
      (Db.org_contact_email r) (Db.org_facebook r) v
  else if String.eqb column "contact_title" then
    Db.OrganizerRow (Db.org_id r) (Db.org_uid r) (Db.org_name r) (Db.org_ein r)
      (Db.org_website r) (Db.org_email r) (Db.org_phone r)
      (Db.org_contact_name r) v
      (Db.org_contact_email r) (Db.org_facebook r) (Db.org_instagram r)
  else r.

(** [UPDATE organizers SET ... WHERE id = %s], executed. *)
Definition update_organizers (to_set : list (string * value)) (id : Z)
                             (d : Db.database) : Db.database :=
  with_organizers
    (List.map (fun r => if Z.eqb (Db.org_id r) id
                        then fold_left set_organizer_column to_set r
                        else r)
              (Db.organizers d)) d.

(** One assignment of an [UPDATE events]. *)
Definition set_event_column (r : Db.event_row) (assignment : string * value)
  : Db.event_row :=
  let (column, v) := assignment in
  let make description event_type dress_code venue_parking
           sponsorship_tiers sponsorship_contact past_sponsors :=
    Db.EventRow (Db.ev_id r) (Db.ev_uid r) (Db.ev_name r) (Db.ev_date r)
      event_type description (Db.ev_venue_name r) (Db.ev_venue_address r)
      (Db.ev_venue_city r) (Db.ev_venue_state r) (Db.ev_venue_zip r)
      venue_parking (Db.ev_venue_website r) (Db.ev_registration_url r)
      (Db.ev_sponsorship_url r) sponsorship_tiers sponsorship_contact
      past_sponsors dress_code (Db.ev_organizer_id r) in
  if String.eqb column "description" then
    make v (Db.ev_event_type r) (Db.ev_dress_code r) (Db.ev_venue_parking r)
         (Db.ev_sponsorship_tiers r) (Db.ev_sponsorship_contact r)
         (Db.ev_past_sponsors r)
  else if String.eqb column "event_type" then
    make (Db.ev_description r) v (Db.ev_dress_code r) (Db.ev_venue_parking r)
         (Db.ev_sponsorship_tiers r) (Db.ev_sponsorship_contact r)
         (Db.ev_past_sponsors r)
  else if String.eqb column "dress_code" then
    make (Db.ev_description r) (Db.ev_event_type r) v (Db.ev_venue_parking r)
         (Db.ev_sponsorship_tiers r) (Db.ev_sponsorship_contact r)
         (Db.ev_past_sponsors r)
  else if String.eqb column "venue_parking" then
    make (Db.ev_description r) (Db.ev_event_type r) (Db.ev_dress_code r) v
         (Db.ev_sponsorship_tiers r) (Db.ev_sponsorship_contact r)
         (Db.ev_past_sponsors r)
  else if String.eqb column "sponsorship_tiers" then
    make (Db.ev_description r) (Db.ev_event_type r) (Db.ev_dress_code r)
         (Db.ev_venue_parking r) v (Db.ev_sponsorship_contact r)
         (Db.ev_past_sponsors r)
  else if String.eqb column "sponsorship_contact" then
    make (Db.ev_description r) (Db.ev_event_type r) (Db.ev_dress_code r)
         (Db.ev_venue_parking r) (Db.ev_sponsorship_tiers r) v
         (Db.ev_past_sponsors r)
  else if String.eqb column "past_sponsors" then
    make (Db.ev_description r) (Db.ev_event_type r) (Db.ev_dress_code r)
         (Db.ev_venue_parking r) (Db.ev_sponsorship_tiers r)
         (Db.ev_sponsorship_contact r) v
  else r.

(** [UPDATE events SET ... WHERE id = %s], executed. *)
Definition update_events (to_set : list (string * value)) (id : Z)
                         (d : Db.database) : Db.database :=
  with_events
    (List.map (fun r => if Z.eqb (Db.ev_id r) id
                        then fold_left set_event_column to_set r
                        else r)
              (Db.events d)) d.

(** [update_organizer_ein(org_id, ein)] of db.py *)
Definition update_organizer_ein (sess : Db.session) (d : Db.database)
                                (org_id : Z) (ein : string) : Db.database :=
  match sess with
  | Db.Executed => update_organizers [("ein", VStr ein)] org_id d
  | _ => d
  end.

(** [log_ein_result(organizer_id, source, ein, status, message)] of db.py *)
Definition log_ein_result (sess : Db.session) (st : store)
                          (organizer_id : Z) (source : string)
                          (ein : option string) (status message : string)
  : store :=
  match sess with
  | Db.Executed =>
      Store (db st)
            (ein_logs st ++ [EinLog organizer_id source ein status message])
  | _ => st
  end.

Definition no_cursor : exn :=
  Exn "AttributeError" "'NoneType' object has no attribute 'cursor'".

(** The assignments [update_organizer_full] collects from [fields]. *)
Definition organizer_assignments (fields : dict) : list (string * value) :=
  ((if Py.truthy (Py.dict_get fields "ein")
    then [("ein", trim_len (Py.dict_get fields "ein") 20)] else [])
   ++ (if negb (Py.is_none (Py.dict_get fields "facebook"))
       then [("facebook",
              trim_len (py_or (Py.dict_get fields "facebook") VNone) 255)]
       else [])
   ++ (if negb (Py.is_none (Py.dict_get fields "instagram"))
       then [("instagram",
              trim_len (py_or (Py.dict_get fields "instagram") VNone) 255)]
       else [])
   ++ (if negb (Py.is_none (Py.dict_get fields "contact_title"))
       then [("contact_title",
              trim_len (py_or (Py.dict_get fields "contact_title") VNone) 255)]
       else []))%list.

(** [update_organizer_full(org_id, fields)]: nothing is caught here, so a
    missing connection fails on [conn.cursor()] and a failing statement
    raises. *)
Definition update_organizer_full (sess : Db.session) (d : Db.database)
                                 (org_id : Z) (fields : dict)
  : res Db.database :=
  match sess with
  | Db.NoConnection => Raise no_cursor
  | _ =>
      match organizer_assignments fields with
      | [] => Ok d
      | to_set =>
          match sess with
          | Db.ExecuteError msg => Raise (Exn "Error" msg)
          | _ => Ok (update_organizers to_set org_id d)
          end
      end
  end.

Definition EVENT_MAPPING : list (string * option nat) :=
  [ ("description", None); ("event_type", Some 100%nat);
    ("dress_code", Some 100%nat); ("venue_parking", Some 100%nat);
    ("sponsorship_tiers", None); ("sponsorship_contact", Some 255%nat);
    ("past_sponsors", None) ].

(** The loop of [update_event_fields] over the mapping. *)
Fixpoint event_assignments (dumps : value -> string) (inferred : value)
                           (mapping : list (string * option nat))
                           (to_set : list (string * value))
  : res (list (string * value)) :=
  match mapping with
  | [] => Ok to_set
  | (field, maxlen) :: rest =>
      raw_val <- Py.py_get inferred field ;;
      match json_if_needed dumps raw_val with
      | None => event_assignments dumps inferred rest to_set
      | Some val =>
          let val := match maxlen with
                     | Some n => trim_len (VStr val) n
                     | None => VStr val
                     end in
          event_assignments dumps inferred rest
                            (to_set ++ [(field, val)])%list
      end
  end.

(** [update_event_fields(event_id, inferred)] *)
Definition update_event_fields (dumps : value -> string) (sess : Db.session)
                               (d : Db.database) (event_id : Z)
                               (inferred : value) : res Db.database :=
  match sess with
  | Db.NoConnection => Raise no_cursor
  | _ =>
      to_set <- event_assignments dumps inferred EVENT_MAPPING [] ;;
      match to_set with
      | [] => Ok d
      | _ =>
          match sess with
          | Db.ExecuteError msg => Raise (Exn "Error" msg)
          | _ => Ok (update_events to_set event_id d)
          end
      end
  end.

(** The collaborators of the processors. *)
Record collaborators : Type := Collaborators {
  providers : EinEnrichment.providers;
  (** the chat-completion attempts of [enrich_social_and_contact(name, website)] *)
  social_client : value -> value -> nat -> res string;
  (** the chat-completion attempts of [enrich_event_fields(event)] *)
  event_client : Db.event_row -> nat -> res string;
  (** [json.dumps(val, ensure_ascii=False)] *)
  json_dumps : value -> string;
  (** the database sessions of the statements for the record with an id *)
  ein_session : Z -> Db.session;
  ein_log_session : Z -> Db.session;
  organizer_session : Z -> Db.session;
  event_session : Z -> Db.session
}.

(** [if k in enrich: to_update[k] = enrich.get(k) or None] *)
Definition take_field (enrich : value) (k : string) (to_update : dict)
  : res dict :=
  present <- py_in k enrich ;;
  if present : bool then
    v <- Py.py_get enrich k ;;
    Ok (Py.assoc_set k (py_or v VNone) to_update)
  else Ok to_update.

(** The first part of [process_single_organizer]: the search for the tax
    id and its log entry.  The searches catch their own exceptions. *)
Definition locate_ein (c : collaborators) (st : store) (org : Db.organizer_row)
  : store * option string :=
  let org_id := Db.org_id org in
  let ein := fst (EinEnrichment.search_ein_multisource
                    (providers c) (Py.str (Db.org_name org))) in
  match ein with
  | Some e =>
      if negb (is_empty e) then
        (log_ein_result (ein_log_session c org_id)
           (Store (update_organizer_ein (ein_session c org_id) (db st) org_id e)
                  (ein_logs st))
           org_id "MultiSource" (Some e) "success" "EIN found",
         ein)
      else
        (log_ein_result (ein_log_session c org_id) st
           org_id "MultiSource" None "failed" "No EIN found",
         ein)
  | None =>
      (log_ein_result (ein_log_session c org_id) st
         org_id "MultiSource" None "failed" "No EIN found",
       ein)
  end.

(** [process_single_organizer(org)]: the store it leaves, and the exception
    it lets through, if any. *)
Definition process_single_organizer (c : collaborators) (st : store)
                                    (org : Db.organizer_row)
  : store * option exn :=
  let org_id := Db.org_id org in
  let (st1, ein) := locate_ein c st org in
  let enrich := gpt_call (social_client c (Db.org_name org) (Db.org_website org)) 4 in
  let to_update :=
    match ein with
    | Some e => if negb (is_empty e) then [("ein", VStr e)] else []
    | None => []
    end in
  match (d1 <- take_field enrich "facebook" to_update ;;
         d2 <- take_field enrich "instagram" d1 ;;
         take_field enrich "contact_title" d2) with
  | Raise e => (st1, Some e)
  | Ok [] => (st1, None)
  | Ok to_update =>
      match update_organizer_full (organizer_session c org_id) (db st1)
                                  org_id to_update with
      | Raise e => (st1, Some e)
      | Ok d => (Store d (ein_logs st1), None)
      end
  end.

(** [process_single_event(ev)] *)
Definition process_single_event (c : collaborators) (st : store)
                                (ev : Db.event_row) : store * option exn :=
  let inferred := gpt_call (event_client c ev) 4 in
  if Py.truthy inferred then
    match update_event_fields (json_dumps c) (event_session c (Db.ev_id ev))
                              (db st) (Db.ev_id ev) inferred with
    | Raise e => (st, Some e)
    | Ok d => (Store d (ein_logs st), None)
    end
  else (st, None).

(** The processors as [enrich_data] sees them: the log of the searches
    does not feed back into the run. *)
Definition organizer_step (c : collaborators) (d : Db.database)
                          (org : Db.organizer_row) : Db.database * option exn :=
  let (st, e) := process_single_organizer c (Store d []) org in (db st, e).

Definition event_step (c : collaborators) (d : Db.database)
                      (ev : Db.event_row) : Db.database * option exn :=
  let (st, e) := process_single_event c (Store d []) ev in (db st, e).

(** [enrich_data(limit)] with the processors of the module. *)
Definition enrich_data (c : collaborators)
                       (organizers_session events_session : nat -> Db.session)
                       (limit : Z) (d : Db.database)
  : option EinEnrichment.report :=
  EinEnrichment.enrich_data (organizer_step c) (event_step c)
                            organizers_session events_session limit d.

End Enrich.

(** ** Vocabulary of the properties of the batch run *)
Module Filling.

(** The columns of an organizer row that the enrichment never writes. *)
Definition organizer_identity (r : Db.organizer_row) :=
  (Db.org_id r, Db.org_uid r, Db.org_name r, Db.org_website r,
   Db.org_email r, Db.org_phone r, Db.org_contact_name r,
   Db.org_contact_email r).

(** The columns of an event row that the enrichment never writes. *)
Definition event_identity (r : Db.event_row) :=
  (Db.ev_id r, Db.ev_uid r, Db.ev_name r, Db.ev_date r,
   (Db.ev_venue_name r, Db.ev_venue_address r, Db.ev_venue_city r,
    Db.ev_venue_state r, Db.ev_venue_zip r, Db.ev_venue_website r),
   Db.ev_registration_url r, Db.ev_sponsorship_url r, Db.ev_organizer_id r).

(** A tax id of the pattern, as a column value. *)
Definition ein_text (v : value) : Prop :=
  exists e, v = VStr e /\ Spec.is_ein e = true.

(** A non-empty text of at most [maxlen] characters. *)
Definition short_text (maxlen : nat) (v : value) : Prop :=
  exists t, v = VStr t /\ PyStr.is_empty t = false
            /\ (Utf8.length t <= maxlen)%nat.

(** A text, of at most [maxlen] characters when there is a bound. *)
Definition bounded_text (maxlen : option nat) (v : value) : Prop :=
  exists t, v = VStr t
            /\ match maxlen with
               | Some n => (Utf8.length t <= n)%nat
               | None => True
               end.

(** A column that was left as it was or filled with a value of the kind
    [P]. *)
Definition kept_or (P : value -> Prop) (old new : value) : Prop :=
  new = old \/ P new.

Definition organizer_enriched (r r' : Db.organizer_row) : Prop :=
  organizer_identity r' = organizer_identity r
  /\ kept_or ein_text (Db.org_ein r) (Db.org_ein r')
  /\ kept_or (short_text 255) (Db.org_facebook r) (Db.org_facebook r')
  /\ kept_or (short_text 255) (Db.org_instagram r) (Db.org_instagram r')
  /\ kept_or (short_text 255) (Db.org_contact_title r) (Db.org_contact_title r').

Definition event_enriched (r r' : Db.event_row) : Prop :=
  event_identity r' = event_identity r
  /\ kept_or (bounded_text None) (Db.ev_description r) (Db.ev_description r')
  /\ kept_or (bounded_text (Some 100%nat)) (Db.ev_event_type r) (Db.ev_event_type r')
  /\ kept_or (bounded_text (Some 100%nat)) (Db.ev_dress_code r) (Db.ev_dress_code r')
  /\ kept_or (bounded_text (Some 100%nat)) (Db.ev_venue_parking r)
             (Db.ev_venue_parking r')
  /\ kept_or (bounded_text None) (Db.ev_sponsorship_tiers r)
             (Db.ev_sponsorship_tiers r')
  /\ kept_or (bounded_text (Some 255%nat)) (Db.ev_sponsorship_contact r)
             (Db.ev_sponsorship_contact r')
  /\ kept_or (bounded_text None) (Db.ev_past_sponsors r) (Db.ev_past_sponsors r').

(** [d'] is [d] with enrichment columns filled in: the same rows in the
    same order, nothing else touched. *)
Definition enriched (d d' : Db.database) : Prop :=
  Forall2 organizer_enriched (Db.organizers d) (Db.organizers d')
  /\ Forall2 event_enriched (Db.events d) (Db.events d')
  /\ Db.parse_logs d' = Db.parse_logs d
  /\ Db.organizers_auto_increment d' = Db.organizers_auto_increment d
  /\ Db.events_auto_increment d' = Db.events_auto_increment d.

(** What an assignment of [update_organizer_full] writes when the fields
    come from [process_single_organizer]. *)
Definition organizer_assignment (a : string * value) : Prop :=
  if String.eqb (fst a) "ein" then ein_text (snd a)
  else short_text 255 (snd a).

(** What an assignment of [update_event_fields] writes. *)
Definition event_assignment (a : string * value) : Prop :=
  exists maxlen, In (fst a, maxlen) Enrich.EVENT_MAPPING
                 /\ bounded_text maxlen (snd a).

(** The fields [process_single_organizer] hands to
    [update_organizer_full]: a tax id of the pattern, and for the other
    columns a truthy value or [None]. *)
Definition organizer_fields (fields : dict) : Prop :=
  (Py.truthy (Py.dict_get fields "ein") = true ->
   ein_text (Py.dict_get fields "ein"))
  /\ Forall (fun k => Py.dict_get fields k = VNone
                      \/ Py.truthy (Py.dict_get fields k) = true)
            ["facebook"; "instagram"; "contact_title"].

(** An organizer that the selection of the batch run returns and whose tax
    id is not known. *)
Definition awaits_ein (r : Db.organizer_row) : bool :=
  EinEnrichment.organizer_selectable r && EinEnrichment.is_null (Db.org_ein r).

(** An outcome of a chat-completion request after which
    [Enrich.gpt_call] asks again. *)
Definition retried (outcome : res string) : bool :=
  match outcome with
  | Raise e =>
      PyStr.contains "rate limit" (PyStr.lower (exn_msg e))
      || PyStr.contains "429" (exn_msg e)
      || Parser.any_in ["timeout"; "timed out"; "502"; "503"; "504"]
                       (PyStr.lower (exn_msg e))
  | Ok _ => false
  end.

(** What [Enrich.gpt_call] makes of the outcome it stops at. *)
Definition settled (outcome : res string) : value :=
  match outcome with
  | Ok content =>
      Decoder.safe_json (if PyStr.is_empty content then "{}" else content)
  | Raise _ => VDict []
  end.

End Filling.

(** ** Sample batch runs *)
Module Batch.


(** Searches that find nothing, and a model that answers with a list. *)
Definition unhelpful : Enrich.collaborators :=
  Enrich.Collaborators
    Worlds.nothing_works
    (fun _ _ _ => Ok "{}")
    (fun _ _ => Ok "['no idea']")
    (fun _ => "null")
    (fun _ => Db.Executed) (fun _ => Db.Executed)
    (fun _ => Db.Executed) (fun _ => Db.Executed).

Definition spring_gala : Db.event_row :=
  Db.EventRow 1 "e1" (VStr "Spring Gala") (VStr "2025-05-01") VNone VNone
              (VStr "Grand Hall") VNone (VStr "Chicago") (VStr "IL") VNone
              VNone VNone (VStr "https://example.org/gala") VNone VNone VNone
              VNone VNone (Some 1%Z).

(** One organizer of which only the name is known, and one event of it. *)
Definition one_of_each : Db.database :=
  Db.Database [Worlds.unknown_organizer 1 "Example Foundation"] 2
              [spring_gala] 2 [] true.

End Batch.

(** ** fetcher.py *)
Module Fetcher.
Import PyStr.

(** What [requests.get] answers. *)
Record response : Type := Response { status_code : Z; text : string }.

(** What [fetch_page] does, in order: a headless attempt, a pause of so
    many half seconds, the plain request. *)
Inductive step : Type :=
| Headless (attempt : nat)
| Sleep (half_seconds : nat)
| Requests.

Definition _fetch_with_requests (get : string -> res response) (url : string)
  : option string :=
  match get url with
  | Ok resp =>
      if Z.eqb (status_code resp) 200 && negb (is_empty (text resp))
      then Some (text resp) else None
  | Raise _ => None
  end.

(** The loop of [fetch_page]: [headless attempt] is what
    [asyncio.run(_fetch_with_playwright(url))] does at that attempt, and
    [remaining] counts the attempts left of [range(1, tries + 1)]. *)
Fixpoint attempts (headless : nat -> res string) (tries attempt remaining : nat)
  : option string * list step :=
  match remaining with
  | O => (None, [])
  | S k =>
      match headless attempt with
      | Ok html =>
          if negb (is_empty html) then (Some html, [Headless attempt])
          else
            let (found, steps) := attempts headless tries (S attempt) k in
            (found, Headless attempt :: Sleep (3 * attempt) :: steps)
      | Raise _ =>
          if Nat.eqb attempt tries then (None, [Headless attempt])
          else
            let (found, steps) := attempts headless tries (S attempt) k in
            (found, Headless attempt :: Sleep (3 * attempt) :: steps)
      end
  end.

Definition fetch_page (headless : string -> nat -> res string)
                      (get : string -> res response)
                      (url : string) (tries : nat) (requests_fallback : bool)
  : option string * list step :=
  match attempts (headless url) tries 1 tries with
  | (Some html, steps) => (Some html, steps)
  | (None, steps) =>
      if requests_fallback
      then (_fetch_with_requests get url, (steps ++ [Requests])%list)
      else (None, steps)
  end.

(** A headless attempt that gives a page. *)
Definition gives_page (outcome : res string) : bool :=
  match outcome with
  | Ok html => negb (is_empty html)
  | Raise _ => false
  end.

Definition is_headless (s : step) : bool :=
  match s with Headless _ => true | _ => false end.

Definition is_requests (s : step) : bool :=
  match s with Requests => true | _ => false end.

End Fetcher.

(** ** search_scraper.py

    The payload of SerpAPI is taken with the fields its interface
    documents, each a text or absent. *)
Module Scraper.
Import PyStr.

Definition SERPAPI_KEY : string := EmptyString.
Definition SEARCH_RESULTS_PER_QUERY : nat := 500.
Definition SEARCH_SAVE_LIMIT : nat := 1000.

Definition QUERIES : list string :=
  [ "auction gala Chicago Illinois";
    "fundraising event Chicago Illinois";
    "charity gala Chicago Illinois";
    "charity fundraiser Chicago 2025";
    "nonprofit gala Chicago 2025";
    "fundraising gala Chicago 2025";
    "charity golf tournament Chicago";
    "charity run Chicago 2025";
    "benefit concert Chicago 2025";
    "charity ball Chicago 2025";
    "annual gala Chicago nonprofit";
    "foundation gala Chicago";
    "philanthropy gala Chicago";
    "black tie gala Chicago";
    "charity dinner Chicago 2025";
    "fundraiser dinner Chicago";
    "nonprofit fundraiser Chicago";
    "gala fundraiser Chicago Illinois 2025";
    "charity auction Chicago";
    "benefit gala Chicago Illinois";
    "charity banquet Chicago";
    "fundraising walk Chicago 2025";
    "foundation fundraising event Chicago";
    "charity festival Chicago 2025";
    "community fundraiser Chicago";
    "corporate philanthropy event Chicago";
    "gala tickets chicago charity";
    "nonprofit events Chicago 2025";
    "charity gala 'Chicago, IL'";
    "Chicago 'fundraising gala' site:eventbrite.com" ].

(** An entry of [organic_results] or [local_results]. *)
Record item : Type := Item {
  it_title : option string;
  it_name : option string;
  it_link : option string;
  it_url : option string;
  it_displayed_link : option string;
  it_snippet : option string;
  it_description : option string
}.

(** [resp.json()] *)
Record payload : Type := Payload {
  organic_results : option (list item);
  local_results : option (list item)
}.

(** A cleaned result, [{title, link, snippet}]. *)
Record result : Type := Result {
  r_title : string;
  r_link : string;
  r_snippet : string
}.

(** [x or EmptyString] *)
Definition text_or_empty (x : option string) : string :=
  match x with
  | Some s => s
  | None => EmptyString
  end.

(** [a or b] on lists that may be absent *)
Definition list_or (a : option (list item)) (b : list item) : list item :=
  match a with
  | Some (x :: l) => x :: l
  | _ => b
  end.

(** The loop over the results of a payload. *)
Fixpoint cleaned (results : list item) : list result :=
  match results with
  | [] => []
  | r :: rest =>
      let title := text_or_empty (EinEnrichment.por (it_title r) (it_name r)) in
      let link :=
        text_or_empty
          (EinEnrichment.por (it_link r)
             (EinEnrichment.por (it_url r) (it_displayed_link r))) in
      let snippet :=
        text_or_empty (EinEnrichment.por (it_snippet r) (it_description r)) in
      if negb (is_empty link) then Result title link snippet :: cleaned rest
      else cleaned rest
  end.

(** [serpapi_search(query, num_results)] with the module's key [key];
    [http query num] is the request up to [resp.json()].  The second
    component lists the requests made. *)
Definition serpapi_search (key : string)
                          (http : string -> nat -> res payload)
                          (query : string) (num_results : nat)
  : list result * list (string * nat) :=
  if is_empty key || String.eqb key "YOUR_SERPAPI_KEY" then ([], [])
  else
    match http query num_results with
    | Raise _ => ([], [(query, num_results)])
    | Ok data =>
        let results :=
          list_or (organic_results data) (list_or (local_results data) []) in
        (firstn num_results (cleaned results), [(query, num_results)])
    end.

(** A row of [raw_links]. *)
Record link_row : Type := LinkRow {
  rl_id : Z;
  rl_query : string;
  rl_title : string;
  rl_url : string;
  rl_snippet : string
}.

(** The table, and what the server and the connector are set to: the
    equality of the collation of the unique [url] column, whether the row
    count of a statement counts a matched row that did not change
    ([CLIENT_FOUND_ROWS]), and whether a duplicate spends an
    [AUTO_INCREMENT] value. *)
Record links_table : Type := LinksTable {
  rows : list link_row;
  auto_increment : Z;
  same_url : string -> string -> bool;
  found_rows : bool;
  autoinc_gaps : bool
}.

Definition with_rows (t : links_table) (new_rows : list link_row)
                     (counter : Z) : links_table :=
  LinksTable new_rows counter (same_url t) (found_rows t) (autoinc_gaps t).

(** [save_raw_link(query, title, url, snippet)], where [sess] tells whether
    the statement was executed. *)
Definition save_raw_link (sess : Db.session) (t : links_table)
                         (query title url snippet : string)
  : links_table * bool :=
  match sess with
  | Db.Executed =>
      if List.existsb (fun r => same_url t (rl_url r) url) (rows t)
      then (with_rows t (rows t)
                      (if autoinc_gaps t then auto_increment t + 1
                       else auto_increment t),
            found_rows t)
      else (with_rows t
              (rows t ++ [LinkRow (auto_increment t) (Utf8.take 255 query)
                                  (Utf8.take 255 title) url snippet])
              (auto_increment t + 1),
            true)
  | _ => (t, false)
  end.

(** The state of [main]: the table, [total_saved], and the number of
    statements sent so far, which picks the session of the next one. *)
Record progress : Type := Progress {
  table : links_table;
  total_saved : nat;
  statements : nat
}.

(** The loop of [main] over the results of a query. *)
Fixpoint save_results (session : nat -> Db.session) (q : string)
                      (results : list result) (p : progress) : progress :=
  match results with
  | [] => p
  | item :: rest =>
      if (SEARCH_SAVE_LIMIT <=? total_saved p)%nat then p
      else if is_empty (r_link item) then save_results session q rest p
      else
        let (t, saved) :=
          save_raw_link (session (statements p)) (table p) q
                        (r_title item) (r_link item) (r_snippet item) in
        save_results session q rest
          (Progress t
                    (if saved then S (total_saved p) else total_saved p)
                    (S (statements p)))
  end.

(** The loop of [main] over the queries; the second component lists the
    queries sent to the search. *)
Fixpoint run_queries (key : string) (http : string -> nat -> res payload)
                     (session : nat -> Db.session)
                     (queries : list string) (p : progress)
  : progress * list string :=
  match queries with
  | [] => (p, [])
  | q :: rest =>
      if (SEARCH_SAVE_LIMIT <=? total_saved p)%nat then (p, [])
      else
        let results :=
          fst (serpapi_search key http q SEARCH_RESULTS_PER_QUERY) in
        let (p', asked) :=
          run_queries key http session rest
                      (save_results session q results p) in
        (p', q :: asked)
  end.

(** [main()] *)
Definition main (key : string) (http : string -> nat -> res payload)
                (session : nat -> Db.session) (t : links_table)
  : progress * list string :=
  run_queries key http session QUERIES (Progress t 0 0).

(** The links as [process_links] reads them. *)
Definition raw_links (t : links_table) : list Parser.raw_link :=
  List.map (fun r => Parser.RawLink (rl_id r) (rl_url r)) (rows t).

(** No row has an empty address, no two rows have addresses that the
    collation takes for equal, and the ids are distinct and below the
    counter. *)
Fixpoint distinct_urls (same : string -> string -> bool)
                       (l : list link_row) : Prop :=
  match l with
  | [] => True
  | r :: rest =>
      Forall (fun r' => same (rl_url r) (rl_url r') = false) rest
      /\ distinct_urls same rest
  end.

Definition well_formed (t : links_table) : Prop :=
  Forall (fun r => is_empty (rl_url r) = false) (rows t)
  /\ distinct_urls (same_url t) (rows t)
  /\ Forall (fun r => (rl_id r < auto_increment t)%Z) (rows t)
  /\ NoDup (List.map rl_id (rows t)).

(** What a run that has reached [p] has done to the table [t0] it started
    from. *)
Definition grown (t0 : links_table) (p : progress) : Prop :=
  well_formed (table p)
  /\ (total_saved p <= SEARCH_SAVE_LIMIT)%nat
  /\ same_url (table p) = same_url t0
  /\ found_rows (table p) = found_rows t0
  /\ exists new,
       rows (table p) = (rows t0 ++ new)%list
       /\ (List.length new <= total_saved p)%nat
       /\ (found_rows t0 = false -> List.length new = total_saved p).

(** A search that knows one gala for the first query and is throttled
    afterwards, and a table without rows. *)
Definition one_gala (query : string) (num : nat) : res payload :=
  if String.eqb query "auction gala Chicago Illinois"
  then Ok (Payload
             (Some [ Item (Some "Spring Gala") None
                          (Some "https://example.org/gala") None None
                          (Some "Join us in May.") None;
                     Item None (Some "A result without address") None None
                          None None None ])
             None)
  else Raise (Exn "HTTPError" "429 Too Many Requests").

Definition no_links : links_table := LinksTable [] 1 String.eqb false true.

End Scraper.

(** ** parser.py: the deep search *)
Module Deep.
Import PyStr.

Definition DEEP_SEARCH_MAX_PAGES : nat := 6.
Definition DEEP_SEARCH_SNIPPET_CHARS : nat := 3500.
Definition SEARCH_RESULTS_PER_QUERY : nat := 6.

(** The double quote, as a text. *)
Definition quote : string := String "034" EmptyString.

Definition newline : string := String "010" EmptyString.

(** What [urlparse(url)] gives, as far as it is read. *)
Record url_parts : Type := UrlParts { netloc : string; path : string }.

(** [s.split(sep)] for a separator of one character *)
Fixpoint split (sep : ascii) (s : string) : list string :=
  match s with
  | EmptyString => [EmptyString]
  | String c r =>
      if Ascii.eqb c sep then EmptyString :: split sep r
      else match split sep r with
           | w :: ws => String c w :: ws
           | [] => [String c EmptyString]
           end
  end.

(** [parsed.get(k) if parsed and parsed.get(k) else default] *)
Definition field_or (parsed : value) (k : string) (default : value)
  : res value :=
  if Py.truthy parsed then
    v <- Py.py_get parsed k ;;
    Ok (if Py.truthy v then v else default)
  else Ok default.

(** The last loop of [build_deep_search_queries]. *)
Fixpoint dedupe (seen : list string) (qrs : list string) : list string :=
  match qrs with
  | [] => []
  | q :: rest =>
      let qn := strip q in
      if negb (is_empty qn) && negb (List.existsb (String.eqb qn) seen)
      then qn :: dedupe (qn :: seen) rest
      else dedupe seen rest
  end.

(** The year of [build_deep_search_queries]: what comes before the first
    hyphen of the date when that is a text, nothing otherwise. *)
Definition year_of (parsed : value) : res string :=
  if Py.truthy parsed then
    d <- Py.py_get parsed "event_date" ;;
    if Py.truthy d then
      match d with
      | VStr s => Ok (List.hd EmptyString (split "-" s))
      | _ => Ok EmptyString
      end
    else Ok EmptyString
  else Ok EmptyString.

(** [build_deep_search_queries(url, parsed)], with [urlparse] for the
    function of the standard library. *)
Definition build_deep_search_queries (urlparse : string -> res url_parts)
                                     (url : string) (parsed : value)
  : res (list string) :=
  en <- field_or parsed "event_name" VNone ;;
  let about_event :=
    if Py.truthy en
    then [ Py.str en ++ " " ++ quote ++ "event" ++ quote;
           Py.str en ++ " site:.org OR site:.com" ]
    else [] in
  on <- field_or parsed "organizer_name" VNone ;;
  let about_organizer :=
    if Py.truthy on
    then [ Py.str on ++ " " ++ quote ++ "nonprofit" ++ quote ++ " OR "
             ++ quote ++ "charity" ++ quote;
           Py.str on ++ " site:charitynavigator.org OR site:candid.org OR site:causeiq.com" ]
    else [] in
  let on_site :=
    match urlparse url with
    | Ok parts =>
        if negb (is_empty (netloc parts))
        then [ "site:" ++ netloc parts ++ " " ++ quote
                 ++ Py.str (Enrich.py_or on (Enrich.py_or en (VStr "event")))
                 ++ quote ]
        else []
    | Raise _ => []
    end in
  parsed_url <- urlparse url ;;
  let path_tokens :=
    List.filter (fun t => negb (is_empty t) && (2 <? Utf8.length t)%nat)
                (split "/" (path parsed_url)) in
  let from_path :=
    match path_tokens with
    | [] => []
    | _ => [join " " (firstn 4 path_tokens)]
    end in
  year <- year_of parsed ;;
  city <- field_or parsed "venue_city" (VStr EmptyString) ;;
  let where_and_when :=
    if Py.truthy city || negb (is_empty year)
    then [ "event"
             ++ (if Py.truthy city then " " ++ Py.str city else EmptyString)
             ++ (if negb (is_empty year) then " " ++ year else EmptyString) ]
    else [] in
  Ok (firstn 6 (dedupe []
                  (about_event ++ about_organizer ++ on_site ++ from_path
                     ++ where_and_when)%list)).

(** The inner loop of [deep_synthesize_fields] over the results of a
    query. *)
Fixpoint add_links (results : list Scraper.result) (candidate_urls : list string)
  : list string :=
  match results with
  | [] => candidate_urls
  | r :: rest =>
      let link := Scraper.r_link r in
      if negb (is_empty link)
         && negb (List.existsb (String.eqb link) candidate_urls)
      then add_links rest (candidate_urls ++ [link])%list
      else add_links rest candidate_urls
  end.

(** The loop over the queries, with [serpapi_search] of search_scraper.py;
    the second component lists the requests made. *)
Fixpoint collect (key : string) (http : string -> nat -> res Scraper.payload)
                 (queries : list string) (candidate_urls : list string)
  : list string * list (string * nat) :=
  match queries with
  | [] => (candidate_urls, [])
  | q :: rest =>
      let (results, requests) :=
        Scraper.serpapi_search key http q SEARCH_RESULTS_PER_QUERY in
      let candidate_urls := add_links results candidate_urls in
      if (DEEP_SEARCH_MAX_PAGES * 2 <=? List.length candidate_urls)%nat
      then (candidate_urls, requests)
      else
        let (found, more) := collect key http rest candidate_urls in
        (found, (requests ++ more)%list)
  end.

(** The loop of [fetch_and_aggregate_snippets]: the texts kept, and the
    pages asked for. *)
Fixpoint aggregate (fetch_page : string -> option string)
                   (get_text : string -> res string)
                   (urls : list string) (max_pages chars_per_page cnt : nat)
  : list string * list string :=
  match urls with
  | [] => ([], [])
  | u :: rest =>
      if (max_pages <=? cnt)%nat then ([], [])
      else
        let kept :=
          match fetch_page u with
          | Some html =>
              if is_empty html then None
              else match get_text html with
                   | Ok text =>
                       if is_empty text then None
                       else Some (Utf8.take chars_per_page text)
                   | Raise _ => None
                   end
          | None => None
          end in
        match kept with
        | Some text =>
            let (texts, asked) :=
              aggregate fetch_page get_text rest max_pages chars_per_page
                        (S cnt) in
            (text :: texts, u :: asked)
        | None =>
            let (texts, asked) :=
              aggregate fetch_page get_text rest max_pages chars_per_page cnt in
            (texts, u :: asked)
        end
  end.

(** [fetch_and_aggregate_snippets(urls, max_pages, chars_per_page)] *)
Definition fetch_and_aggregate_snippets (fetch_page : string -> option string)
                                        (get_text : string -> res string)
                                        (urls : list string)
                                        (max_pages chars_per_page : nat)
  : string :=
  join (newline ++ newline)
       (fst (aggregate fetch_page get_text urls max_pages chars_per_page 0)).

(** [json.dumps({k: EmptyString for k in REQUIRED_FIELDS}, ensure_ascii=False,
    indent=2)] *)
Definition fields_json : string :=
  "{" ++ newline
      ++ join ("," ++ newline)
              (List.map (fun k => "  " ++ quote ++ k ++ quote ++ ": "
                                       ++ quote ++ quote)
                        Parser.REQUIRED_FIELDS)
      ++ newline ++ "}".

(** The synthesis prompt. *)
Definition prompt (url snippets : string) : string :=
  join newline
    [ "You are given multiple web page text snippets related to an event and its organizer.";
      "Using the combined snippets, fill in ONLY the requested fields below. If a field cannot be determined, return an empty string.";
      EmptyString;
      "Source URL (original): " ++ url;
      EmptyString;
      "Fields requested (return valid JSON with these exact keys):";
      fields_json;
      EmptyString;
      "Only fill fields that are currently empty in the partial extraction; do not overwrite fields already provided.";
      EmptyString;
      "Combined snippets (multiple pages):";
      Utf8.take (DEEP_SEARCH_SNIPPET_CHARS * 6) snippets ].

(** The collaborators of [deep_synthesize_fields]. *)
Record tools : Type := Tools {
  urlparse : string -> res url_parts;
  (** the key of search_scraper.py and its request *)
  serpapi_key : string;
  serpapi_http : string -> nat -> res Scraper.payload;
  fetch_page : string -> option string;
  (** [BeautifulSoup(html, "html.parser").get_text(" ", strip=True)] *)
  get_text : string -> res string;
  (** the chat-completion attempts for a prompt *)
  chat : string -> nat -> res string
}.

(** The candidate links of a search. *)
Definition candidates (t : tools) (queries : list string) : list string :=
  firstn (DEEP_SEARCH_MAX_PAGES * 2)
         (fst (collect (serpapi_key t) (serpapi_http t) queries [])).

(** Lines 214 to 251 of [deep_synthesize_fields]: what the search comes
    to. *)
Definition search_of (t : tools) (url : string) (parsed : value)
  : Parser.deep_search :=
  match build_deep_search_queries (urlparse t) url
                                  (Enrich.py_or parsed (VDict [])) with
  | Raise e => Parser.DeepRaises e
  | Ok queries =>
      match candidates t queries with
      | [] => Parser.DeepNoCandidates
      | candidate_urls =>
          Parser.DeepPrompt
            (chat t (prompt url
                       (fetch_and_aggregate_snippets
                          (fetch_page t) (get_text t) candidate_urls
                          DEEP_SEARCH_MAX_PAGES DEEP_SEARCH_SNIPPET_CHARS)))
      end
  end.

(** [deep_synthesize_fields(url, parsed)] *)
Definition deep_synthesize_fields (t : tools) (url : string) (parsed : value)
  : res dict :=
  Parser.deep_synthesize_fields (search_of t url parsed).

(** The world of [process_links] around the tools of the deep search. *)
Definition world_of (t : tools) (w : Parser.world) : Parser.world :=
  Parser.World (fetch_page t) (Parser.parse_prompt w) (search_of t)
               (Parser.page_title w) (Parser.parse_date w)
               (Parser.organizer_session w) (Parser.event_session w)
               (Parser.log_session w).

(** Tools with the key as search_scraper.py has it. *)
Definition as_shipped : tools :=
  Tools (fun _ => Ok (UrlParts "example.org" "/events/spring-gala"))
        Scraper.SERPAPI_KEY Scraper.one_gala
        (fun _ => Some "<html><title>Gala</title></html>")
        (fun _ => Ok "Spring Gala, May 1st")
        (fun _ _ => Ok "{}").

(** A query as the search gets it: not empty, and without whitespace at
    its ends. *)
Definition is_query (q : string) : Prop :=
  is_empty q = false /\ strip q = q.

End Deep.

(** ** The export (the second half of parser.py, and the reads of db.py)

    A stored date is read back as the text it was stored from, which is so
    for the dates that [normalize_date] writes. *)
Module Sheets.

Definition EVENT_HEADERS : list string :=
  [ "Event Name"; "Event Date"; "Event Type"; "Description";
    "Venue Name"; "Venue Address"; "Venue City"; "Venue State"; "Venue Zip";
    "Venue Parking"; "Venue Website";
    "Registration URL"; "Sponsorship URL"; "Sponsorship Tiers";
    "Sponsorship Contact"; "Past Sponsors"; "Dress Code"; "Organizer ID" ].

Definition ORGANIZER_HEADERS : list string :=
  [ "Organizer Name"; "EIN"; "Website"; "Email"; "Phone";
    "Contact Name"; "Contact Title"; "Contact Email"; "Facebook"; "Instagram" ].

Definition COMBINED_HEADERS : list string :=
  [ "Event Name"; "Event Date"; "Event Type"; "Venue City"; "Venue State";
    "Registration URL"; "Sponsorship URL"; "Dress Code";
    "Organizer Name"; "EIN"; "Organizer Email"; "Organizer Phone";
    "Organizer Website" ].

(** [fetch_all_events()]: an empty list without a connection; a failing
    statement raises. *)
Definition fetch_all_events (sess : Db.session) (d : Db.database)
  : res (list Db.event_row) :=
  match sess with
  | Db.NoConnection => Ok []
  | Db.ExecuteError msg => Raise (Exn "Error" msg)
  | Db.Executed => Ok (Db.events d)
  end.

(** [fetch_all_organizers()] *)
Definition fetch_all_organizers (sess : Db.session) (d : Db.database)
  : res (list Db.organizer_row) :=
  match sess with
  | Db.NoConnection => Ok []
  | Db.ExecuteError msg => Raise (Exn "Error" msg)
  | Db.Executed => Ok (Db.organizers d)
  end.

(** The cell of a nullable integer column. *)
Definition id_cell (id : option Z) : value :=
  match id with
  | Some z => VInt z
  | None => VNone
  end.

Definition event_cells (e : Db.event_row) : list value :=
  [ Db.ev_name e; VStr (Py.str (Db.ev_date e)); Db.ev_event_type e;
    Db.ev_description e; Db.ev_venue_name e; Db.ev_venue_address e;
    Db.ev_venue_city e; Db.ev_venue_state e; Db.ev_venue_zip e;
    Db.ev_venue_parking e; Db.ev_venue_website e; Db.ev_registration_url e;
    Db.ev_sponsorship_url e; Db.ev_sponsorship_tiers e;
    Db.ev_sponsorship_contact e; Db.ev_past_sponsors e; Db.ev_dress_code e;
    id_cell (Db.ev_organizer_id e) ].

(** [prepare_event_data(events)] *)
Definition prepare_event_data (events : list Db.event_row) : list (list value) :=
  List.map VStr EVENT_HEADERS :: List.map event_cells events.

Definition organizer_cells (o : Db.organizer_row) : list value :=
  [ Db.org_name o; Db.org_ein o; Db.org_website o; Db.org_email o;
    Db.org_phone o; Db.org_contact_name o; Db.org_contact_title o;
    Db.org_contact_email o; Db.org_facebook o; Db.org_instagram o ].

(** [prepare_organizer_data(orgs)] *)
Definition prepare_organizer_data (orgs : list Db.organizer_row)
  : list (list value) :=
  List.map VStr ORGANIZER_HEADERS :: List.map organizer_cells orgs.

(** [org_map.get(id, {})]: of the organizers with an id the mapping keeps
    the last. *)
Definition org_map_get (orgs : list Db.organizer_row) (id : option Z)
  : option Db.organizer_row :=
  match id with
  | Some z => List.find (fun o => Z.eqb (Db.org_id o) z) (List.rev orgs)
  | None => None
  end.

(** The cells of the organizer in a combined row. *)
Definition joined_cells (org : option Db.organizer_row) : list value :=
  match org with
  | Some o => [ Db.org_name o; Db.org_ein o; Db.org_email o; Db.org_phone o;
                Db.org_website o ]
  | None => [ VNone; VNone; VNone; VNone; VNone ]
  end.

Definition combined_cells (orgs : list Db.organizer_row) (e : Db.event_row)
  : list value :=
  ([ Db.ev_name e; VStr (Py.str (Db.ev_date e)); Db.ev_event_type e;
     Db.ev_venue_city e; Db.ev_venue_state e; Db.ev_registration_url e;
     Db.ev_sponsorship_url e; Db.ev_dress_code e ]
   ++ joined_cells (org_map_get orgs (Db.ev_organizer_id e)))%list.

(** [prepare_combined_data(events, orgs)] *)
Definition prepare_combined_data (events : list Db.event_row)
                                 (orgs : list Db.organizer_row)
  : list (list value) :=
  List.map VStr COMBINED_HEADERS :: List.map (combined_cells orgs) events.

(** The three tables [export_data] writes, in the order it writes them, or
    the exception of a failing read. *)
Definition export_tables (events_session organizers_session : Db.session)
                  (d : Db.database) : res (list (string * list (list value))) :=
  events <- fetch_all_events events_session d ;;
  orgs <- fetch_all_organizers organizers_session d ;;
  Ok [ ("Events", prepare_event_data events);
       ("Organizers", prepare_organizer_data orgs);
       ("Events+Organizers", prepare_combined_data events orgs) ].

(** A table whose rows all have [width] cells. *)
Definition rectangular (width : nat) (rows : list (list value)) : Prop :=
  Forall (fun row => List.length row = width) rows.

End Sheets.

(** ** main.py *)
Module Main.
Import PyStr.

Definition SCRIPTS : list (string * string) :=
  [ ("Search (SerpAPI)", "search_scraper.py");
    ("Parse (GPT extraction)", "parser.py");
    ("Enrich (EIN + socials + sponsorship + fields)", "ein_enrichment.py");
    ("Export to Google Sheets", "python export_to_sheets.py") ].

(** The machine [main] runs on: the environment, whether
    [ensure_database()] succeeds, whether a file of the project directory
    exists, and the exit code of a script run to its end. *)
Record host : Type := Host {
  getenv : string -> option string;
  ensure_database : bool;
  script_exists : string -> bool;
  returncode : string -> Z
}.

(** How [main] ends: it returns, or [sys.exit(code)]. *)
Inductive ending : Type :=
| AllFinished
| SysExit (code : Z).

(** [check_env()]: whether it returns. *)
Definition check_env (h : host) : bool :=
  EinEnrichment.some_text (getenv h "OPENAI_API_KEY").

(** The loop of [main] over the scripts, with [run_script_stream] for
    each; the second component lists the scripts that were started. *)
Fixpoint run_scripts (h : host) (scripts : list (string * string))
  : ending * list string :=
  match scripts with
  | [] => (AllFinished, [])
  | (title, filename) :: rest =>
      if negb (script_exists h filename) then (SysExit 1, [])
      else if negb (Z.eqb (returncode h filename) 0)
      then (SysExit (returncode h filename), [filename])
      else
        let (e, started) := run_scripts h rest in
        (e, filename :: started)
  end.

(** [main()] *)
Definition main (h : host) : ending * list string :=
  if negb (check_env h) then (SysExit 1, [])
  else if negb (ensure_database h) then (SysExit 1, [])
  else run_scripts h SCRIPTS.

End Main.

(** * Properties *)

Example sha256_constants :
  nth 0 Sha256.K 0%N = 0x428a2f98%N /\ nth 63 Sha256.K 0%N = 0xc67178f2%N
  /\ nth 0 Sha256.H0 0%N = 0x6a09e667%N /\ nth 7 Sha256.H0 0%N = 0x5be0cd19%N.
Proof. vm_compute. repeat split. Qed.

Example sha256_abc :
  Sha256.hexdigest "abc"
  = "ba7816bf8f01cfea414140de5dae2223b00361a396177a9cb410ff61f20015ad".
Proof. vm_compute. reflexivity. Qed.

Example sha256_empty :
  Sha256.hexdigest EmptyString
  = "e3b0c44298fc1c149afbf4c8996fb92427ae41e4649b934ca495991b7852b855".
Proof. vm_compute. reflexivity. Qed.

Example sha256_two_blocks :
  Sha256.hexdigest "aaaaaaaaaaaaaaaaaaaaaaaaaaaaaaaaaaaaaaaaaaaaaaaaaaaaaaaa"
  = "b35439a4ac6f0948b6d6f9e3c6af0f5f590ce20f1bde7090ef7970686ec6738a".
Proof. vm_compute. reflexivity. Qed.

(** ** Text *)
Section TextFacts.
Import PyStr.

Lemma lstrip_spaces l s :
  Spec.only_spaces l = true -> lstrip (l ++ s) = lstrip s.
Proof.
  induction l as [|c l IH]; simpl; intros H; [reflexivity|].
  apply andb_true_iff in H as [Hc Hl]. rewrite Hc. auto.
Qed.

Lemma rstrip_only_spaces r : Spec.only_spaces r = true -> rstrip r = EmptyString.
Proof.
  induction r as [|c r IH]; simpl; intros H; [reflexivity|].
  apply andb_true_iff in H as [Hc Hr]. rewrite (IH Hr), Hc. reflexivity.
Qed.

Lemma rstrip_spaces s r :
  Spec.only_spaces r = true -> rstrip (s ++ r) = rstrip s.
Proof.
  intros H. induction s as [|c s IH]; simpl.
  - now apply rstrip_only_spaces.
  - rewrite IH. reflexivity.
Qed.

Lemma lstrip_only_spaces r : Spec.only_spaces r = true -> lstrip r = EmptyString.
Proof.
  induction r as [|c r IH]; simpl; intros H; [reflexivity|].
  apply andb_true_iff in H as [Hc Hr]. rewrite Hc. auto.
Qed.

Lemma strip_padding l s r :
  Spec.only_spaces l = true -> Spec.only_spaces r = true ->
  strip (l ++ s ++ r) = strip s.
Proof.
  intros Hl Hr. unfold strip. rewrite (lstrip_spaces _ _ Hl).
  induction s as [|c s IH]; simpl.
  - now rewrite (lstrip_only_spaces _ Hr).
  - destruct (isspace c); [exact IH|].
    change (String c (s ++ r)) with (String c s ++ r).
    now apply rstrip_spaces.
Qed.

Lemma lower_app a b : lower (a ++ b) = lower a ++ lower b.
Proof. induction a as [|c a IH]; simpl; [reflexivity | now rewrite IH]. Qed.

Lemma isspace_lower_char c : isspace (lower_char c) = isspace c.
Proof.
  destruct c as [[] [] [] [] [] [] [] []]; reflexivity.
Qed.

Lemma only_spaces_lower s : Spec.only_spaces (lower s) = Spec.only_spaces s.
Proof.
  induction s as [|c s IH]; simpl; [reflexivity|].
  now rewrite isspace_lower_char, IH.
Qed.

Lemma app_not_empty l s r : s <> EmptyString -> is_empty (l ++ s ++ r) = false.
Proof.
  intros H. destruct l; simpl; [|reflexivity].
  destruct s; [contradiction | reflexivity].
Qed.

End TextFacts.

(** ** Identity hash *)
Section IdentityHash.
Import PyStr.



(** Changing the letter case of a non-empty key and padding it with
    whitespace on either side gives an equivalent key. *)
Lemma key_equiv_case_and_padding l r s t :
  Spec.only_spaces l = true -> Spec.only_spaces r = true ->
  s <> EmptyString -> t <> EmptyString -> lower s = lower t ->
  Spec.key_equiv (VStr (l ++ s ++ r)) (VStr t).
Proof.
  intros Hl Hr Hs Ht Hst. split; simpl.
  - rewrite (app_not_empty l _ r Hs). destruct t; [contradiction|reflexivity].
  - intros _. rewrite !lower_app, strip_padding, Hst;
      rewrite ?only_spaces_lower; auto.
Qed.


End IdentityHash.

(** ** Upserts *)
Section Upserts.
Import Db.
Local Opaque Db.generate_uid.

Lemma find_snoc {A : Type} (p : A -> bool) (l : list A) (x : A) :
  List.find p (l ++ [x])%list
  = match List.find p l with
    | Some y => Some y
    | None => if p x then Some x else None
    end.
Proof.
  induction l as [|y l IH]; simpl; [reflexivity|].
  destruct (p y); [reflexivity | exact IH].
Qed.

(** An executed [insert_organizer] leaves a row of that identity in the
    table, and returns the id of the first such row. *)
Lemma insert_organizer_resolves db data :
  exists r,
    find_organizer (organizer_uid data)
                   (fst (insert_organizer Executed db data)) = Some r
    /\ snd (insert_organizer Executed db data) = Some (org_id r).
Proof.
  unfold insert_organizer.
  destruct (find_organizer (organizer_uid data) db) as [r|] eqn:E; simpl.
  - exists r. split; [exact E | reflexivity].
  - eexists. unfold find_organizer in *. simpl. rewrite find_snoc, E. simpl.
    rewrite String.eqb_refl. split; reflexivity.
Qed.

(** With a row of that identity in the table, [insert_organizer] changes
    no table and resolves to the row. *)
Lemma insert_organizer_existing sess db data r :
  find_organizer (organizer_uid data) db = Some r ->
  organizers (fst (insert_organizer sess db data)) = organizers db
  /\ events (fst (insert_organizer sess db data)) = events db
  /\ parse_logs (fst (insert_organizer sess db data)) = parse_logs db
  /\ (autoinc_gaps db = false -> fst (insert_organizer sess db data) = db)
  /\ (sess = Executed ->
      snd (insert_organizer sess db data) = Some (org_id r)).
Proof.
  intros E. unfold insert_organizer.
  destruct sess; simpl; try rewrite E; simpl;
    repeat split; try reflexivity; try discriminate.
  intros G. unfold spend. destruct db; simpl in *. now rewrite G.
Qed.

Lemma insert_event_resolves db data oid :
  exists r,
    find_event (event_uid data) (insert_event Executed db data oid) = Some r.
Proof.
  unfold insert_event.
  destruct (find_event (event_uid data) db) as [r|] eqn:E; simpl.
  - exists r. exact E.
  - eexists. unfold find_event in *. simpl. rewrite find_snoc, E. simpl.
    rewrite String.eqb_refl. reflexivity.
Qed.

Lemma insert_event_existing sess db data oid r :
  find_event (event_uid data) db = Some r ->
  events (insert_event sess db data oid) = events db
  /\ organizers (insert_event sess db data oid) = organizers db
  /\ parse_logs (insert_event sess db data oid) = parse_logs db
  /\ (autoinc_gaps db = false -> insert_event sess db data oid = db).
Proof.
  intros E. unfold insert_event.
  destruct sess; simpl; try rewrite E; simpl;
    repeat split; try reflexivity.
  intros G. unfold spend. destruct db; simpl in *. now rewrite G.
Qed.


End Upserts.

(** C1. Upsert is idempotent and the first write wins: once a record has been
    upserted, an upsert of a record with the same identity key changes no
    stored row (of any table), and resolves to the same id: the organizer
    upsert returns the id the first call returned, the event upsert, which
    returns nothing, finds the row the first call left.  When the engine
    spends no counter value on duplicates the store is unchanged altogether. *)
Theorem upsert_first_write_wins :
  forall (db : Db.database) (sess : Db.session)
         (org1 org2 ev1 ev2 : dict) (oid1 oid2 : option Z),
    Db.organizer_uid org1 = Db.organizer_uid org2 ->
    Db.event_uid ev1 = Db.event_uid ev2 ->
    (let first := Db.insert_organizer Db.Executed db org1 in
     let second := Db.insert_organizer sess (fst first) org2 in
     Db.organizers (fst second) = Db.organizers (fst first)
     /\ Db.events (fst second) = Db.events (fst first)
     /\ Db.parse_logs (fst second) = Db.parse_logs (fst first)
     /\ (Db.autoinc_gaps db = false -> fst second = fst first)
     /\ snd first <> None
     /\ (sess = Db.Executed -> snd second = snd first))
    /\
    (let first := Db.insert_event Db.Executed db ev1 oid1 in
     let second := Db.insert_event sess first ev2 oid2 in
     Db.events second = Db.events first
     /\ Db.organizers second = Db.organizers first
     /\ Db.parse_logs second = Db.parse_logs first
     /\ (Db.autoinc_gaps db = false -> second = first)
     /\ Db.find_event (Db.event_uid ev1) first <> None
     /\ Db.find_event (Db.event_uid ev2) second
        = Db.find_event (Db.event_uid ev1) first).
Proof.
  intros db sess org1 org2 ev1 ev2 oid1 oid2 UO UE. split; cbv zeta.
  - destruct (insert_organizer_resolves db org1) as (r & F & I).
    assert (G : Db.autoinc_gaps (fst (Db.insert_organizer Db.Executed db org1))
                = Db.autoinc_gaps db).
    { unfold Db.insert_organizer.
      now destruct (Db.find_organizer (Db.organizer_uid org1) db). }
    rewrite UO in F.
    destruct (insert_organizer_existing sess _ org2 _ F) as (A & B & C & D & E).
    rewrite G in D. rewrite I.
    repeat split; auto. discriminate.
  - destruct (insert_event_resolves db ev1 oid1) as (r & F).
    assert (G : Db.autoinc_gaps (Db.insert_event Db.Executed db ev1 oid1)
                = Db.autoinc_gaps db).
    { unfold Db.insert_event.
      now destruct (Db.find_event (Db.event_uid ev1) db). }
    pose proof F as F2. rewrite UE in F2.
    destruct (insert_event_existing sess _ ev2 oid2 _ F2) as (A & B & C & D).
    rewrite G in D.
    repeat split; auto.
    + rewrite F. discriminate.
    + unfold Db.find_event in *. rewrite A, <- UE. reflexivity.
Qed.

Lemma upsert_first_write_wins_witness :
  snd (Db.insert_organizer Db.Executed
         (fst (Db.insert_organizer Db.Executed Spec.empty_db Samples.gala)) Samples.gala_variant)
  = snd (Db.insert_organizer Db.Executed Spec.empty_db Samples.gala)
  /\ Db.events (Db.insert_event Db.Executed
                  (Db.insert_event Db.Executed Spec.empty_db Samples.gala (Some 1%Z))
                  Samples.gala_variant (Some 7%Z))
     = Db.events (Db.insert_event Db.Executed Spec.empty_db Samples.gala (Some 1%Z)).
Proof.
  assert (UO : Db.organizer_uid Samples.gala = Db.organizer_uid Samples.gala_variant)
    by (vm_compute; reflexivity).
  assert (UE : Db.event_uid Samples.gala = Db.event_uid Samples.gala_variant)
    by (vm_compute; reflexivity).
  destruct (upsert_first_write_wins Spec.empty_db Db.Executed
              Samples.gala Samples.gala_variant Samples.gala Samples.gala_variant (Some 1%Z) (Some 7%Z) UO UE)
    as [(_ & _ & _ & _ & _ & H1) (H2 & _)].
  split; [exact (H1 eq_refl) | exact H2].
Defined.


(** Nor is a whitespace-only field the same key as an empty one: the first is
    kept (as an empty component), the second is dropped. *)
Lemma uid_tells_blank_from_empty :
  Forall2 Spec.differ_only_by_case_or_space
    [VStr " "; VStr "example.org"] [VStr EmptyString; VStr "example.org"]
  /\ Db.raw_key [VStr " "; VStr "example.org"] = "-example.org"
  /\ Db.raw_key [VStr EmptyString; VStr "example.org"] = "example.org"
  /\ Db.generate_uid [VStr " "; VStr "example.org"]
     <> Db.generate_uid [VStr EmptyString; VStr "example.org"].
Proof.
  split; [repeat constructor|].
  split; [reflexivity|]. split; [reflexivity|].
  vm_compute. discriminate.
Qed.



Example gala_inserts_resolve_to_id_1 :
  snd (Db.insert_organizer Db.Executed Spec.empty_db Samples.gala) = Some 1%Z
  /\ snd (Db.insert_organizer Db.Executed
            (fst (Db.insert_organizer Db.Executed Spec.empty_db Samples.gala))
            Samples.gala_variant) = Some 1%Z.
Proof. split; vm_compute; reflexivity. Qed.

Lemma filter_idempotent {A : Type} (p : A -> bool) (l : list A) :
  List.filter p (List.filter p l) = List.filter p l.
Proof.
  induction l as [|x l IH]; simpl; [reflexivity|].
  destruct (p x) eqn:E; simpl; [rewrite E, IH|]; auto.
Qed.

(** C9. The identity hash is not injective on key tuples: falsy fields are
    dropped before the rest is joined with a bare hyphen, so a key with a
    hyphen collides with the two-field key it spells, and a key whose first
    field is missing collides with the key whose value has moved there. *)
Theorem generate_uid_not_injective :
  Db.generate_uid [VStr "a-b"; VNone] = Db.generate_uid [VStr "a"; VStr "b"]
  /\ [VStr "a-b"; VNone] <> [VStr "a"; VStr "b"]
  /\ (forall x : value, Db.generate_uid [VNone; x] = Db.generate_uid [x; VNone])
  /\ (forall args : list value,
         Db.generate_uid args = Db.generate_uid (List.filter Py.truthy args))
  /\ ~ (forall a b : list value, Db.generate_uid a = Db.generate_uid b -> a = b).
Proof.
  split; [vm_compute; reflexivity|].
  split; [discriminate|].
  split.
  { intros x. unfold Db.generate_uid, Db.raw_key. simpl.
    destruct (Py.truthy x); reflexivity. }
  split.
  { intros args. unfold Db.generate_uid, Db.raw_key.
    now rewrite filter_idempotent. }
  intros H.
  specialize (H [VStr "a-b"; VNone] [VStr "a"; VStr "b"]).
  discriminate H. vm_compute. reflexivity.
Qed.

(** ** Records *)
Section DictFacts.

Lemma assoc_get_set k k' v d :
  Py.assoc_get k' (Py.assoc_set k v d)
  = if String.eqb k' k then Some v else Py.assoc_get k' d.
Proof.
  induction d as [|[k0 v0] d IH]; simpl; [reflexivity|].
  destruct (String.eqb k k0) eqn:E; simpl.
  - apply String.eqb_eq in E. subst k0.
    destruct (String.eqb k' k); reflexivity.
  - rewrite IH. destruct (String.eqb k' k0) eqn:E0; [|reflexivity].
    apply String.eqb_eq in E0. subst k0.
    rewrite String.eqb_sym, E. reflexivity.
Qed.

Lemma dict_get_set k k' v d :
  Py.dict_get (Py.assoc_set k v d) k'
  = if String.eqb k' k then v else Py.dict_get d k'.
Proof.
  unfold Py.dict_get. rewrite assoc_get_set.
  destruct (String.eqb k' k); reflexivity.
Qed.

Lemma missing_dict_get d f :
  Spec.missing d f = Py.is_none (Py.dict_get d f) || Py.blank (Py.dict_get d f).
Proof.
  unfold Spec.missing, Py.dict_get.
  destruct (Py.assoc_get f d); reflexivity.
Qed.

Lemma count_missing_dict d fields miss :
  Parser.count_missing (VDict d) fields miss
  = Ok (miss + List.length (List.filter (Spec.missing d) fields)).
Proof.
  revert miss. induction fields as [|f fields IH]; intros miss; simpl.
  - f_equal. lia.
  - rewrite IH, missing_dict_get.
    destruct (Py.is_none (Py.dict_get d f) || Py.blank (Py.dict_get d f));
      simpl; f_equal; lia.
Qed.

(** On a mapping, [count_missing_fields] counts the schema fields that are
    absent, [None] or whitespace-empty. *)
Lemma count_missing_fields_dict d :
  Parser.count_missing_fields (VDict d) = Ok (Spec.missing_count d).
Proof.
  unfold Parser.count_missing_fields, Spec.missing_count.
  destruct d as [|kv d]; [reflexivity|].
  cbn [Py.truthy negb]. now rewrite count_missing_dict.
Qed.

End DictFacts.

(** ** The trace of [process_links] *)
Section Traces.
Import Parser.

Lemma save_trace w db tr id x :
  exists rest,
    trace (save w db tr id x) = (tr ++ rest)%list
    /\ Forall (Spec.from_save x) rest.
Proof.
  unfold save.
  destruct (Db.insert_organizer (organizer_session w id) db x) as [db1 oid].
  destruct oid as [o|]; [destruct (negb (Z.eqb o 0))|];
    destruct (count_missing_fields (VDict x));
    unfold logged; cbn [trace]; rewrite <- ?app_assoc;
    eexists; (split; [reflexivity|]); repeat constructor.
Qed.

Lemma from_save_not_deep x rest :
  Forall (Spec.from_save x) rest -> List.filter Spec.is_deep rest = [].
Proof.
  induction 1 as [|a rest Ha _ IH]; simpl; [reflexivity|].
  destruct a; simpl in *; try contradiction; exact IH.
Qed.

End Traces.

Section LinkTrace.
Import Parser.

Lemma from_save_prepare w url d rest :
  Forall (Spec.from_save (prepare w url d)) rest ->
  Forall (Spec.from_prepare w url) rest.
Proof.
  intros H. eapply Forall_impl; [|exact H].
  intros a Ha x Hx. exists d.
  destruct a; simpl in *; try discriminate; congruence.
Qed.

Lemma process_link_trace w db link :
  exists deep rest,
    trace (process_link w db link) = (deep ++ rest)%list
    /\ List.filter Spec.is_deep rest = []
    /\ Forall (Spec.from_prepare w (link_url link)) rest
    /\ (forall html data n,
           fetch_page w (link_url link) = Some html ->
           PyStr.is_empty html = false ->
           parse_event_with_gpt w html (link_url link) = Ok data ->
           count_missing_fields data = Ok n ->
           deep = if (MISSING_FIELDS_THRESHOLD <=? n)%nat
                  then [DeepSynthesize (link_url link) data] else [])
    /\ (deep = [] \/ exists data, deep = [DeepSynthesize (link_url link) data]).
Proof.
  unfold process_link.
  destruct (fetch_page w (link_url link)) as [html|] eqn:Ef.
  2:{ exists [], [LogParseResult (link_id link) "failed" "Fetch failed (headless + fallback)"].
      repeat split; auto.
      - repeat constructor. intros x Hx. discriminate.
      - intros; discriminate. }
  destruct (PyStr.is_empty html) eqn:Eh.
  { exists [], [LogParseResult (link_id link) "failed" "Fetch failed (headless + fallback)"].
    repeat split; auto.
    - repeat constructor. intros x Hx. discriminate.
    - intros ? ? ? H1 H2. congruence. }
  destruct (parse_event_with_gpt w html (link_url link)) as [data|e] eqn:Ep.
  2:{ eexists [], [_]. cbn [logged trace app].
      repeat split; auto.
      - repeat constructor. intros x Hx. discriminate.
      - intros ? ? ? H1 H2 H3. congruence. }
  destruct (count_missing_fields data) as [n|e] eqn:Ec.
  2:{ exists [], []. cbn [trace app].
      repeat split; auto.
      intros ? ? ? H1 H2 H3 H4. congruence. }
  cbv zeta.
  set (tr := if (MISSING_FIELDS_THRESHOLD <=? n)%nat
             then [DeepSynthesize (link_url link) data] else []).
  assert (Htr : forall html0 data0 n0,
             Some html = Some html0 -> PyStr.is_empty html0 = false ->
             parse_event_with_gpt w html0 (link_url link) = Ok data0 ->
             count_missing_fields data0 = Ok n0 ->
             tr = if (MISSING_FIELDS_THRESHOLD <=? n0)%nat
                  then [DeepSynthesize (link_url link) data0] else []).
  { intros ? ? ? H1 H2 H3 H4. injection H1 as <-.
    rewrite Ep in H3. injection H3 as <-.
    rewrite Ec in H4. injection H4 as <-. reflexivity. }
  assert (Hshape : tr = [] \/ exists data0, tr = [DeepSynthesize (link_url link) data0]).
  { unfold tr. destruct (MISSING_FIELDS_THRESHOLD <=? n)%nat; eauto. }
  clearbody tr.
  match goal with
  | |- context [match ?u with Ok _ => _ | Raise _ => _ end] =>
      destruct u as [[d|]|e]
  end.
  - destruct (save_trace w db tr (link_id link) (prepare w (link_url link) d))
      as (rest & -> & F).
    exists tr, rest. repeat split; auto.
    + eapply from_save_not_deep; eauto.
    + eapply from_save_prepare; eauto.
  - destruct (page_title w html) as [title|e].
    + match goal with
      | |- context [save w ?db' ?tr' ?id ?x] =>
          destruct (save_trace w db' tr' id x) as (rest & -> & F)
      end.
      cbn [logged trace]. rewrite <- app_assoc.
      eexists tr, _. split; [reflexivity|].
      repeat split; auto.
      * simpl. eapply from_save_not_deep; eauto.
      * constructor; [intros x Hx; discriminate|].
        eapply from_save_prepare; eauto.
    + cbn [logged trace]. eexists tr, [_]. split; [reflexivity|].
      repeat split; auto.
      repeat constructor. intros x Hx. discriminate.
  - exists tr, []. cbn [trace]. rewrite app_nil_r.
    repeat split; auto.
Qed.

End LinkTrace.



Example three_missing_fields_do_not_escalate :
  Spec.missing_count Worlds.record_three_missing = 3%nat
  /\ List.filter Spec.is_deep
       (Parser.trace
          (Parser.process_link (Worlds.answering Worlds.reply_three_missing "{}")
                               Spec.empty_db Worlds.a_link)) = [].
Proof. split; vm_compute; reflexivity. Qed.

(** ** Preparation of the record *)
Section Prepare.
Import Parser.

Lemma clean_step_other d k key :
  String.eqb key k = false ->
  Py.dict_get (match Py.assoc_get k d with
               | Some v => Py.assoc_set k (clean_text v) d
               | None => d
               end) key
  = Py.dict_get d key.
Proof.
  intros E. destruct (Py.assoc_get k d); [|reflexivity].
  now rewrite dict_get_set, E.
Qed.

Lemma clean_loop_other key fields :
  List.existsb (String.eqb key) fields = false ->
  forall d,
    Py.dict_get
      (fold_left (fun d k => match Py.assoc_get k d with
                             | Some v => Py.assoc_set k (clean_text v) d
                             | None => d
                             end) fields d) key
    = Py.dict_get d key.
Proof.
  induction fields as [|k fields IH]; simpl; intros H d; [reflexivity|].
  apply orb_false_iff in H as [Hk Hf].
  rewrite (IH Hf). now apply clean_step_other.
Qed.

Lemma prepare_registration_url w url d :
  Py.dict_get (prepare w url d) "registration_url"
  = if Py.truthy (Py.dict_get d "registration_url")
    then Py.dict_get d "registration_url" else VStr url.
Proof.
  unfold prepare, clean_fields.
  rewrite clean_loop_other by reflexivity.
  rewrite dict_get_set. cbn [String.eqb Ascii.eqb Bool.eqb].
  unfold default_registration_url.
  destruct (Py.truthy (Py.dict_get d "registration_url")); cbn [negb];
    [reflexivity|].
  now rewrite dict_get_set.
Qed.

End Prepare.

(** C10. Every record that reaches persistence in [process_links] has a
    registration URL: whatever a link with a source URL hands to
    [insert_organizer] or [insert_event] is a record made by lines 355 to
    368, whose [registration_url] is the one extraction, synthesis and
    fallback left when that is truthy, and the source URL of the link
    otherwise; the fallback record carries the source URL as well. *)
Theorem persisted_record_has_registration_url :
  forall (w : Parser.world) (db : Db.database) (link : Parser.raw_link)
         (a : Parser.action) (x : dict),
    Parser.link_url link <> EmptyString ->
    In a (Parser.trace (Parser.process_link w db link)) ->
    Spec.persisted a = Some x ->
    Py.truthy (Py.dict_get x "registration_url") = true
    /\ (exists d,
           x = Parser.prepare w (Parser.link_url link) d
           /\ Py.dict_get x "registration_url"
              = if Py.truthy (Py.dict_get d "registration_url")
                then Py.dict_get d "registration_url"
                else VStr (Parser.link_url link))
    /\ (forall title,
           Py.dict_get (Parser.fallback_record title (Parser.link_url link))
                       "registration_url"
           = VStr (Parser.link_url link)).
Proof.
  intros w db link a x Hu Hin Hp.
  destruct (process_link_trace w db link) as (deep & rest & Ht & _ & Hr & _ & Hd).
  rewrite Ht in Hin. apply in_app_or in Hin as [Hin|Hin].
  { destruct Hd as [->|(data & ->)]; [destruct Hin|].
    destruct Hin as [<-|[]]. discriminate. }
  rewrite Forall_forall in Hr. destruct (Hr a Hin x Hp) as (d & ->).
  assert (E := prepare_registration_url w (Parser.link_url link) d).
  split; [|split].
  - rewrite E. destruct (Py.truthy (Py.dict_get d "registration_url")) eqn:T;
      [exact T|]. simpl. destruct (Parser.link_url link); [contradiction|reflexivity].
  - exists d. split; [reflexivity | exact E].
  - intros title. reflexivity.
Qed.

Lemma persisted_record_has_registration_url_witness :
  Py.truthy
    (Py.dict_get
       [("event_name", VStr "Gala");
        ("registration_url", VStr "https://example.org/gala");
        ("event_date", VNone)] "registration_url") = true.
Proof.
  refine (proj1 (persisted_record_has_registration_url
                   (Worlds.answering "{'event_name': 'Gala'}" "{}")
                   Spec.empty_db Worlds.a_link
                   (Parser.InsertOrganizer
                      [("event_name", VStr "Gala");
                       ("registration_url", VStr "https://example.org/gala");
                       ("event_date", VNone)])
                   _ _ _ _)).
  - discriminate.
  - vm_compute. right. left. reflexivity.
  - reflexivity.
Defined.

(** ** Escalation merge *)
Section Merge.
Import Parser.

Lemma merge_supplement_dict synth :
  forall d, exists d',
    merge_supplement (VDict d) synth = (VDict d', None)
    /\ forall k,
         (Spec.unknown (Py.dict_get d k) = false ->
          Py.dict_get d' k = Py.dict_get d k)
         /\ Spec.merged_field d d' synth k.
Proof.
  induction synth as [|[k0 v0] synth IH]; intros d.
  - exists d. split; [reflexivity|]. intros k. split; [reflexivity | now left].
  - cbn [merge_supplement].
    destruct (Py.truthy v0) eqn:Tv.
    2:{ destruct (IH d) as (d' & E & H). exists d'. split; [exact E|].
        intros k. destruct (H k) as [H1 H2]. split; [exact H1|].
        destruct H2 as [H2|(U & v & I & T & G)]; [now left|].
        right. split; [exact U|]. exists v. split; [now right | auto]. }
    cbn [Py.py_get].
    fold (Spec.unknown (Py.dict_get d k0)).
    destruct (Spec.unknown (Py.dict_get d k0)) eqn:Uk.
    2:{ destruct (IH d) as (d' & E & H). exists d'. split; [exact E|].
        intros k. destruct (H k) as [H1 H2]. split; [exact H1|].
        destruct H2 as [H2|(U & v & I & T & G)]; [now left|].
        right. split; [exact U|]. exists v. split; [now right | auto]. }
    cbn [Py.py_setitem].
    destruct (IH (Py.assoc_set k0 v0 d)) as (d' & E & H).
    exists d'. split; [exact E|].
    intros k. destruct (H k) as [H1 H2].
    unfold Spec.merged_field in H2. rewrite dict_get_set in H1, H2.
    destruct (String.eqb k k0) eqn:Ek.
    + apply String.eqb_eq in Ek. subst k0. split.
      * intros U. rewrite U in Uk. discriminate.
      * right. split; [exact Uk|].
        destruct H2 as [H2|(_ & v & I & T & G)].
        -- exists v0. split; [now left | auto].
        -- exists v. split; [now right | auto].
    + split; [exact H1|].
      destruct H2 as [H2|(U & v & I & T & G)]; [now left|].
      right. split; [exact U|]. exists v. split; [now right | auto].
Qed.


End Merge.




Example merge_fills_blank_field :
  Parser.merge_supplement
    (VDict [("event_name", VStr "Gala"); ("dress_code", VStr " ")])
    [("event_name", VStr "Ball"); ("dress_code", VStr "Black-tie")]
  = (VDict [("event_name", VStr "Gala"); ("dress_code", VStr "Black-tie")], None).
Proof. vm_compute. reflexivity. Qed.

(** In [process_links] itself: whatever the deep search and the synthesis
    do, an extracted record comes out of the escalation as a record, with
    every field that was truthy and not whitespace-only as it was. *)
Lemma escalate_keeps_known_fields (w : Parser.world) (url : string) (d : dict) :
  exists d',
    Parser.escalate w url (VDict d) = VDict d'
    /\ forall k,
         Spec.unknown (Py.dict_get d k) = false ->
         Py.dict_get d' k = Py.dict_get d k.
Proof.
  unfold Parser.escalate.
  destruct (Parser.deep_synthesize_fields (Parser.deep_search_of w url (VDict d)))
    as [synth|e].
  - destruct (merge_supplement_dict synth d) as (d' & E & H).
    exists d'. rewrite E. split; [reflexivity|].
    intros k. exact (proj1 (H k)).
  - exists d. split; [reflexivity | reflexivity].
Qed.

(** ** Response decoder *)

(** Whatever the text, [safe_json] gives the empty mapping or the value that
    [json.loads] decoded from some text: nothing half-parsed. *)
Lemma safe_json_decodes_or_empty (text : string) :
  Decoder.safe_json text = VDict []
  \/ exists cleaned, Json.loads cleaned = Some (Decoder.safe_json text).
Proof.
  unfold Decoder.safe_json.
  destruct (PyStr.is_empty text); [now left|].
  match goal with
  | |- context [Json.loads ?c] => set (cleaned := c)
  end.
  destruct (Json.loads cleaned) as [v|] eqn:E1; [right; now exists cleaned|].
  match goal with
  | |- context [Json.loads ?c] => set (alt := c)
  end.
  destruct (Json.loads alt) as [v|] eqn:E2; [right; now exists alt | now left].
Qed.

(** The fenced reply of the specification, its apostrophes standing for
    double quotes. *)
Example safe_json_fenced_reply :
  forall fenced,
    fenced = PyStr.replace_char "'" "034" "```json
{'event_name': 'Gala'}
```" ->
    Json.loads fenced = None
    /\ Decoder.safe_json fenced = VDict [("event_name", VStr "Gala")].
Proof. intros fenced ->. split; vm_compute; reflexivity. Qed.

Example safe_json_single_quotes :
  Json.loads "{'event_name': 'Gala'}" = None
  /\ Decoder.safe_json "{'event_name': 'Gala'}" = VDict [("event_name", VStr "Gala")].
Proof. split; vm_compute; reflexivity. Qed.

Example safe_json_commentary_and_garbage :
  Decoder.safe_json "Here you go: {'a': [1, 2.5, null]} Thanks!"
  = VDict [("a", VList [VInt 1; VFloat "2.5"; VNone])]
  /\ Decoder.safe_json "no JSON here" = VDict []
  /\ Decoder.safe_json "{'a': 1" = VDict []
  /\ Decoder.safe_json EmptyString = VDict [].
Proof. repeat split; vm_compute; reflexivity. Qed.

(** C4. On a reply that is a JSON array, number, string or constant,
    [safe_json] returns that value, which is not a mapping. *)
Theorem safe_json_returns_non_mapping :
  Decoder.safe_json "[1, 2]" = VList [VInt 1; VInt 2]
  /\ Decoder.safe_json "42" = VInt 42
  /\ Decoder.safe_json "null" = VNone
  /\ Decoder.safe_json "```json
['no event on this page']
```" = VList [VStr "no event on this page"].
Proof. repeat split; vm_compute; reflexivity. Qed.

(** Such a reply to the extraction prompt ends [process_links]: the list
    comes back from [gpt_call], and [count_missing_fields] calls [.get] on
    it outside any [try]. *)
Example array_reply_ends_process_links :
  let r := Parser.process_link (Worlds.answering "[1, 2]" "{}")
                               Spec.empty_db Worlds.a_link in
  Parser.how r
  = Parser.Uncaught (Exn "AttributeError" "'list' object has no attribute 'get'")
  /\ Parser.trace r = []
  /\ Parser.final_db r = Spec.empty_db.
Proof. repeat split; vm_compute; reflexivity. Qed.

(** ** Search clients *)
Section SearchClients.
Import EinEnrichment.

Lemma key_or_not_empty env name placeholder :
  PyStr.is_empty placeholder = false ->
  PyStr.is_empty (key_or env name placeholder) = false.
Proof.
  intros H. unfold key_or.
  destruct (PyStr.is_empty
              (PyStr.strip match env name with
                           | Some s => s
                           | None => EmptyString
                           end)) eqn:E; [exact H | exact E].
Qed.

Lemma serpapi_search_calls P query n :
  forallb is_serp_call (snd (serpapi_search P query n)) = true
  /\ (GoogleSearch P <> None ->
      snd (serpapi_search P query n) = [SerpApiCall query n]).
Proof.
  unfold serpapi_search, SERPAPI_KEY.
  rewrite key_or_not_empty by reflexivity.
  destruct (GoogleSearch P) as [get_dict|].
  - destruct (get_dict query n); split; reflexivity.
  - split; [reflexivity | congruence].
Qed.

Lemma google_cse_search_calls P query n :
  forallb is_cse_call (snd (google_cse_search P query n)) = true
  /\ snd (google_cse_search P query n) <> [].
Proof.
  unfold google_cse_search, GOOGLE_API_KEY, GOOGLE_CSE_ID, cse_over_http.
  rewrite !key_or_not_empty by reflexivity. cbn [orb].
  destruct (google_build P) as [execute|].
  - destruct (execute query (Nat.min n 500));
      [split; [reflexivity | discriminate]|].
    destruct (cse_http P query n); split; try reflexivity; discriminate.
  - destruct (cse_http P query n); split; try reflexivity; discriminate.
Qed.

Lemma serpapi_search_down P query n :
  match GoogleSearch P with
  | Some get_dict => exists e, get_dict query n = Raise e
  | None => True
  end ->
  fst (serpapi_search P query n) = [].
Proof.
  unfold serpapi_search.
  destruct (PyStr.is_empty (SERPAPI_KEY (environ P))); [reflexivity|].
  destruct (GoogleSearch P) as [get_dict|]; [|reflexivity].
  intros (e & ->). reflexivity.
Qed.

Lemma google_cse_search_down P query n :
  match google_build P with
  | Some execute => exists e, execute query (Nat.min n 500) = Raise e
  | None => True
  end ->
  (exists e, cse_http P query n = Raise e) ->
  fst (google_cse_search P query n) = [].
Proof.
  unfold google_cse_search, cse_over_http. intros H1 (e2 & H2).
  destruct (PyStr.is_empty (GOOGLE_API_KEY (environ P))
            || PyStr.is_empty (GOOGLE_CSE_ID (environ P))); [reflexivity|].
  destruct (google_build P) as [execute|].
  - destruct H1 as (e1 & ->). rewrite H2. reflexivity.
  - rewrite H2. reflexivity.
Qed.

Lemma existsb_app_cse t1 t2 :
  forallb is_serp_call t1 = true ->
  existsb is_cse_call (t1 ++ t2)%list = existsb is_cse_call t2.
Proof.
  intros H. rewrite existsb_app.
  replace (existsb is_cse_call t1) with false; [reflexivity|].
  symmetry. induction t1 as [|c t1 IH]; simpl in *; [reflexivity|].
  apply andb_true_iff in H as [Hc Ht]. rewrite (IH Ht).
  destruct c; simpl in *; try discriminate; reflexivity.
Qed.

Lemma forallb_cse_exists t :
  forallb is_cse_call t = true -> t <> [] -> existsb is_cse_call t = true.
Proof.
  destruct t as [|c t]; [congruence|]. simpl. intros H _.
  apply andb_true_iff in H as [-> _]. reflexivity.
Qed.

End SearchClients.

(** C7. [unified_search] asks SerpAPI first; with a result from it, that is
    the answer and Google CSE is not asked; with none, an error of the
    provider included, Google CSE is asked next and its results are the
    answer.  The function is total, and when no provider works the answer is
    the empty list. *)
Theorem unified_search_fails_over :
  forall (P : EinEnrichment.providers) (query : string) (n : nat),
    let primary := EinEnrichment.serpapi_search P query n in
    let secondary := EinEnrichment.google_cse_search P query n in
    let answer := EinEnrichment.unified_search P query n in
    (fst primary <> [] -> answer = primary)
    /\ (fst primary = [] ->
        fst answer = fst secondary
        /\ snd answer = (snd primary ++ snd secondary)%list)
    /\ (existsb EinEnrichment.is_cse_call (snd answer) = true
        <-> fst primary = [])
    /\ forallb EinEnrichment.is_serp_call (snd primary) = true
    /\ forallb EinEnrichment.is_cse_call (snd secondary) = true
    /\ (EinEnrichment.GoogleSearch P <> None ->
        exists rest, snd answer = EinEnrichment.SerpApiCall query n :: rest)
    /\ (forall get_dict e,
           EinEnrichment.GoogleSearch P = Some get_dict ->
           get_dict query n = Raise e ->
           answer = (fst secondary,
                     (EinEnrichment.SerpApiCall query n :: snd secondary)%list))
    /\ (Spec.providers_down P query n -> fst answer = []).
Proof.
  intros P query n primary secondary answer.
  destruct (serpapi_search_calls P query n) as [Hs1 Hs2].
  destruct (google_cse_search_calls P query n) as [Hc1 Hc2].
  fold primary in Hs1, Hs2. fold secondary in Hc1, Hc2.
  assert (Hdef : answer = match fst primary with
                          | _ :: _ => primary
                          | [] => (fst secondary,
                                   (snd primary ++ snd secondary)%list)
                          end).
  { unfold answer, EinEnrichment.unified_search. fold primary. fold secondary.
    destruct primary as [r1 t1], secondary as [r2 t2]. simpl.
    destruct r1; reflexivity. }
  assert (Hiff : existsb EinEnrichment.is_cse_call (snd answer) = true
                 <-> fst primary = []).
  { rewrite Hdef. destruct (fst primary) eqn:E; simpl.
    - rewrite existsb_app_cse by exact Hs1.
      split; [reflexivity | intros _; now apply forallb_cse_exists].
    - split; [|discriminate]. intros H.
      assert (F : existsb EinEnrichment.is_cse_call (snd primary) = false).
      { clear -Hs1. induction (snd primary) as [|c t IH]; simpl in *;
          [reflexivity|].
        apply andb_true_iff in Hs1 as [Hc Ht]. rewrite (IH Ht).
        destruct c; simpl in *; try discriminate; reflexivity. }
      rewrite F in H. discriminate. }
  split; [|split; [|split; [exact Hiff|split; [exact Hs1|split; [exact Hc1|]]]]].
  - intros H. rewrite Hdef. destruct (fst primary); [contradiction|reflexivity].
  - intros H. rewrite Hdef, H. split; reflexivity.
  - split; [|split].
    + intros G. rewrite Hdef.
      destruct (fst primary); simpl; rewrite (Hs2 G); simpl; eauto.
    + intros get_dict e G R.
      assert (G' : EinEnrichment.GoogleSearch P <> None) by congruence.
      assert (E : fst primary = []).
      { apply serpapi_search_down. rewrite G. eauto. }
      rewrite Hdef, E, (Hs2 G'). reflexivity.
    + intros (D1 & D2 & D3). rewrite Hdef.
      assert (E : fst primary = []) by now apply serpapi_search_down.
      rewrite E. simpl. now apply google_cse_search_down.
Qed.

Example unified_search_nothing_works :
  EinEnrichment.unified_search Worlds.nothing_works "Example Foundation" 6
  = ([], [EinEnrichment.CseHttpCall "Example Foundation" 6]).
Proof. vm_compute. reflexivity. Qed.

(** ** EIN locator *)
Section Locator.
Import EinEnrichment.

Lemma digits_then_step m k s :
  digits_then (S m) k s = true ->
  exists c r, s = String c r /\ is_digit c = true /\ digits_then m k r = true.
Proof.
  destruct s as [|c r]; simpl; [discriminate|].
  intros H. apply andb_true_iff in H as [Hc Hr]. eauto.
Qed.

Lemma hyphen_then_true k s :
  hyphen_then k s = true -> exists r, s = String "-" r /\ k r = true.
Proof.
  destruct s as [|c r]; simpl; [discriminate|].
  destruct c as [[] [] [] [] [] [] [] []]; try discriminate. eauto.
Qed.

Lemma ein_here_take s :
  ein_here s = true -> Spec.is_ein (PyStr.take 10 s) = true.
Proof.
  unfold ein_here. intros H.
  apply digits_then_step in H as (c1 & s1 & -> & D1 & H).
  apply digits_then_step in H as (c2 & s2 & -> & D2 & H).
  change (hyphen_then (digits_then 7 at_word_end) s2 = true) in H.
  apply hyphen_then_true in H as (s3 & -> & H).
  apply digits_then_step in H as (d1 & r1 & -> & E1 & H).
  apply digits_then_step in H as (d2 & r2 & -> & E2 & H).
  apply digits_then_step in H as (d3 & r3 & -> & E3 & H).
  apply digits_then_step in H as (d4 & r4 & -> & E4 & H).
  apply digits_then_step in H as (d5 & r5 & -> & E5 & H).
  apply digits_then_step in H as (d6 & r6 & -> & E6 & H).
  apply digits_then_step in H as (d7 & r7 & -> & E7 & H).
  unfold Spec.is_ein. cbn.
  now rewrite D1, D2, E1, E2, E3, E4, E5, E6, E7.
Qed.

Lemma ein_search_is_ein s :
  forall after_word e,
    ein_search after_word s = Some e -> Spec.is_ein e = true.
Proof.
  induction s as [|c s IH]; intros b e; simpl; [discriminate|].
  destruct (negb b && ein_here (String c s)) eqn:E.
  - apply andb_true_iff in E as [_ E]. intros H. injection H as <-.
    now apply (ein_here_take (String c s)).
  - apply IH.
Qed.

Lemma is_ein_not_empty e : Spec.is_ein e = true -> PyStr.is_empty e = false.
Proof. destruct e; [discriminate | reflexivity]. Qed.

Lemma scan_snippets_first results :
  scan_snippets results = Spec.first_some (List.map Spec.snippet_match results).
Proof.
  induction results as [|r results IH]; [reflexivity|].
  cbn [scan_snippets List.map Spec.first_some].
  unfold extract_ein_from_snippet.
  set (text := (text_or_empty (snippet r) ++ " " ++ text_or_empty (title r))%string).
  change (Spec.snippet_match r) with (ein_search false text).
  assert (N : PyStr.is_empty text = false)
    by (unfold text; destruct (text_or_empty (snippet r)); reflexivity).
  rewrite N.
  destruct (ein_search false text) as [e|] eqn:E; [|exact IH].
  now rewrite (is_ein_not_empty _ (ein_search_is_ein _ _ _ E)).
Qed.

Lemma scan_pages_first P results :
  fst (scan_pages P results)
  = Spec.first_some (List.map (Spec.page_match P) results).
Proof.
  induction results as [|r results IH]; simpl; [reflexivity|].
  unfold Spec.page_match, some_text, text_or_empty, por, some_text.
  destruct (link r) as [url|]; [|exact IH].
  destruct (PyStr.is_empty url) eqn:U; cbn [negb]; [exact IH|].
  destruct (page_text P url) as [html|e].
  - destruct (PyStr.is_empty html) eqn:H.
    + destruct html; [|discriminate]. simpl.
      destruct (scan_pages P results). exact IH.
    + destruct (ein_search false html); [reflexivity|].
      destruct (scan_pages P results). exact IH.
  - destruct (scan_pages P results). exact IH.
Qed.

(** For one query: the first tax id among snippets and titles, and failing
    that the first one among the linked pages. *)
Lemma search_site_for_ein_first P query :
  fst (search_site_for_ein P query)
  = match Spec.first_some
            (List.map Spec.snippet_match (fst (unified_search P query 6))) with
    | Some e => Some e
    | None =>
        Spec.first_some
          (List.map (Spec.page_match P) (fst (unified_search P query 6)))
    end.
Proof.
  unfold search_site_for_ein.
  destruct (unified_search P query 6) as [results t1]. cbn [fst].
  rewrite scan_snippets_first.
  destruct (Spec.first_some (List.map Spec.snippet_match results));
    [reflexivity|].
  rewrite <- scan_pages_first. now destruct (scan_pages P results).
Qed.

Lemma first_some_is_ein attempts e :
  Forall (fun a => forall x, a = Some x -> Spec.is_ein x = true) attempts ->
  Spec.first_some attempts = Some e -> Spec.is_ein e = true.
Proof.
  induction 1 as [|a attempts Ha _ IH]; simpl; [discriminate|].
  destruct a; [intros H; injection H as <-; now apply Ha | exact IH].
Qed.

Lemma search_site_for_ein_is_ein P query e :
  fst (search_site_for_ein P query) = Some e -> Spec.is_ein e = true.
Proof.
  rewrite search_site_for_ein_first.
  destruct (Spec.first_some (List.map Spec.snippet_match _)) as [x|] eqn:S1.
  - intros H. injection H as <-. revert S1. apply first_some_is_ein.
    apply Forall_forall. intros a Ha x' ->.
    apply in_map_iff in Ha as (r & Hr & _). unfold Spec.snippet_match in Hr.
    now apply ein_search_is_ein in Hr.
  - apply first_some_is_ein.
    apply Forall_forall. intros a Ha x' ->.
    apply in_map_iff in Ha as (r & Hr & _). unfold Spec.page_match in Hr.
    destruct (link r) as [url|]; [|discriminate].
    destruct (PyStr.is_empty url); [discriminate|].
    destruct (page_text P url) as [html|]; [|discriminate].
    now apply ein_search_is_ein in Hr.
Qed.


End Locator.



Example locate_example_foundation :
  EinEnrichment.search_ein_multisource Worlds.registry_knows "Example Foundation"
  = (Some "12-3456789",
     [EinEnrichment.SerpApiCall
        "Example Foundation site:projects.propublica.org OR site:apps.irs.gov" 6]).
Proof. vm_compute. reflexivity. Qed.

Example locate_nothing_found :
  EinEnrichment.search_ein_multisource Worlds.nothing_works "Example Foundation"
  = (None,
     [EinEnrichment.CseHttpCall
        "Example Foundation site:projects.propublica.org OR site:apps.irs.gov" 6;
      EinEnrichment.CseHttpCall "Example Foundation site:causeiq.com" 6;
      EinEnrichment.CseHttpCall "Example Foundation site:charitynavigator.org" 6;
      EinEnrichment.CseHttpCall "Example Foundation nonprofit EIN" 6]).
Proof. vm_compute. reflexivity. Qed.

Example ein_pattern_needs_word_boundaries :
  EinEnrichment.ein_search false "EIN 12-3456789." = Some "12-3456789"
  /\ EinEnrichment.ein_search false "phone 312-3456789" = None
  /\ EinEnrichment.ein_search false "id 12-34567890" = None.
Proof. repeat split; vm_compute; reflexivity. Qed.

(** ** Batch enrichment loop *)
Section Loop.
Import EinEnrichment.

Variable process_single_organizer :
  Db.database -> Db.organizer_row -> Db.database * option exn.
Variable process_single_event :
  Db.database -> Db.event_row -> Db.database * option exn.
Variable organizers_session : nat -> Db.session.
Variable events_session : nat -> Db.session.

Lemma for_each_count {row : Type}
      (process : Db.database -> row -> Db.database * option exn)
      (batch : list row) :
  forall db p db' p' e,
    for_each process batch db p = (db', p', e) ->
    (p <= p' <= p + Z.of_nat (List.length batch))%Z
    /\ (e = None -> p' = (p + Z.of_nat (List.length batch))%Z)
    /\ (batch = [] -> db' = db).
Proof.
  induction batch as [|x batch IH]; intros db p db' p' e H.
  - injection H as <- <- <-. simpl. repeat split; lia.
  - cbn [for_each] in H. destruct (process db x) as [db1 [e1|]].
    + injection H as <- <- <-. cbn [List.length].
      repeat split; try lia; discriminate.
    + apply IH in H as (H1 & H2 & _). cbn [List.length].
      repeat split; try lia; [|discriminate].
      intros E. rewrite (H2 E). lia.
Qed.

Lemma select_length {row : Type} sess (rows : list row) where_ n l :
  select sess rows where_ n = Ok l -> (List.length l <= n)%nat.
Proof.
  destruct sess; simpl; try discriminate.
  intros H. injection H as <-. apply firstn_le_length.
Qed.

Lemma enrich_passes_spec limit :
  forall fuel pass db p,
    (Z.to_nat (limit - p) < fuel)%nat ->
    exists r,
      enrich_passes process_single_organizer process_single_event
                    organizers_session events_session fuel pass limit db p
      = Some r
      /\ (p <= processed r <= Z.max p (limit + 15))%Z
      /\ (passes r <= pass + Z.to_nat (limit - p))%nat
      /\ Spec.stops_well organizers_session events_session limit r.
Proof.
  induction fuel as [|f IH]; intros pass db p Hf; [lia|].
  cbn [enrich_passes].
  destruct (p <? limit)%Z eqn:Hlt.
  2:{ apply Z.ltb_ge in Hlt. eexists. split; [reflexivity|].
      cbn [processed passes why]. unfold Spec.stops_well. cbn [processed why].
      repeat split; try lia; try discriminate. }
  apply Z.ltb_lt in Hlt.
  destruct (fetch_organizers_to_enrich (organizers_session pass) db 8)
    as [orgs|e] eqn:Eo.
  2:{ eexists. split; [reflexivity|]. unfold Spec.stops_well. cbn [processed passes why].
      repeat split; try lia; try discriminate. }
  assert (Lo := select_length _ _ _ _ _ Eo).
  destruct (for_each process_single_organizer orgs db p) as [[db1 p1] e1] eqn:Fo.
  destruct (for_each_count _ _ _ _ _ _ _ Fo) as (Bo & Co & Do).
  destruct e1 as [e1|].
  { eexists. split; [reflexivity|]. unfold Spec.stops_well. cbn [processed passes why].
    repeat split; try lia; try discriminate. }
  destruct (fetch_events_to_enrich (events_session pass) db1 8)
    as [evs|e] eqn:Ee.
  2:{ eexists. split; [reflexivity|]. unfold Spec.stops_well. cbn [processed passes why].
      repeat split; try lia; try discriminate. }
  assert (Le := select_length _ _ _ _ _ Ee).
  destruct (for_each process_single_event evs db1 p1) as [[db2 p2] e2] eqn:Fe.
  destruct (for_each_count _ _ _ _ _ _ _ Fe) as (Be & Ce & De).
  destruct e2 as [e2|].
  { eexists. split; [reflexivity|]. unfold Spec.stops_well. cbn [processed passes why].
    repeat split; try lia; try discriminate. }
  specialize (Co eq_refl). specialize (Ce eq_refl).
  assert (Hrec : (List.length orgs + List.length evs > 0)%nat ->
                 exists r,
                   enrich_passes process_single_organizer process_single_event
                                 organizers_session events_session
                                 f (S pass) limit db2 p2 = Some r
                   /\ (p <= processed r <= Z.max p (limit + 15))%Z
                   /\ (passes r <= pass + Z.to_nat (limit - p))%nat
                   /\ Spec.stops_well organizers_session events_session limit r).
  { intros Hpos.
    destruct (IH (S pass) db2 p2) as (r & E & B & Q & W); [lia|].
    exists r. split; [exact E|]. split; [lia|]. split; [lia | exact W]. }
  destruct orgs as [|o orgs].
  - destruct evs as [|ev evs].
    + specialize (Do eq_refl). specialize (De eq_refl). subst db1 db2.
      cbn [List.length] in *.
      eexists. split; [reflexivity|]. unfold Spec.stops_well.
      cbn [processed passes why end_db Nat.pred].
      repeat split; try lia; try discriminate; assumption.
    + apply Hrec. cbn [List.length]. lia.
  - apply Hrec. cbn [List.length]. lia.
Qed.

End Loop.

(** C8 as stated fails: with a budget of two and three organizers to enrich,
    the one pass that runs processes all three. *)
Lemma enrich_data_overshoots_budget :
  exists r,
    EinEnrichment.enrich_data Worlds.finds_nothing Worlds.finds_nothing
      (fun _ => Db.Executed) (fun _ => Db.Executed) 2 Worlds.three_pending
    = Some r
    /\ EinEnrichment.processed r = 3%Z
    /\ EinEnrichment.passes r = 1%nat
    /\ EinEnrichment.why r = EinEnrichment.BudgetExhausted
    /\ (2 < EinEnrichment.processed r)%Z.
Proof.
  eexists. split; [vm_compute; reflexivity|].
  cbn. repeat split.
Qed.

(** C8, amended. [enrich_data] always terminates, after at most [limit]
    passes.  It stops before the first pass that starts with the processed
    count at or above the budget, or after the first pass that selected no
    organizer and no event, whichever comes first (or on an exception that a
    selection or a processor lets through).  The budget is checked between
    passes only: the processed count stays below the budget plus the sixteen
    records of a pass, and is zero for a budget that is not positive. *)
Theorem enrich_data_terminates :
  forall (process_single_organizer :
            Db.database -> Db.organizer_row -> Db.database * option exn)
         (process_single_event :
            Db.database -> Db.event_row -> Db.database * option exn)
         (organizers_session events_session : nat -> Db.session)
         (limit : Z) (db : Db.database),
  exists r,
    EinEnrichment.enrich_data process_single_organizer process_single_event
                              organizers_session events_session limit db
    = Some r
    /\ (0 <= EinEnrichment.processed r <= Z.max 0 (limit + 15))%Z
    /\ (EinEnrichment.passes r <= Z.to_nat limit)%nat
    /\ (EinEnrichment.why r = EinEnrichment.BudgetExhausted ->
        (limit <= EinEnrichment.processed r)%Z)
    /\ (EinEnrichment.why r = EinEnrichment.NothingLeft ->
        (EinEnrichment.processed r < limit)%Z
        /\ (0 < EinEnrichment.passes r)%nat
        /\ EinEnrichment.fetch_organizers_to_enrich
             (organizers_session (Nat.pred (EinEnrichment.passes r)))
             (EinEnrichment.end_db r) 8 = Ok []
        /\ EinEnrichment.fetch_events_to_enrich
             (events_session (Nat.pred (EinEnrichment.passes r)))
             (EinEnrichment.end_db r) 8 = Ok []).
Proof.
  intros po pe so se limit db. unfold EinEnrichment.enrich_data.
  destruct (enrich_passes_spec po pe so se limit
              (S (Z.to_nat limit)) 0 db 0%Z) as (r & E & B & Q & W1 & W2).
  { rewrite Z.sub_0_r. lia. }
  exists r. split; [exact E|]. rewrite Z.sub_0_r in Q.
  repeat split; try lia; try (apply W1; assumption); apply W2; assumption.
Qed.

(** * Further properties

    ** The store under [process_links] *)
Section StoreInvariants.
Import Db.

Variable I : database -> Prop.
Hypothesis organizer_step :
  forall sess db data, I db -> I (fst (insert_organizer sess db data)).
Hypothesis event_step :
  forall sess sess' db data oid,
    I db ->
    snd (insert_organizer sess db data) = Some oid ->
    I (insert_event sess' (fst (insert_organizer sess db data)) data (Some oid)).
Hypothesis log_step :
  forall sess db id status message,
    I db -> I (log_parse_result sess db id status message).

Lemma save_preserves w db tr id x :
  I db -> I (Parser.final_db (Parser.save w db tr id x)).
Proof.
  intros H. unfold Parser.save.
  pose proof (organizer_step (Parser.organizer_session w id) db x H) as H1.
  pose proof (event_step (Parser.organizer_session w id)
                         (Parser.event_session w id) db x) as H2.
  destruct (insert_organizer (Parser.organizer_session w id) db x)
    as [db1 oid]. cbn [fst snd] in *.
  destruct oid as [o|]; [destruct (negb (Z.eqb o 0))|];
    destruct (Parser.count_missing_fields (VDict x));
    unfold Parser.logged; cbn [Parser.final_db];
    apply log_step; auto.
Qed.

Lemma process_link_preserves w db link :
  I db -> I (Parser.final_db (Parser.process_link w db link)).
Proof.
  intros H. unfold Parser.process_link.
  destruct (Parser.fetch_page w (Parser.link_url link)) as [html|];
    [|apply log_step; exact H].
  destruct (PyStr.is_empty html); [apply log_step; exact H|].
  destruct (Parser.parse_event_with_gpt w html (Parser.link_url link))
    as [data|e]; [|apply log_step; exact H].
  destruct (Parser.count_missing_fields data) as [n|e]; [|exact H].
  cbv zeta.
  match goal with
  | |- context [match ?u with Ok _ => _ | Raise _ => _ end] =>
      destruct u as [[d|]|e]
  end.
  - now apply save_preserves.
  - destruct (Parser.page_title w html) as [title|e].
    + apply save_preserves. unfold Parser.logged. cbn [Parser.final_db].
      now apply log_step.
    + apply log_step. exact H.
  - exact H.
Qed.

Lemma process_links_preserves w links :
  forall db, I db -> I (Store.after_run (Parser.process_links w db links)).
Proof.
  induction links as [|link links IH]; intros db H; [exact H|].
  cbn [Parser.process_links].
  pose proof (process_link_preserves w db link H) as H1.
  destruct (Parser.how (Parser.process_link w db link)); [|exact H1].
  specialize (IH _ H1).
  destruct (Parser.process_links w
              (Parser.final_db (Parser.process_link w db link)) links)
    as [[db' tr] e]. exact IH.
Qed.

End StoreInvariants.

Section StoreFacts.
Import Db.

Lemma NoDup_snoc {A : Type} (l : list A) (x : A) :
  NoDup l -> ~ In x l -> NoDup (l ++ [x])%list.
Proof.
  induction l as [|y l IH]; intros Hl Hx; simpl.
  - constructor; [intros [] | constructor].
  - inversion Hl as [|? ? Hy Hl']; subst. constructor.
    + intros Hin. apply in_app_or in Hin as [Hin|[->|[]]]; [auto|].
      apply Hx. now left.
    + apply IH; [exact Hl'|]. intros Hin. apply Hx. now right.
Qed.

Lemma find_organizer_none uid db :
  find_organizer uid db = None -> ~ In uid (List.map org_uid (organizers db)).
Proof.
  unfold find_organizer. intros H Hin.
  apply in_map_iff in Hin as (r & Hr & Hin).
  pose proof (find_none _ _ H r Hin) as F. cbn in F.
  rewrite Hr, String.eqb_refl in F. discriminate.
Qed.

Lemma find_event_none uid db :
  find_event uid db = None -> ~ In uid (List.map ev_uid (events db)).
Proof.
  unfold find_event. intros H Hin.
  apply in_map_iff in Hin as (r & Hr & Hin).
  pose proof (find_none _ _ H r Hin) as F. cbn in F.
  rewrite Hr, String.eqb_refl in F. discriminate.
Qed.

Lemma insert_organizer_unique sess db data :
  Store.unique_uids db -> Store.unique_uids (fst (insert_organizer sess db data)).
Proof.
  intros [Ho He]. unfold insert_organizer.
  destruct sess; [split; assumption..|].
  destruct (find_organizer (organizer_uid data) db) eqn:F;
    split; cbn; try assumption.
  rewrite map_app. apply NoDup_snoc; [exact Ho|].
  now apply find_organizer_none.
Qed.

Lemma insert_event_unique sess db data oid :
  Store.unique_uids db -> Store.unique_uids (insert_event sess db data oid).
Proof.
  intros [Ho He]. unfold insert_event.
  destruct sess; [split; assumption..|].
  destruct (find_event (event_uid data) db) eqn:F;
    split; cbn; try assumption.
  rewrite map_app. apply NoDup_snoc; [exact He|].
  now apply find_event_none.
Qed.

Lemma insert_organizer_sequence sess db data :
  Store.ids_in_sequence db ->
  Store.ids_in_sequence (fst (insert_organizer sess db data)).
Proof.
  intros (Co & Ce & Fo & No & Fe & Ne). unfold insert_organizer.
  destruct sess; [repeat split; assumption..|].
  destruct (find_organizer (organizer_uid data) db) eqn:F;
    unfold Store.ids_in_sequence; cbn.
  - unfold spend. destruct (autoinc_gaps db);
      repeat split; try assumption; try lia.
    eapply Forall_impl; [|exact Fo]. cbn. intros; lia.
  - repeat split; try assumption; try lia.
    + apply Forall_app. split.
      * eapply Forall_impl; [|exact Fo]. cbn. intros; lia.
      * constructor; [cbn; lia | constructor].
    + rewrite map_app. apply NoDup_snoc; [exact No|]. cbn.
      intros Hin. apply in_map_iff in Hin as (r & Hr & Hin).
      rewrite Forall_forall in Fo. specialize (Fo r Hin). lia.
Qed.

Lemma insert_event_sequence sess db data oid :
  Store.ids_in_sequence db ->
  Store.ids_in_sequence (insert_event sess db data oid).
Proof.
  intros (Co & Ce & Fo & No & Fe & Ne). unfold insert_event.
  destruct sess; [repeat split; assumption..|].
  destruct (find_event (event_uid data) db) eqn:F;
    unfold Store.ids_in_sequence; cbn.
  - unfold spend. destruct (autoinc_gaps db);
      repeat split; try assumption; try lia.
    eapply Forall_impl; [|exact Fe]. cbn. intros; lia.
  - repeat split; try assumption; try lia.
    + apply Forall_app. split.
      * eapply Forall_impl; [|exact Fe]. cbn. intros; lia.
      * constructor; [cbn; lia | constructor].
    + rewrite map_app. apply NoDup_snoc; [exact Ne|]. cbn.
      intros Hin. apply in_map_iff in Hin as (r & Hr & Hin).
      rewrite Forall_forall in Fe. specialize (Fe r Hin). lia.
Qed.

Lemma insert_organizer_grows sess db data :
  (exists rows,
      organizers (fst (insert_organizer sess db data))
      = (organizers db ++ rows)%list
      /\ (List.length rows <= 1)%nat)
  /\ events (fst (insert_organizer sess db data)) = events db
  /\ parse_logs (fst (insert_organizer sess db data)) = parse_logs db.
Proof.
  unfold insert_organizer.
  destruct sess;
    try (split; [exists []; rewrite app_nil_r; split; [reflexivity | cbn; lia]
                | split; reflexivity]).
  destruct (find_organizer (organizer_uid data) db).
  - split; [exists []; cbn; rewrite app_nil_r; split; [reflexivity | cbn; lia]
           | split; reflexivity].
  - split; [eexists [_]; cbn; split; [reflexivity | lia] | split; reflexivity].
Qed.

Lemma insert_event_grows sess db data oid :
  (exists rows,
      events (insert_event sess db data oid) = (events db ++ rows)%list
      /\ (List.length rows <= 1)%nat
      /\ Forall (fun r => ev_organizer_id r = oid) rows)
  /\ organizers (insert_event sess db data oid) = organizers db
  /\ parse_logs (insert_event sess db data oid) = parse_logs db.
Proof.
  unfold insert_event.
  destruct sess;
    try (split; [exists []; rewrite app_nil_r;
                 split; [reflexivity | split; [cbn; lia | constructor]]
                | split; reflexivity]).
  destruct (find_event (event_uid data) db).
  - split; [exists []; cbn; rewrite app_nil_r;
            split; [reflexivity | split; [cbn; lia | constructor]]
           | split; reflexivity].
  - split; [eexists [_]; cbn;
            split; [reflexivity | split; [lia | repeat constructor]]
           | split; reflexivity].
Qed.

Lemma log_parse_result_grows sess db id status message :
  organizers (log_parse_result sess db id status message) = organizers db
  /\ events (log_parse_result sess db id status message) = events db
  /\ organizers_auto_increment (log_parse_result sess db id status message)
     = organizers_auto_increment db
  /\ events_auto_increment (log_parse_result sess db id status message)
     = events_auto_increment db
  /\ exists rows,
       parse_logs (log_parse_result sess db id status message)
       = (parse_logs db ++ rows)%list.
Proof.
  unfold log_parse_result.
  destruct sess; cbn; repeat split;
    try (exists []; now rewrite app_nil_r); eexists; reflexivity.
Qed.

Lemma insert_organizer_returns_row sess db data oid :
  snd (insert_organizer sess db data) = Some oid ->
  exists r,
    In r (organizers (fst (insert_organizer sess db data)))
    /\ org_id r = oid.
Proof.
  destruct sess; try discriminate.
  destruct (insert_organizer_resolves db data) as (r & F & E).
  rewrite E. intros H. injection H as <-.
  exists r. split; [|reflexivity].
  unfold find_organizer in F. now apply find_some in F as [Hin _].
Qed.

End StoreFacts.

(** X1. A run of [process_links] keeps the identity keys of the organizers
    table and of the events table pairwise different, whatever the pages,
    the replies of the model and the fate of each statement. *)
Theorem process_links_keeps_uids_unique :
  forall (w : Parser.world) (db : Db.database) (links : list Parser.raw_link),
    Store.unique_uids db ->
    Store.unique_uids (Store.after_run (Parser.process_links w db links)).
Proof.
  intros w db links H. apply process_links_preserves; [| | |exact H].
  - intros. now apply insert_organizer_unique.
  - intros. now apply insert_event_unique, insert_organizer_unique.
  - intros sess d id status message [Ho He].
    destruct (log_parse_result_grows sess d id status message)
      as (Eo & Ee & _).
    unfold Store.unique_uids. now rewrite Eo, Ee.
Qed.

Lemma process_links_keeps_uids_unique_witness :
  Store.unique_uids
    (Store.after_run
       (Parser.process_links (Worlds.answering Worlds.reply_four_missing "{}")
                             Spec.empty_db [Worlds.a_link; Worlds.a_link])).
Proof.
  apply (process_links_keeps_uids_unique
           (Worlds.answering Worlds.reply_four_missing "{}")
           Spec.empty_db [Worlds.a_link; Worlds.a_link]).
  split; constructor.
Defined.

(** X2. A run of [process_links] keeps the ids of both tables positive,
    pairwise different and below the [AUTO_INCREMENT] counter: a new row
    never takes the id of a stored one. *)
Theorem process_links_keeps_ids_in_sequence :
  forall (w : Parser.world) (db : Db.database) (links : list Parser.raw_link),
    Store.ids_in_sequence db ->
    Store.ids_in_sequence (Store.after_run (Parser.process_links w db links)).
Proof.
  intros w db links H. apply process_links_preserves; [| | |exact H].
  - intros. now apply insert_organizer_sequence.
  - intros. now apply insert_event_sequence, insert_organizer_sequence.
  - intros sess d id status message (Co & Ce & Fo & No & Fe & Ne).
    destruct (log_parse_result_grows sess d id status message)
      as (Eo & Ee & Ao & Ae & _).
    unfold Store.ids_in_sequence. rewrite Eo, Ee, Ao, Ae.
    repeat split; assumption.
Qed.

Lemma process_links_keeps_ids_in_sequence_witness :
  Store.ids_in_sequence
    (Store.after_run
       (Parser.process_links (Worlds.answering Worlds.reply_four_missing "{}")
                             Spec.empty_db [Worlds.a_link; Worlds.a_link])).
Proof.
  apply (process_links_keeps_ids_in_sequence
           (Worlds.answering Worlds.reply_four_missing "{}")
           Spec.empty_db [Worlds.a_link; Worlds.a_link]).
  unfold Store.ids_in_sequence. cbn.
  repeat split; try lia; constructor.
Defined.

Lemma event_has_organizer_mono db db' e :
  (exists rows, Db.organizers db' = (Db.organizers db ++ rows)%list) ->
  Store.event_has_organizer db e -> Store.event_has_organizer db' e.
Proof.
  intros (rows & E). unfold Store.event_has_organizer.
  destruct (Db.ev_organizer_id e) as [oid|]; [|trivial].
  intros (r & Hin & Hid). exists r. split; [|exact Hid].
  rewrite E. apply in_or_app. now left.
Qed.

(** X3. A run of [process_links] keeps the events pointing at organizers
    that exist: an event is only ever stored with the id that the organizer
    upsert has just returned, which is the id of a stored row. *)
Theorem process_links_keeps_events_attached :
  forall (w : Parser.world) (db : Db.database) (links : list Parser.raw_link),
    Store.events_have_organizers db ->
    Store.events_have_organizers
      (Store.after_run (Parser.process_links w db links)).
Proof.
  intros w db links H. apply process_links_preserves; [| | |exact H].
  - intros sess d data Hd. unfold Store.events_have_organizers in *.
    destruct (insert_organizer_grows sess d data) as ((rows & Eo & _) & Ee & _).
    rewrite Ee. eapply Forall_impl; [|exact Hd].
    intros e. apply event_has_organizer_mono. eauto.
  - intros sess sess' d data oid Hd Hs.
    unfold Store.events_have_organizers in *.
    destruct (insert_organizer_grows sess d data) as ((rows & Eo & _) & Ee & _).
    destruct (insert_organizer_returns_row sess d data oid Hs) as (r & Hin & Hid).
    set (d1 := fst (Db.insert_organizer sess d data)) in *.
    destruct (insert_event_grows sess' d1 data (Some oid))
      as ((rows' & Ee' & _ & Fr) & Eo' & _).
    rewrite Ee'. apply Forall_app. split.
    + rewrite Ee. eapply Forall_impl; [|exact Hd].
      intros e. apply event_has_organizer_mono.
      exists rows. now rewrite Eo', Eo.
    + eapply Forall_impl; [|exact Fr].
      intros e He. unfold Store.event_has_organizer. rewrite He.
      exists r. split; [now rewrite Eo' | exact Hid].
  - intros sess d id status message Hd.
    destruct (log_parse_result_grows sess d id status message)
      as (Eo & Ee & _).
    unfold Store.events_have_organizers in *. rewrite Ee.
    eapply Forall_impl; [|exact Hd].
    intros e. apply event_has_organizer_mono. exists []. now rewrite Eo, app_nil_r.
Qed.

Lemma process_links_keeps_events_attached_witness :
  Store.events_have_organizers
    (Store.after_run
       (Parser.process_links (Worlds.answering Worlds.reply_four_missing "{}")
                             Spec.empty_db [Worlds.a_link])).
Proof.
  apply (process_links_keeps_events_attached
           (Worlds.answering Worlds.reply_four_missing "{}")
           Spec.empty_db [Worlds.a_link]).
  constructor.
Defined.

Lemma extends_trans db1 db2 db3 :
  Store.extends db1 db2 -> Store.extends db2 db3 -> Store.extends db1 db3.
Proof.
  intros ((o1 & O1) & (e1 & E1) & (l1 & L1)) ((o2 & O2) & (e2 & E2) & (l2 & L2)).
  repeat split.
  - exists (o1 ++ o2)%list. now rewrite O2, O1, app_assoc.
  - exists (e1 ++ e2)%list. now rewrite E2, E1, app_assoc.
  - exists (l1 ++ l2)%list. now rewrite L2, L1, app_assoc.
Qed.

(** X4. [process_links] only ever appends: after a run every organizer row,
    event row and parse-log entry that was stored before is still there,
    unchanged and at its place, followed by what the run added. *)
Theorem process_links_only_appends :
  forall (w : Parser.world) (db : Db.database) (links : list Parser.raw_link),
    Store.extends db (Store.after_run (Parser.process_links w db links)).
Proof.
  intros w db links.
  assert (R : Store.extends db db)
    by (repeat split; exists []; now rewrite app_nil_r).
  apply (process_links_preserves (Store.extends db)); [| | |exact R].
  - intros sess d data Hd. eapply extends_trans; [exact Hd|].
    destruct (insert_organizer_grows sess d data) as ((rows & Eo & _) & Ee & El).
    repeat split; [exists rows; exact Eo | exists [] | exists []];
      rewrite app_nil_r; assumption.
  - intros sess sess' d data oid Hd _.
    eapply extends_trans; [exact Hd|].
    destruct (insert_organizer_grows sess d data) as ((rows & Eo & _) & Ee & El).
    set (d1 := fst (Db.insert_organizer sess d data)) in *.
    destruct (insert_event_grows sess' d1 data (Some oid))
      as ((rows' & Ee' & _) & Eo' & El').
    repeat split.
    + exists rows. now rewrite Eo', Eo.
    + exists rows'. now rewrite Ee', Ee.
    + exists []. now rewrite El', El, app_nil_r.
  - intros sess d id status message Hd.
    eapply extends_trans; [exact Hd|].
    destruct (log_parse_result_grows sess d id status message)
      as (Eo & Ee & _ & _ & (rows & El)).
    repeat split; [exists [] | exists [] | exists rows; exact El];
      rewrite app_nil_r; assumption.
Qed.


(** ** More of parser.py *)


Section GptCall.
Import Parser.

Lemma gpt_attempts_stops client :
  forall j a remaining,
    (j < remaining)%nat ->
    (forall i, (a <= i < a + j)%nat -> Terms.retried (client i) = true) ->
    Terms.retried (client (a + j)%nat) = false ->
    gpt_attempts client a remaining = Terms.settled (client (a + j)%nat).
Proof.
  induction j as [|j IH]; intros a remaining Hr Hb Hf.
  - rewrite Nat.add_0_r in *.
    destruct remaining as [|k]; [lia|]. cbn [gpt_attempts].
    unfold Terms.settled, Terms.retried in *.
    destruct (client a) as [content|e]; cbn [bind].
    + destruct (Py.truthy (Decoder.safe_json content)); reflexivity.
    + apply orb_false_iff in Hf as [-> ->]. reflexivity.
  - destruct remaining as [|k]; [lia|]. cbn [gpt_attempts].
    assert (Ha : Terms.retried (client a) = true) by (apply Hb; lia).
    unfold Terms.retried in Ha.
    destruct (client a) as [content|e]; [discriminate|]. cbn [bind].
    replace (a + S j)%nat with (S a + j)%nat in * by lia.
    assert (E : gpt_attempts client (S a) k = Terms.settled (client (S a + j)%nat)).
    { apply IH; [lia| |exact Hf]. intros i Hi. apply Hb. lia. }
    destruct (is_rate_limit (PyStr.lower (exn_msg e))); [exact E|].
    cbn [orb] in Ha. rewrite Ha. exact E.
Qed.

Lemma gpt_attempts_exhausted client :
  forall remaining a,
    (forall i, (a <= i < a + remaining)%nat -> Terms.retried (client i) = true) ->
    gpt_attempts client a remaining = VDict [].
Proof.
  induction remaining as [|k IH]; intros a Hb; [reflexivity|].
  cbn [gpt_attempts].
  assert (Ha : Terms.retried (client a) = true) by (apply Hb; lia).
  unfold Terms.retried in Ha.
  destruct (client a) as [content|e]; [discriminate|]. cbn [bind].
  assert (E : gpt_attempts client (S a) k = VDict []).
  { apply IH. intros i Hi. apply Hb. lia. }
  destruct (is_rate_limit (PyStr.lower (exn_msg e))); [exact E|].
  cbn [orb] in Ha. rewrite Ha. exact E.
Qed.

Lemma gpt_attempts_empty_or_truthy client :
  forall remaining a,
    gpt_attempts client a remaining = VDict []
    \/ Py.truthy (gpt_attempts client a remaining) = true.
Proof.
  induction remaining as [|k IH]; intros a; [now left|].
  cbn [gpt_attempts].
  destruct (client a) as [content|e]; cbn [bind].
  - destruct (Py.truthy (Decoder.safe_json content)) eqn:T; [now right | now left].
  - destruct (is_rate_limit (PyStr.lower (exn_msg e))); [apply IH|].
    destruct (is_transient (PyStr.lower (exn_msg e))); [apply IH | now left].
Qed.

End GptCall.

(** X6. [gpt_call] of parser.py is decided by the first attempt that does not
    end in a rate-limit or transient error: a reply that decodes to a truthy
    value is returned, and any other reply (empty, not JSON, an empty
    mapping) or any other exception gives the empty mapping at once, without
    the attempts that are left. *)
Theorem gpt_call_stops_at_first_final_outcome :
  forall (client : nat -> res string) (max_retries k : nat),
    (1 <= k <= max_retries)%nat ->
    (forall i, (1 <= i < k)%nat -> Terms.retried (client i) = true) ->
    Terms.retried (client k) = false ->
    Parser.gpt_call client max_retries = Terms.settled (client k).
Proof.
  intros client max_retries k Hk Hb Hf. unfold Parser.gpt_call.
  replace k with (1 + (k - 1))%nat in Hf |- * by lia.
  apply gpt_attempts_stops; [lia| |exact Hf].
  intros i Hi. apply Hb. lia.
Qed.

Lemma gpt_call_stops_at_first_final_outcome_witness :
  Parser.gpt_call
    (fun i => match i with
              | 1%nat => Raise (Exn "RateLimitError" "Error code: 429")
              | 2%nat => Raise (Exn "APITimeoutError" "Request timed out.")
              | 3%nat => Ok "this is not JSON"
              | _ => Ok "{'event_name': 'Gala'}"
              end) 5
  = VDict [].
Proof.
  refine (gpt_call_stops_at_first_final_outcome _ 5 3 _ _ _).
  - lia.
  - intros i Hi. destruct i as [|[|[|i]]]; try lia; reflexivity.
  - reflexivity.
Defined.

(** X7. [gpt_call] of parser.py returns the empty mapping or a truthy value,
    never anything else that is falsy, and it returns the empty mapping
    when every one of its attempts ends in a rate-limit or transient
    error. *)
Theorem gpt_call_empty_or_truthy :
  forall (client : nat -> res string) (max_retries : nat),
    (Parser.gpt_call client max_retries = VDict []
     \/ Py.truthy (Parser.gpt_call client max_retries) = true)
    /\ ((forall i, (1 <= i <= max_retries)%nat -> Terms.retried (client i) = true) ->
        Parser.gpt_call client max_retries = VDict []).
Proof.
  intros client max_retries. split.
  - apply gpt_attempts_empty_or_truthy.
  - intros H. apply gpt_attempts_exhausted. intros i Hi. apply H. lia.
Qed.


(** ** Normal form of the cleaned texts *)
Section CleanText.
Import PyStr Parser.





Lemma rstrip_rstrip s : rstrip (rstrip s) = rstrip s.
Proof.
  induction s as [|c r IH]; [reflexivity|]. cbn [rstrip].
  destruct (rstrip r) as [|c' r'] eqn:E.
  - destruct (isspace c) eqn:Ec; [reflexivity|]. cbn [rstrip]. now rewrite Ec.
  - change (rstrip (String c (String c' r')))
      with (match rstrip (String c' r') with
            | EmptyString => if isspace c then EmptyString else String c EmptyString
            | String a q => String c (String a q)
            end).
    now rewrite IH.
Qed.








End CleanText.





(** ** What a link leaves in the parse log *)
Section LinkLog.
Import Parser.

Lemma save_result w db tr id x :
  exists db2 mid,
    save w db tr id x
    = logged w db2 (tr ++ InsertOrganizer x :: mid)%list id
        (if (Spec.missing_count x <? List.length REQUIRED_FIELDS)%nat
         then "success" else "failed")
        (Terms.saved_message (Spec.missing_count x))
    /\ (mid = [] \/ exists oid, mid = [InsertEvent x oid]).
Proof.
  unfold save.
  destruct (Db.insert_organizer (organizer_session w id) db x) as [db1 oid].
  rewrite count_missing_fields_dict. unfold Terms.saved_message.
  destruct oid as [o|]; [destruct (negb (Z.eqb o 0))|];
    eexists; eexists; rewrite <- ?app_assoc; cbn [app];
    (split; [reflexivity|]); eauto.
Qed.

Lemma usable_never_raises (data : value) :
  match data with
  | VDict d =>
      n <- count_missing_fields data ;;
      Ok (if (n =? List.length REQUIRED_FIELDS)%nat then None else Some d)
  | _ => Ok None
  end
  = Ok (match data with
        | VDict d =>
            if (Spec.missing_count d =? List.length REQUIRED_FIELDS)%nat
            then None else Some d
        | _ => None
        end).
Proof.
  destruct data; try reflexivity.
  now rewrite count_missing_fields_dict.
Qed.

Lemma process_link_ends_logged w db link :
  how (process_link w db link) = NextLink ->
  exists db2 status message,
    final_db (process_link w db link)
    = Db.log_parse_result (log_session w (link_id link)) db2
        (link_id link) status message.
Proof.
  unfold process_link.
  destruct (fetch_page w (link_url link)) as [html|]; [|intros _; do 3 eexists; reflexivity].
  destruct (PyStr.is_empty html); [intros _; do 3 eexists; reflexivity|].
  destruct (parse_event_with_gpt w html (link_url link)) as [data|e];
    [|intros _; do 3 eexists; reflexivity].
  destruct (count_missing_fields data) as [n|e]; [|discriminate].
  cbv zeta. rewrite usable_never_raises.
  set (data' := if (MISSING_FIELDS_THRESHOLD <=? n)%nat
                then escalate w (link_url link) data else data).
  set (tr := if (MISSING_FIELDS_THRESHOLD <=? n)%nat
             then [DeepSynthesize (link_url link) data] else []).
  assert (S : forall db0 tr0 x,
             exists db2 status message,
               final_db (save w db0 tr0 (link_id link) x)
               = Db.log_parse_result (log_session w (link_id link)) db2
                   (link_id link) status message).
  { intros db0 tr0 x. destruct (save_result w db0 tr0 (link_id link) x)
      as (db2 & mid & -> & _). do 3 eexists; reflexivity. }
  destruct (match data' with
            | VDict d =>
                if (Spec.missing_count d =? List.length REQUIRED_FIELDS)%nat
                then None else Some d
            | _ => None
            end) as [d|].
  - intros _. apply S.
  - destruct (page_title w html) as [title|e]; [intros _; apply S | intros _; do 3 eexists; reflexivity].
Qed.

Lemma filter_length_le {A : Type} (p q : A -> bool) (l : list A) :
  Forall (fun a => q a = true -> p a = true) l ->
  (List.length (List.filter q l) <= List.length (List.filter p l))%nat.
Proof.
  induction 1 as [|a l Ha _ IH]; cbn [List.filter]; [lia|].
  destruct (q a).
  - rewrite (Ha eq_refl). cbn [List.length]. lia.
  - destruct (p a); cbn [List.length]; lia.
Qed.

Lemma filter_length_lt {A : Type} (p : A -> bool) (l : list A) (a : A) :
  In a l -> p a = false ->
  (List.length (List.filter p l) < List.length l)%nat.
Proof.
  intros Hin Hp. induction l as [|b l IH]; [destruct Hin|].
  cbn [List.filter List.length].
  pose proof (filter_length p l) as L.
  destruct Hin as [->|Hin].
  - rewrite Hp. lia.
  - specialize (IH Hin). destruct (p b); cbn [List.length]; lia.
Qed.

Lemma fallback_missing_count w title url :
  Py.blank (VStr url) = false ->
  (25 <= Spec.missing_count (prepare w url (fallback_record title url)) <= 26)%nat.
Proof.
  intros B. unfold Spec.missing_count.
  assert (R : Spec.missing (prepare w url (fallback_record title url))
                           "registration_url" = false).
  { rewrite missing_dict_get, prepare_registration_url.
    assert (E : Py.dict_get (fallback_record title url) "registration_url"
                = VStr url) by reflexivity.
    rewrite E. destruct (Py.truthy (VStr url)); now rewrite B. }
  split.
  - clear R. destruct url as [|c rest]; [discriminate B|]. clear B.
    change 25%nat
      with (List.length
              (List.filter
                 (fun f => negb (String.eqb f "event_name")
                           && negb (String.eqb f "registration_url"))
                 REQUIRED_FIELDS)).
    apply filter_length_le.
    assert (F : List.forallb
                  (fun f =>
                     implb (negb (String.eqb f "event_name")
                            && negb (String.eqb f "registration_url"))
                           (Spec.missing
                              (prepare w (String c rest)
                                 (fallback_record title (String c rest))) f))
                  REQUIRED_FIELDS = true)
      by (vm_compute; reflexivity).
    apply Forall_forall. intros f Hin Hq.
    rewrite forallb_forall in F. specialize (F f Hin).
    rewrite Hq in F. exact F.
  - assert (I : In "registration_url" REQUIRED_FIELDS)
      by (unfold REQUIRED_FIELDS; cbn [In]; tauto).
    pose proof (filter_length_lt _ _ _ I R) as L.
    change (List.length REQUIRED_FIELDS) with 27%nat in L. lia.
Qed.

Lemma process_link_raises w db link html data e :
  fetch_page w (link_url link) = Some html ->
  PyStr.is_empty html = false ->
  parse_event_with_gpt w html (link_url link) = Ok data ->
  count_missing_fields data = Raise e ->
  process_link w db link = Result db [] (Uncaught e).
Proof.
  intros Ef Eh Ep Ec. unfold process_link. now rewrite Ef, Eh, Ep, Ec.
Qed.

Lemma process_link_uncaught w db link e :
  how (process_link w db link) = Uncaught e ->
  exists html data,
    fetch_page w (link_url link) = Some html
    /\ PyStr.is_empty html = false
    /\ parse_event_with_gpt w html (link_url link) = Ok data
    /\ count_missing_fields data = Raise e.
Proof.
  unfold process_link.
  destruct (fetch_page w (link_url link)) as [html|]; [|discriminate].
  destruct (PyStr.is_empty html) eqn:Eh; [discriminate|].
  destruct (parse_event_with_gpt w html (link_url link)) as [data|e0] eqn:Ep;
    [|discriminate].
  destruct (count_missing_fields data) as [n|e0] eqn:Ec.
  - cbv zeta. rewrite usable_never_raises.
    destruct (match (if (MISSING_FIELDS_THRESHOLD <=? n)%nat
                     then escalate w (link_url link) data else data) with
              | VDict d =>
                  if (Spec.missing_count d =? List.length REQUIRED_FIELDS)%nat
                  then None else Some d
              | _ => None
              end) as [d|].
    + destruct (save_result w db
                  (if (MISSING_FIELDS_THRESHOLD <=? n)%nat
                   then [DeepSynthesize (link_url link) data] else [])
                  (link_id link) (prepare w (link_url link) d))
        as (db2 & mid & -> & _). discriminate.
    + destruct (page_title w html) as [title|e1]; [|discriminate].
      match goal with
      | |- how (save ?w0 ?db0 ?tr0 ?id0 ?x0) = _ -> _ =>
          destruct (save_result w0 db0 tr0 id0 x0) as (db2 & mid & -> & _)
      end. discriminate.
  - cbn [how]. intros H. injection H as <-.
    exists html, data. repeat split; assumption || reflexivity.
Qed.

Lemma count_missing_fields_truthy data :
  Py.truthy data = true ->
  count_missing_fields data = count_missing data REQUIRED_FIELDS 0.
Proof.
  intros T. unfold count_missing_fields. now rewrite T.
Qed.

Lemma count_missing_fields_falsy data :
  Py.truthy data = false ->
  count_missing_fields data = Ok (List.length REQUIRED_FIELDS).
Proof.
  intros T. unfold count_missing_fields. now rewrite T.
Qed.

Lemma count_missing_non_mapping data :
  (forall d, data <> VDict d) ->
  count_missing data REQUIRED_FIELDS 0
  = Raise (Exn "AttributeError"
               ("'" ++ Py.type_name data ++ "' object has no attribute 'get'")).
Proof.
  intros N. destruct data; try reflexivity. exfalso. now apply (N items).
Qed.

Lemma count_missing_fields_raises data e :
  count_missing_fields data = Raise e ->
  Py.truthy data = true
  /\ (forall d, data <> VDict d)
  /\ e = Exn "AttributeError"
             ("'" ++ Py.type_name data ++ "' object has no attribute 'get'").
Proof.
  intros Ec.
  assert (N : forall d, data <> VDict d).
  { intros d ->. rewrite count_missing_fields_dict in Ec. discriminate. }
  destruct (Py.truthy data) eqn:T.
  - rewrite (count_missing_fields_truthy data T) in Ec.
    rewrite (count_missing_non_mapping data N) in Ec.
    split; [reflexivity|]. split; [exact N|]. congruence.
  - rewrite (count_missing_fields_falsy data T) in Ec. discriminate Ec.
Qed.

End LinkLog.

(** X10. A link that got the entry [failed, Parse failed: invalid JSON
    (fallback used)] went on to be saved from the fallback record, and when
    its URL is not blank the next entry of the same link says [success]:
    the calls for the link end with that failure entry, the organizer upsert
    of the fallback record, the event upsert if an organizer id came back,
    and a [success] entry that counts 25 or 26 missing fields. *)
Theorem fallback_logs_failed_then_success :
  forall (w : Parser.world) (db : Db.database) (link : Parser.raw_link),
    In (Parser.LogParseResult (Parser.link_id link) "failed" Terms.fallback_message)
       (Parser.trace (Parser.process_link w db link)) ->
    Py.blank (VStr (Parser.link_url link)) = false ->
    exists before html title mid n,
      Parser.fetch_page w (Parser.link_url link) = Some html
      /\ Parser.page_title w html = Ok title
      /\ Parser.trace (Parser.process_link w db link)
         = (before
            ++ [Parser.LogParseResult (Parser.link_id link) "failed"
                  Terms.fallback_message;
                Parser.InsertOrganizer
                  (Parser.prepare w (Parser.link_url link)
                     (Parser.fallback_record title (Parser.link_url link)))]
            ++ mid
            ++ [Parser.LogParseResult (Parser.link_id link) "success"
                  (Terms.saved_message n)])%list
      /\ (before = []
          \/ exists data, before = [Parser.DeepSynthesize (Parser.link_url link) data])
      /\ (mid = []
          \/ exists oid,
               mid = [Parser.InsertEvent
                        (Parser.prepare w (Parser.link_url link)
                           (Parser.fallback_record title (Parser.link_url link)))
                        oid])
      /\ (25 <= n <= 26)%nat.
Proof.
  intros w db link. unfold Parser.process_link.
  set (id := Parser.link_id link). set (url := Parser.link_url link).
  assert (NoSave : forall db0 tr0 x,
             ~ In (Parser.LogParseResult id "failed" Terms.fallback_message) tr0 ->
             ~ In (Parser.LogParseResult id "failed" Terms.fallback_message)
                  (Parser.trace (Parser.save w db0 tr0 id x))).
  { intros db0 tr0 x H0 H.
    destruct (save_result w db0 tr0 id x) as (db2 & mid & E & Hm).
    rewrite E in H. unfold Parser.logged in H. cbn [Parser.trace] in H.
    rewrite !in_app_iff in H. destruct H as [[H|[H|H]]|[H|[]]].
    - now apply H0.
    - discriminate.
    - destruct Hm as [->|[oid ->]]; [destruct H|].
      destruct H as [H|[]]. discriminate.
    - unfold Terms.saved_message, Terms.fallback_message in H.
      cbn [append] in H. congruence. }
  assert (NoDeep : forall n data,
             ~ In (Parser.LogParseResult id "failed" Terms.fallback_message)
                  (if (Parser.MISSING_FIELDS_THRESHOLD <=? n)%nat
                   then [Parser.DeepSynthesize url data] else [])).
  { intros n data. destruct (Parser.MISSING_FIELDS_THRESHOLD <=? n)%nat.
    - intros [H|[]]. discriminate.
    - intros []. }
  destruct (Parser.fetch_page w url) as [html|].
  2:{ intros H _. exfalso. unfold Parser.logged in H.
      cbn [Parser.trace app In] in H. destruct H as [H|[]].
      unfold Terms.fallback_message in H. congruence. }
  destruct (PyStr.is_empty html).
  { intros H _. exfalso. unfold Parser.logged in H.
    cbn [Parser.trace app In] in H. destruct H as [H|[]].
    unfold Terms.fallback_message in H. congruence. }
  destruct (Parser.parse_event_with_gpt w html url) as [data|e].
  2:{ intros H _. exfalso. unfold Parser.logged in H.
      cbn [Parser.trace app In] in H. destruct H as [H|[]].
      unfold Terms.fallback_message in H. cbn [append] in H. congruence. }
  destruct (Parser.count_missing_fields data) as [n|e]; [|intros []].
  cbv zeta. rewrite usable_never_raises.
  set (tr := if (Parser.MISSING_FIELDS_THRESHOLD <=? n)%nat
             then [Parser.DeepSynthesize url data] else []).
  assert (Htr : tr = [] \/ exists data0, tr = [Parser.DeepSynthesize url data0]).
  { unfold tr. destruct (Parser.MISSING_FIELDS_THRESHOLD <=? n)%nat; eauto. }
  destruct (match (if (Parser.MISSING_FIELDS_THRESHOLD <=? n)%nat
                   then Parser.escalate w url data else data) with
            | VDict d =>
                if (Spec.missing_count d =? List.length Parser.REQUIRED_FIELDS)%nat
                then None else Some d
            | _ => None
            end) as [d|].
  { intros H _. exfalso. revert H. apply NoSave, NoDeep. }
  destruct (Parser.page_title w html) as [title|e] eqn:Et.
  2:{ unfold Parser.logged. cbn [Parser.trace]. intros H _. exfalso.
      apply in_app_iff in H as [H|[H|[]]]; [now apply (NoDeep n data)|].
      unfold Terms.fallback_message in H. cbn [append] in H. congruence. }
  intros _ B.
  destruct (save_result w
              (Parser.final_db (Parser.logged w db tr id "failed"
                                  "Parse failed: invalid JSON (fallback used)"))
              (Parser.trace (Parser.logged w db tr id "failed"
                               "Parse failed: invalid JSON (fallback used)"))
              id (Parser.prepare w url (Parser.fallback_record title url)))
    as (db2 & mid & E & Hm).
  pose proof (fallback_missing_count w title url B) as Hn.
  exists tr, html, title, mid,
    (Spec.missing_count (Parser.prepare w url (Parser.fallback_record title url))).
  split; [reflexivity|]. split; [exact Et|]. split.
  - rewrite E. unfold Parser.logged. cbn [Parser.trace].
    replace (Spec.missing_count (Parser.prepare w url (Parser.fallback_record title url))
             <? List.length Parser.REQUIRED_FIELDS)%nat with true
      by (symmetry; apply Nat.ltb_lt; change (List.length Parser.REQUIRED_FIELDS) with 27%nat; lia).
    rewrite <- !app_assoc. reflexivity.
  - split; [exact Htr|]. split; [exact Hm | exact Hn].
Qed.

Lemma fallback_logs_failed_then_success_witness :
  exists before html title mid n,
    Parser.fetch_page (Worlds.answering "I cannot help with that." "{}")
                      (Parser.link_url Worlds.a_link) = Some html
    /\ Parser.page_title (Worlds.answering "I cannot help with that." "{}") html
       = Ok title
    /\ Parser.trace (Parser.process_link
                       (Worlds.answering "I cannot help with that." "{}")
                       Spec.empty_db Worlds.a_link)
       = (before
          ++ [Parser.LogParseResult (Parser.link_id Worlds.a_link) "failed"
                Terms.fallback_message;
              Parser.InsertOrganizer
                (Parser.prepare (Worlds.answering "I cannot help with that." "{}")
                   (Parser.link_url Worlds.a_link)
                   (Parser.fallback_record title (Parser.link_url Worlds.a_link)))]
          ++ mid
          ++ [Parser.LogParseResult (Parser.link_id Worlds.a_link) "success"
                (Terms.saved_message n)])%list
    /\ (before = []
        \/ exists data,
             before = [Parser.DeepSynthesize (Parser.link_url Worlds.a_link) data])
    /\ (mid = []
        \/ exists oid,
             mid = [Parser.InsertEvent
                      (Parser.prepare (Worlds.answering "I cannot help with that." "{}")
                         (Parser.link_url Worlds.a_link)
                         (Parser.fallback_record title (Parser.link_url Worlds.a_link)))
                      oid])
    /\ (25 <= n <= 26)%nat.
Proof.
  apply (fallback_logs_failed_then_success
           (Worlds.answering "I cannot help with that." "{}")
           Spec.empty_db Worlds.a_link).
  - vm_compute. right. left. reflexivity.
  - reflexivity.
Defined.

(** X11. A link whose processing went on to the next link with its log
    statement executed is not fetched again: whatever the store becomes by
    further appends, [fetch_unprocessed_links] returns no link with that
    id. *)
Theorem logged_link_is_not_fetched_again :
  forall (w : Parser.world) (db later : Db.database) (link : Parser.raw_link)
         (sess : Db.session) (raw_links links : list Parser.raw_link)
         (limit : nat),
    Parser.how (Parser.process_link w db link) = Parser.NextLink ->
    Parser.log_session w (Parser.link_id link) = Db.Executed ->
    Store.extends (Parser.final_db (Parser.process_link w db link)) later ->
    Intake.fetch_unprocessed_links sess raw_links later limit = Ok links ->
    Forall (fun l => Parser.link_id l <> Parser.link_id link) links.
Proof.
  intros w db later link sess raw_links links limit Hn Hs He Hf.
  destruct (process_link_ends_logged w db link Hn) as (db2 & status & message & E).
  rewrite E, Hs in He. destruct He as (_ & _ & rows & Hl).
  cbn [Db.log_parse_result Db.parse_logs] in Hl.
  unfold Intake.fetch_unprocessed_links, EinEnrichment.select in Hf.
  destruct sess; try discriminate. injection Hf as <-.
  apply Forall_forall. intros l Hin Heq.
  apply (In_firstn_In _ _ _ _ Hin) in Hin || idtac.
  assert (Hin' : In l (List.filter
                         (fun link0 =>
                            negb (List.existsb
                                    (fun entry => Z.eqb (Db.pl_raw_link_id entry)
                                                        (Parser.link_id link0))
                                    (Db.parse_logs later))) raw_links)).
  { revert Hin. clear. generalize (List.filter
                         (fun link0 =>
                            negb (List.existsb
                                    (fun entry => Z.eqb (Db.pl_raw_link_id entry)
                                                        (Parser.link_id link0))
                                    (Db.parse_logs later))) raw_links).
    intros xs. revert xs. induction limit as [|k IH]; intros xs H; [destruct H|].
    destruct xs as [|x xs]; [destruct H|]. destruct H as [->|H]; [now left|].
    right. now apply IH. }
  apply filter_In in Hin' as [_ Hp]. apply negb_true_iff in Hp.
  assert (T : List.existsb
                (fun entry => Z.eqb (Db.pl_raw_link_id entry) (Parser.link_id l))
                (Db.parse_logs later) = true).
  { apply existsb_exists.
    exists (Db.ParseLog (Parser.link_id link) status message). split.
    - rewrite Hl, !in_app_iff. left. right. now left.
    - cbn [Db.pl_raw_link_id]. apply Z.eqb_eq. now symmetry. }
  congruence.
Qed.

Lemma logged_link_is_not_fetched_again_witness :
  Forall (fun l => Parser.link_id l <> Parser.link_id Worlds.a_link)
         [Parser.RawLink 2 "https://example.org/auction"].
Proof.
  apply (logged_link_is_not_fetched_again
           (Worlds.answering Worlds.reply_four_missing "{}")
           Spec.empty_db
           (Parser.final_db (Parser.process_link
                               (Worlds.answering Worlds.reply_four_missing "{}")
                               Spec.empty_db Worlds.a_link))
           Worlds.a_link Db.Executed
           [Worlds.a_link; Parser.RawLink 2 "https://example.org/auction"]
           [Parser.RawLink 2 "https://example.org/auction"] 10).
  - reflexivity.
  - reflexivity.
  - unfold Store.extends. repeat split; exists []; symmetry; apply app_nil_r.
  - vm_compute. reflexivity.
Defined.

(** X12. The only exception that leaves the loop of [process_links] is the
    [AttributeError] of [count_missing_fields] on a first extraction that
    is truthy but not a mapping (a JSON list, number or text that the
    decoder let through).  It leaves before anything is written: no call to
    the store, no entry in the parse log, so the link stays unprocessed. *)
Theorem process_link_aborts_only_on_non_mapping :
  forall (w : Parser.world) (db : Db.database) (link : Parser.raw_link) (e : exn),
    Parser.how (Parser.process_link w db link) = Parser.Uncaught e ->
    Parser.final_db (Parser.process_link w db link) = db
    /\ Parser.trace (Parser.process_link w db link) = []
    /\ exists html data,
         Parser.fetch_page w (Parser.link_url link) = Some html
         /\ Parser.parse_event_with_gpt w html (Parser.link_url link) = Ok data
         /\ Py.truthy data = true
         /\ (forall d, data <> VDict d)
         /\ e = Exn "AttributeError"
                    ("'" ++ Py.type_name data ++ "' object has no attribute 'get'").
Proof.
  intros w db link e H.
  destruct (process_link_uncaught w db link e H)
    as (html & data & Ef & Eh & Ep & Ec).
  rewrite (process_link_raises w db link html data e Ef Eh Ep Ec).
  split; [reflexivity|]. split; [reflexivity|].
  exists html, data. split; [exact Ef|]. split; [exact Ep|].
  now apply count_missing_fields_raises.
Qed.


Lemma process_link_aborts_only_on_non_mapping_witness :
  Parser.final_db (Parser.process_link (Worlds.answering "[1, 2]" "{}")
                                       Spec.empty_db Worlds.a_link)
  = Spec.empty_db
  /\ Parser.trace (Parser.process_link (Worlds.answering "[1, 2]" "{}")
                                       Spec.empty_db Worlds.a_link) = []
  /\ exists html data,
       Parser.fetch_page (Worlds.answering "[1, 2]" "{}")
                         (Parser.link_url Worlds.a_link) = Some html
       /\ Parser.parse_event_with_gpt (Worlds.answering "[1, 2]" "{}") html
                                      (Parser.link_url Worlds.a_link) = Ok data
       /\ Py.truthy data = true
       /\ (forall d, data <> VDict d)
       /\ Exn "AttributeError" "'list' object has no attribute 'get'"
          = Exn "AttributeError"
                ("'" ++ Py.type_name data ++ "' object has no attribute 'get'").
Proof.
  apply (process_link_aborts_only_on_non_mapping
           (Worlds.answering "[1, 2]" "{}") Spec.empty_db Worlds.a_link
           (Exn "AttributeError" "'list' object has no attribute 'get'")).
  vm_compute. reflexivity.
Defined.

(** ** The batch run of ein_enrichment.py *)
Section Texts.
Import PyStr.

Lemma utf8_take_length s : forall n, (Utf8.length (Utf8.take n s) <= n)%nat.
Proof.
  induction s as [|c r IH]; intros n; [cbn; lia|].
  cbn [Utf8.take]. destruct (Utf8.is_continuation c) eqn:E.
  - cbn [Utf8.length]. rewrite E. apply IH.
  - destruct n as [|m]; [cbn; lia|]. cbn [Utf8.length]. rewrite E.
    specialize (IH m). lia.
Qed.

Lemma utf8_take_not_empty s n :
  is_empty s = false -> is_empty (Utf8.take (S n) s) = false.
Proof.
  destruct s as [|c r]; [discriminate|]. intros _. cbn [Utf8.take].
  destruct (Utf8.is_continuation c); reflexivity.
Qed.

Lemma utf8_take_all s :
  forall n, (String.length s <= n)%nat ->
            forallb (fun c => negb (Utf8.is_continuation c))
                    (list_ascii_of_string s) = true ->
            Utf8.take n s = s.
Proof.
  induction s as [|c r IH]; intros n L A; [reflexivity|].
  cbn [list_ascii_of_string forallb] in A. apply andb_true_iff in A as [Ac A].
  apply negb_true_iff in Ac. cbn [Utf8.take]. rewrite Ac.
  cbn [String.length] in L. destruct n as [|m]; [lia|].
  rewrite IH; [reflexivity | lia | exact A].
Qed.

Lemma digit_not_continuation c :
  EinEnrichment.is_digit c = true -> Utf8.is_continuation c = false.
Proof.
  unfold EinEnrichment.is_digit, Utf8.is_continuation. intros H.
  apply andb_true_iff in H as [_ H]. apply N.leb_le in H.
  apply andb_false_iff. left. apply N.leb_gt. lia.
Qed.

Lemma hyphen_then_inv k s :
  EinEnrichment.hyphen_then k s = true ->
  exists r, s = String "-" r /\ k r = true.
Proof.
  destruct s as [|c r]; [discriminate|].
  destruct c as [[] [] [] [] [] [] [] []]; try discriminate.
  intros H. now exists r.
Qed.

Lemma digits_then_inv m k s :
  EinEnrichment.digits_then (S m) k s = true ->
  exists c r, s = String c r /\ EinEnrichment.is_digit c = true
              /\ EinEnrichment.digits_then m k r = true.
Proof.
  cbn [EinEnrichment.digits_then]. destruct s as [|c r]; [discriminate|].
  intros H. apply andb_true_iff in H as [D H]. now exists c, r.
Qed.

Lemma digits_then_ascii k :
  forall m s,
    EinEnrichment.digits_then m k s = true ->
    exists d r,
      s = (d ++ r)%string /\ String.length d = m /\ k r = true
      /\ forallb (fun c => negb (Utf8.is_continuation c))
                 (list_ascii_of_string d) = true.
Proof.
  induction m as [|m IH]; intros s H.
  - exists EmptyString, s. now repeat split.
  - apply digits_then_inv in H as (c & r & -> & D & H).
    destruct (IH r H) as (d & r' & -> & L & K & A).
    exists (String c d), r'. repeat split; cbn; [now f_equal | exact K |].
    now rewrite (digit_not_continuation _ D), A.
Qed.

Lemma is_ein_take e : Spec.is_ein e = true -> Utf8.take 20 e = e.
Proof.
  unfold Spec.is_ein. intros H.
  apply digits_then_ascii in H as (d1 & r1 & -> & L1 & H & A1).
  apply hyphen_then_inv in H as (r2 & -> & H).
  apply digits_then_ascii in H as (d2 & r3 & -> & L2 & H & A2).
  destruct r3; [|discriminate].
  assert (LA : forall a b, String.length (a ++ b) = (String.length a + String.length b)%nat).
  { induction a; intros b; cbn; [reflexivity | now rewrite IHa]. }
  assert (FA : forall a b, list_ascii_of_string (a ++ b)
                           = (list_ascii_of_string a ++ list_ascii_of_string b)%list).
  { induction a; intros b; cbn; [reflexivity | now rewrite IHa]. }
  apply utf8_take_all.
  - rewrite LA. cbn [String.length]. rewrite LA, L1, L2. cbn. lia.
  - rewrite FA, forallb_app, A1. cbn [list_ascii_of_string forallb andb].
    change (Utf8.is_continuation "-") with false. cbn [negb andb].
    now rewrite FA, forallb_app, A2.
Qed.

Lemma str_truthy_not_empty v :
  Py.truthy v = true -> is_empty (Py.str v) = false.
Proof.
  destruct v as [|b|z|lit|s|l|d]; cbn [Py.truthy Py.str Py.repr]; intros T.
  - discriminate.
  - now subst b.
  - unfold Py.int_str.
    destruct (Z.to_int z) as [u|u]; [|reflexivity].
    destruct u; reflexivity.
  - unfold Py.float_str.
    destruct (String.eqb lit "NaN"); [reflexivity|].
    destruct (String.eqb lit "Infinity"); [reflexivity|].
    destruct (String.eqb lit "-Infinity"); [reflexivity|].
    destruct lit; [discriminate | reflexivity].
  - now apply negb_true_iff in T.
  - reflexivity.
  - reflexivity.
Qed.

End Texts.

Section FillingFacts.
Import Filling Enrich.

Lemma kept_or_refl P v : kept_or P v v.
Proof. now left. Qed.

Lemma kept_or_trans P a b c : kept_or P a b -> kept_or P b c -> kept_or P a c.
Proof.
  intros [->|H1] [->|H2]; [now left | now right | now right | now right].
Qed.

Lemma organizer_enriched_refl r : organizer_enriched r r.
Proof. repeat split; apply kept_or_refl. Qed.

Lemma organizer_enriched_trans a b c :
  organizer_enriched a b -> organizer_enriched b c -> organizer_enriched a c.
Proof.
  intros (I1 & A1 & B1 & C1 & D1) (I2 & A2 & B2 & C2 & D2).
  split; [congruence|].
  repeat split; eapply kept_or_trans; eassumption.
Qed.

Lemma event_enriched_refl r : event_enriched r r.
Proof. repeat split; apply kept_or_refl. Qed.

Lemma event_enriched_trans a b c :
  event_enriched a b -> event_enriched b c -> event_enriched a c.
Proof.
  intros (I1 & A1 & B1 & C1 & D1 & E1 & F1 & G1)
         (I2 & A2 & B2 & C2 & D2 & E2 & F2 & G2).
  split; [congruence|].
  repeat split; eapply kept_or_trans; eassumption.
Qed.

Lemma Forall2_refl {A : Type} (R : A -> A -> Prop) (l : list A) :
  (forall x, R x x) -> Forall2 R l l.
Proof. intros H. induction l; constructor; auto. Qed.

Lemma Forall2_trans {A : Type} (R : A -> A -> Prop) :
  (forall x y z, R x y -> R y z -> R x z) ->
  forall l1 l2 l3, Forall2 R l1 l2 -> Forall2 R l2 l3 -> Forall2 R l1 l3.
Proof.
  intros T l1 l2 l3 H. revert l3.
  induction H as [|x y l1 l2 Hxy _ IH]; intros l3 H3; inversion H3; subst;
    constructor; eauto.
Qed.

Lemma Forall2_map_r {A : Type} (R : A -> A -> Prop) (f : A -> A) (l : list A) :
  (forall x, R x (f x)) -> Forall2 R l (List.map f l).
Proof. intros H. induction l; cbn; constructor; auto. Qed.

Lemma enriched_refl d : enriched d d.
Proof.
  repeat split.
  - apply Forall2_refl, organizer_enriched_refl.
  - apply Forall2_refl, event_enriched_refl.
Qed.

Lemma enriched_trans a b c : enriched a b -> enriched b c -> enriched a c.
Proof.
  intros (O1 & E1 & P1 & A1 & B1) (O2 & E2 & P2 & A2 & B2).
  split; [|split; [|repeat split; congruence]].
  - eapply Forall2_trans; eauto using organizer_enriched_trans.
  - eapply Forall2_trans; eauto using event_enriched_trans.
Qed.

Lemma set_organizer_column_enriched r a :
  organizer_assignment a -> organizer_enriched r (set_organizer_column r a).
Proof.
  destruct a as [column v]. unfold organizer_assignment, set_organizer_column.
  cbn [fst snd].
  destruct (String.eqb column "ein").
  { intros H. repeat split; try apply kept_or_refl. now right. }
  destruct (String.eqb column "facebook").
  { intros H. repeat split; try apply kept_or_refl. now right. }
  destruct (String.eqb column "instagram").
  { intros H. repeat split; try apply kept_or_refl. now right. }
  destruct (String.eqb column "contact_title").
  { intros H. repeat split; try apply kept_or_refl. now right. }
  intros _. apply organizer_enriched_refl.
Qed.

Lemma fold_organizer_columns_enriched to_set :
  Forall organizer_assignment to_set ->
  forall r, organizer_enriched r (fold_left set_organizer_column to_set r).
Proof.
  induction 1 as [|a to_set Ha _ IH]; intros r; cbn [fold_left].
  - apply organizer_enriched_refl.
  - eapply organizer_enriched_trans; [|apply IH].
    now apply set_organizer_column_enriched.
Qed.

Lemma update_organizers_enriched to_set id d :
  Forall organizer_assignment to_set ->
  enriched d (update_organizers to_set id d)
  /\ Forall2 (fun r r' => Db.org_id r <> id -> r' = r)
             (Db.organizers d) (Db.organizers (update_organizers to_set id d))
  /\ Db.events (update_organizers to_set id d) = Db.events d.
Proof.
  intros H. unfold update_organizers, with_organizers, enriched.
  cbn [Db.organizers Db.events Db.parse_logs Db.organizers_auto_increment
       Db.events_auto_increment].
  repeat split.
  - apply Forall2_map_r. intros r. destruct (Z.eqb (Db.org_id r) id).
    + now apply fold_organizer_columns_enriched.
    + apply organizer_enriched_refl.
  - apply Forall2_refl, event_enriched_refl.
  - apply Forall2_map_r. intros r N.
    destruct (Z.eqb_spec (Db.org_id r) id); [contradiction | reflexivity].
Qed.

Lemma set_event_column_enriched r a :
  event_assignment a -> event_enriched r (set_event_column r a).
Proof.
  destruct a as [column v]. intros (maxlen & Hin & Hv). cbn [fst snd] in *.
  unfold EVENT_MAPPING in Hin. cbn [In] in Hin.
  destruct Hin as [E|[E|[E|[E|[E|[E|[E|[]]]]]]]];
    injection E as <- <-; cbn [set_event_column String.eqb Ascii.eqb Bool.eqb];
    repeat split; try apply kept_or_refl; now right.
Qed.

Lemma fold_event_columns_enriched to_set :
  Forall event_assignment to_set ->
  forall r, event_enriched r (fold_left set_event_column to_set r).
Proof.
  induction 1 as [|a to_set Ha _ IH]; intros r; cbn [fold_left].
  - apply event_enriched_refl.
  - eapply event_enriched_trans; [|apply IH].
    now apply set_event_column_enriched.
Qed.

Lemma update_events_enriched to_set id d :
  Forall event_assignment to_set ->
  enriched d (update_events to_set id d)
  /\ Forall2 (fun r r' => Db.ev_id r <> id -> r' = r)
             (Db.events d) (Db.events (update_events to_set id d))
  /\ Db.organizers (update_events to_set id d) = Db.organizers d.
Proof.
  intros H. unfold update_events, with_events, enriched.
  cbn [Db.organizers Db.events Db.parse_logs Db.organizers_auto_increment
       Db.events_auto_increment].
  repeat split.
  - apply Forall2_refl, organizer_enriched_refl.
  - apply Forall2_map_r. intros r. destruct (Z.eqb (Db.ev_id r) id).
    + now apply fold_event_columns_enriched.
    + apply event_enriched_refl.
  - apply Forall2_map_r. intros r N.
    destruct (Z.eqb_spec (Db.ev_id r) id); [contradiction | reflexivity].
Qed.

Lemma trim_len_short v n :
  Py.truthy v = true -> short_text (S n) (trim_len v (S n)).
Proof.
  intros T. unfold trim_len. rewrite T. cbn [negb].
  eexists. split; [reflexivity|]. split.
  - now apply utf8_take_not_empty, str_truthy_not_empty.
  - apply utf8_take_length.
Qed.

Lemma trim_len_ein v : ein_text v -> ein_text (trim_len v 20).
Proof.
  intros (e & -> & He). unfold trim_len. cbn [Py.truthy Py.str].
  rewrite (is_ein_not_empty _ He). cbn [negb].
  exists e. now rewrite (is_ein_take _ He).
Qed.

Lemma organizer_assignments_ok fields :
  organizer_fields fields ->
  Forall organizer_assignment (organizer_assignments fields).
Proof.
  intros (He & Hk). unfold organizer_assignments.
  inversion Hk as [|? ? Hf Hk1]; subst. inversion Hk1 as [|? ? Hi Hk2]; subst.
  inversion Hk2 as [|? ? Hc _]; subst.
  assert (K : forall column v,
             String.eqb column "ein" = false ->
             v = VNone \/ Py.truthy v = true ->
             Forall organizer_assignment
                    (if negb (Py.is_none v)
                     then [(column, trim_len (py_or v VNone) 255)] else [])).
  { intros column v N [->|T]; [constructor|].
    destruct (Py.is_none v) eqn:I; cbn [negb]; [constructor|].
    constructor; [|constructor]. unfold organizer_assignment. cbn [fst snd].
    rewrite N. unfold py_or. rewrite T. now apply trim_len_short. }
  apply Forall_app; split; [|apply Forall_app; split; [|apply Forall_app; split]].
  - destruct (Py.truthy (Py.dict_get fields "ein")) eqn:T; [|constructor].
    constructor; [|constructor]. unfold organizer_assignment. cbn [fst snd].
    cbn [String.eqb Ascii.eqb Bool.eqb]. now apply trim_len_ein, He.
  - now apply K.
  - now apply K.
  - now apply K.
Qed.

Lemma update_organizer_full_enriched sess d org_id fields d' :
  organizer_fields fields ->
  update_organizer_full sess d org_id fields = Ok d' ->
  enriched d d'
  /\ Forall2 (fun r r' => Db.org_id r <> org_id -> r' = r)
             (Db.organizers d) (Db.organizers d')
  /\ Db.events d' = Db.events d.
Proof.
  intros F. pose proof (organizer_assignments_ok fields F) as A.
  assert (Same : enriched d d
                 /\ Forall2 (fun r r' => Db.org_id r <> org_id -> r' = r)
                            (Db.organizers d) (Db.organizers d)
                 /\ Db.events d = Db.events d).
  { split; [apply enriched_refl|]. split; [|reflexivity].
    apply Forall2_refl. reflexivity. }
  unfold update_organizer_full.
  destruct sess as [|msg|]; [discriminate| |];
    destruct (organizer_assignments fields) as [|a to_set] eqn:E;
    intros H; try discriminate; injection H as <-;
    try exact Same; now apply update_organizers_enriched.
Qed.

Lemma update_organizer_ein_enriched sess d org_id e :
  Spec.is_ein e = true ->
  enriched d (update_organizer_ein sess d org_id e)
  /\ Forall2 (fun r r' => Db.org_id r <> org_id -> r' = r)
             (Db.organizers d)
             (Db.organizers (update_organizer_ein sess d org_id e))
  /\ Db.events (update_organizer_ein sess d org_id e) = Db.events d.
Proof.
  intros He.
  assert (Same : enriched d d
                 /\ Forall2 (fun r r' => Db.org_id r <> org_id -> r' = r)
                            (Db.organizers d) (Db.organizers d)
                 /\ Db.events d = Db.events d).
  { split; [apply enriched_refl|]. split; [|reflexivity].
    apply Forall2_refl. reflexivity. }
  destruct sess; cbn [update_organizer_ein]; try exact Same.
  apply update_organizers_enriched. constructor; [|constructor].
  unfold organizer_assignment. cbn [fst snd String.eqb Ascii.eqb Bool.eqb].
  now exists e.
Qed.

Lemma search_ein_multisource_is_ein P name e :
  fst (EinEnrichment.search_ein_multisource P name) = Some e ->
  Spec.is_ein e = true.
Proof.
  unfold EinEnrichment.search_ein_multisource.
  pose proof (search_site_for_ein_is_ein P (EinEnrichment.registry_query name)) as H1.
  pose proof (search_site_for_ein_is_ein P (EinEnrichment.aggregator_query name)) as H2.
  pose proof (search_site_for_ein_is_ein P (EinEnrichment.rating_query name)) as H3.
  pose proof (search_site_for_ein_is_ein P (EinEnrichment.generic_query name)) as H4.
  destruct (EinEnrichment.search_site_for_ein P (EinEnrichment.registry_query name))
    as [e1 t1]. cbn [fst] in H1.
  destruct (EinEnrichment.some_text e1); [cbn [fst]; intros ->; now apply H1|].
  destruct (EinEnrichment.search_site_for_ein P (EinEnrichment.aggregator_query name))
    as [e2 t2]. cbn [fst] in H2.
  destruct (EinEnrichment.some_text e2); [cbn [fst]; intros ->; now apply H2|].
  destruct (EinEnrichment.search_site_for_ein P (EinEnrichment.rating_query name))
    as [e3 t3]. cbn [fst] in H3.
  destruct (EinEnrichment.some_text e3); [cbn [fst]; intros ->; now apply H3|].
  destruct (EinEnrichment.search_site_for_ein P (EinEnrichment.generic_query name))
    as [e4 t4]. cbn [fst] in H4.
  cbn [fst]. intros ->. now apply H4.
Qed.

Lemma log_ein_result_db sess st id source ein status message :
  db (log_ein_result sess st id source ein status message) = db st.
Proof. destruct sess; reflexivity. Qed.

Lemma locate_ein_spec c st org :
  let found := fst (EinEnrichment.search_ein_multisource
                      (providers c) (Py.str (Db.org_name org))) in
  snd (locate_ein c st org) = found
  /\ (forall e, found = Some e -> Spec.is_ein e = true)
  /\ enriched (db st) (db (fst (locate_ein c st org)))
  /\ Forall2 (fun r r' => Db.org_id r <> Db.org_id org -> r' = r)
             (Db.organizers (db st))
             (Db.organizers (db (fst (locate_ein c st org))))
  /\ Db.events (db (fst (locate_ein c st org))) = Db.events (db st)
  /\ (found = None ->
      Db.organizers (db (fst (locate_ein c st org))) = Db.organizers (db st)).
Proof.
  intros found.
  assert (Hein : forall e, found = Some e -> Spec.is_ein e = true).
  { intros e. apply search_ein_multisource_is_ein. }
  assert (Same : enriched (db st) (db st)
                 /\ Forall2 (fun r r' => Db.org_id r <> Db.org_id org -> r' = r)
                            (Db.organizers (db st)) (Db.organizers (db st))
                 /\ Db.events (db st) = Db.events (db st)).
  { split; [apply enriched_refl|]. split; [|reflexivity].
    apply Forall2_refl. reflexivity. }
  unfold locate_ein. fold found. destruct found as [e|] eqn:F.
  - rewrite (is_ein_not_empty _ (Hein e eq_refl)). cbn [negb fst snd].
    rewrite log_ein_result_db. cbn [db].
    split; [reflexivity|]. split; [exact Hein|].
    destruct (update_organizer_ein_enriched
                (ein_session c (Db.org_id org)) (db st) (Db.org_id org) e
                (Hein e eq_refl)) as (A & B & C).
    split; [exact A|]. split; [exact B|]. split; [exact C|]. discriminate.
  - cbn [fst snd]. rewrite log_ein_result_db.
    split; [reflexivity|]. split; [exact Hein|].
    destruct Same as (A & B & C).
    split; [exact A|]. split; [exact B|]. split; [exact C|]. reflexivity.
Qed.

Lemma take_field_fields enrich k to_update d :
  In k ["facebook"; "instagram"; "contact_title"] ->
  organizer_fields to_update ->
  take_field enrich k to_update = Ok d ->
  organizer_fields d.
Proof.
  intros Hk (He & Hf). unfold take_field.
  destruct (py_in k enrich) as [present|e]; [|discriminate]. cbn [bind].
  destruct present; [|intros H; injection H as <-; now split].
  destruct (Py.py_get enrich k) as [v|e]; [|discriminate]. cbn [bind].
  intros H. injection H as <-.
  assert (N : String.eqb "ein" k = false).
  { cbn [In] in Hk. destruct Hk as [<-|[<-|[<-|[]]]]; reflexivity. }
  split.
  - rewrite dict_get_set, N. exact He.
  - apply Forall_forall. intros k' Hk'. rewrite dict_get_set.
    destruct (String.eqb k' k).
    + unfold py_or. destruct (Py.truthy v) eqn:T; [now right | now left].
    + revert k' Hk'. now apply Forall_forall.
Qed.

Lemma process_single_organizer_inv c st org :
  ein_logs (fst (process_single_organizer c st org))
  = ein_logs (fst (locate_ein c st org))
  /\ (db (fst (process_single_organizer c st org))
      = db (fst (locate_ein c st org))
      \/ exists fields d',
           organizer_fields fields
           /\ (snd (locate_ein c st org) = None ->
               Py.dict_get fields "ein" = VNone)
           /\ update_organizer_full (organizer_session c (Db.org_id org))
                 (db (fst (locate_ein c st org))) (Db.org_id org) fields
               = Ok d'
           /\ db (fst (process_single_organizer c st org)) = d').
Proof.
  unfold process_single_organizer.
  destruct (locate_ein_spec c st org) as (S1 & Hein & _).
  destruct (locate_ein c st org) as [st1 ein]. cbn [fst snd] in *.
  set (enrich := gpt_call _ 4).
  set (to_update := match ein with
                    | Some e => if negb (PyStr.is_empty e)
                                then [("ein", VStr e)] else []
                    | None => []
                    end).
  assert (F0 : organizer_fields to_update
               /\ (ein = None -> Py.dict_get to_update "ein" = VNone)).
  { unfold to_update. destruct ein as [e|].
    - rewrite (is_ein_not_empty _ (Hein e (eq_sym S1))). cbn [negb].
      split; [|discriminate]. split.
      + intros _. exists e. split; [reflexivity | now apply Hein].
      + repeat constructor.
    - split; [|reflexivity]. split; [discriminate | repeat constructor]. }
  destruct F0 as [F0 N0].
  assert (Step : forall k d d',
             In k ["facebook"; "instagram"; "contact_title"] ->
             organizer_fields d
             /\ (ein = None -> Py.dict_get d "ein" = VNone) ->
             take_field enrich k d = Ok d' ->
             organizer_fields d'
             /\ (ein = None -> Py.dict_get d' "ein" = VNone)).
  { intros k d d' Hk [Fd Nd] E. split.
    - exact (take_field_fields _ _ _ _ Hk Fd E).
    - intros Hn. specialize (Nd Hn). revert E. unfold take_field.
      destruct (py_in k enrich) as [present|e]; [|discriminate]. cbn [bind].
      destruct present; [|intros H; now injection H as <-].
      destruct (Py.py_get enrich k) as [v|e]; [|discriminate]. cbn [bind].
      intros H. injection H as <-. rewrite dict_get_set.
      cbn [In] in Hk. destruct Hk as [<-|[<-|[<-|[]]]]; exact Nd. }
  destruct (take_field enrich "facebook" to_update) as [d1|e1] eqn:E1;
    cbn [bind]; [|split; [reflexivity | left; reflexivity]].
  assert (F1 := Step _ _ _ (or_introl eq_refl) (conj F0 N0) E1).
  destruct (take_field enrich "instagram" d1) as [d2|e2] eqn:E2;
    cbn [bind]; [|split; [reflexivity | left; reflexivity]].
  assert (F2 := Step _ _ _ (or_intror (or_introl eq_refl)) F1 E2).
  destruct (take_field enrich "contact_title" d2) as [d3|e3] eqn:E3;
    [|split; [reflexivity | left; reflexivity]].
  assert (F3 := Step _ _ _ (or_intror (or_intror (or_introl eq_refl))) F2 E3).
  destruct d3 as [|kv d3]; [split; [reflexivity | left; reflexivity]|].
  destruct (update_organizer_full _ (db st1) (Db.org_id org) (kv :: d3))
    as [d'|e] eqn:U; [|split; [reflexivity | left; reflexivity]].
  cbn [fst db ein_logs]. split; [reflexivity|]. right.
  exists (kv :: d3), d'. destruct F3 as [F3 N3].
  split; [exact F3|]. split; [exact N3|]. split; [exact U | reflexivity].
Qed.

Lemma process_single_organizer_after_search c st org :
  enriched (db (fst (locate_ein c st org)))
           (db (fst (process_single_organizer c st org)))
  /\ Forall2 (fun r r' => Db.org_id r <> Db.org_id org -> r' = r)
             (Db.organizers (db (fst (locate_ein c st org))))
             (Db.organizers (db (fst (process_single_organizer c st org))))
  /\ Db.events (db (fst (process_single_organizer c st org)))
     = Db.events (db (fst (locate_ein c st org))).
Proof.
  destruct (process_single_organizer_inv c st org)
    as (_ & [->|(fields & d' & F & _ & U & ->)]).
  - split; [apply enriched_refl|]. split; [|reflexivity].
    apply Forall2_refl. reflexivity.
  - exact (update_organizer_full_enriched _ _ _ _ _ F U).
Qed.

End FillingFacts.


Section EventFilling.
Import Filling Enrich.

Lemma trim_len_bounded s n : bounded_text (Some n) (trim_len (VStr s) n).
Proof.
  unfold trim_len. cbn [Py.truthy Py.str].
  destruct (PyStr.is_empty s) eqn:E; cbn [negb].
  - exists s. split; [reflexivity|]. destruct s; [cbn; lia | discriminate].
  - eexists. split; [reflexivity|]. apply utf8_take_length.
Qed.

Lemma event_assignments_ok dumps inferred :
  forall mapping to_set out,
    (forall x, In x mapping -> In x EVENT_MAPPING) ->
    Forall event_assignment to_set ->
    event_assignments dumps inferred mapping to_set = Ok out ->
    Forall event_assignment out.
Proof.
  induction mapping as [|[field maxlen] mapping IH]; intros to_set out Hm Hs;
    cbn [event_assignments].
  - intros H. now injection H as <-.
  - destruct (Py.py_get inferred field) as [raw_val|e]; [|discriminate].
    cbn [bind].
    assert (Hm' : forall x, In x mapping -> In x EVENT_MAPPING).
    { intros x Hx. apply Hm. now right. }
    destruct (json_if_needed dumps raw_val) as [val|]; [|now apply IH].
    apply IH; [exact Hm'|]. apply Forall_app. split; [exact Hs|].
    constructor; [|constructor].
    exists maxlen. cbn [fst snd]. split; [apply Hm; now left|].
    destruct maxlen as [n|]; [apply trim_len_bounded|].
    now exists val.
Qed.

Lemma update_event_fields_enriched dumps sess d event_id inferred d' :
  update_event_fields dumps sess d event_id inferred = Ok d' ->
  enriched d d'
  /\ Forall2 (fun r r' => Db.ev_id r <> event_id -> r' = r)
             (Db.events d) (Db.events d')
  /\ Db.organizers d' = Db.organizers d.
Proof.
  assert (Same : enriched d d
                 /\ Forall2 (fun r r' => Db.ev_id r <> event_id -> r' = r)
                            (Db.events d) (Db.events d)
                 /\ Db.organizers d = Db.organizers d).
  { split; [apply enriched_refl|]. split; [|reflexivity].
    apply Forall2_refl. reflexivity. }
  unfold update_event_fields.
  destruct sess as [|msg|]; [discriminate| |];
    (destruct (event_assignments dumps inferred EVENT_MAPPING []) as [to_set|e] eqn:E;
     [|discriminate]);
    pose proof (event_assignments_ok _ _ _ _ _ (fun x H => H) (Forall_nil _) E) as A;
    cbn [bind]; destruct to_set as [|a to_set];
    intros H; try discriminate; injection H as <-;
    try exact Same; now apply update_events_enriched.
Qed.

End EventFilling.

(** X14. [process_single_event] only fills enrichment columns: the tables
    keep their rows in place, the organizers and the other events are left
    as they are, and of the processed event only [description],
    [event_type], [dress_code], [venue_parking], [sponsorship_tiers],
    [sponsorship_contact] and [past_sponsors] can change, each only to a
    text (never to [NULL]) of at most 100, 100, 100 and 255 characters for
    the four bounded columns. *)
Theorem process_single_event_only_fills :
  forall (c : Enrich.collaborators) (st : Enrich.store) (ev : Db.event_row),
    Filling.enriched (Enrich.db st)
                     (Enrich.db (fst (Enrich.process_single_event c st ev)))
    /\ Forall2 (fun r r' => Db.ev_id r <> Db.ev_id ev -> r' = r)
               (Db.events (Enrich.db st))
               (Db.events (Enrich.db (fst (Enrich.process_single_event c st ev))))
    /\ Db.organizers (Enrich.db (fst (Enrich.process_single_event c st ev)))
       = Db.organizers (Enrich.db st)
    /\ Enrich.ein_logs (fst (Enrich.process_single_event c st ev))
       = Enrich.ein_logs st.
Proof.
  intros c st ev.
  assert (Same : Filling.enriched (Enrich.db st) (Enrich.db st)
                 /\ Forall2 (fun r r' => Db.ev_id r <> Db.ev_id ev -> r' = r)
                            (Db.events (Enrich.db st)) (Db.events (Enrich.db st))
                 /\ Db.organizers (Enrich.db st) = Db.organizers (Enrich.db st)
                 /\ Enrich.ein_logs st = Enrich.ein_logs st).
  { split; [apply enriched_refl|]. split; [|split; reflexivity].
    apply Forall2_refl. reflexivity. }
  unfold Enrich.process_single_event.
  destruct (Py.truthy (Enrich.gpt_call (Enrich.event_client c ev) 4));
    [|exact Same].
  destruct (Enrich.update_event_fields _ _ _ _ _) as [d'|e] eqn:U;
    [|exact Same].
  destruct (update_event_fields_enriched _ _ _ _ _ _ U) as (A & B & C).
  cbn [fst Enrich.db Enrich.ein_logs].
  split; [exact A|]. split; [exact B|]. split; [exact C | reflexivity].
Qed.



Section RunnerInvariant.
Import EinEnrichment.
Variable process_single_organizer :
  Db.database -> Db.organizer_row -> Db.database * option exn.
Variable process_single_event :
  Db.database -> Db.event_row -> Db.database * option exn.
Variable organizers_session : nat -> Db.session.
Variable events_session : nat -> Db.session.
Variable J : Db.database -> Prop.
Hypothesis organizer_keeps :
  forall d x, J d -> J (fst (process_single_organizer d x)).
Hypothesis event_keeps :
  forall d x, J d -> J (fst (process_single_event d x)).

Lemma for_each_keeps {row : Type}
      (process : Db.database -> row -> Db.database * option exn) :
  (forall d x, J d -> J (fst (process d x))) ->
  forall batch d p, J d -> J (fst (fst (for_each process batch d p))).
Proof.
  intros K. induction batch as [|x batch IH]; intros d p Hd; [exact Hd|].
  cbn [for_each]. specialize (K d x Hd).
  destruct (process d x) as [d' [e|]]; cbn [fst] in *; [exact K|].
  now apply IH.
Qed.

Lemma enrich_passes_keeps limit :
  forall fuel pass d p r,
    J d ->
    enrich_passes process_single_organizer process_single_event
                  organizers_session events_session fuel pass limit d p
    = Some r ->
    J (end_db r).
Proof.
  induction fuel as [|f IH]; intros pass d p r Hd; [discriminate|].
  cbn [enrich_passes].
  destruct (p <? limit)%Z; [|intros H; injection H as <-; exact Hd].
  destruct (fetch_organizers_to_enrich (organizers_session pass) d 8)
    as [orgs|e]; [|intros H; injection H as <-; exact Hd].
  pose proof (for_each_keeps process_single_organizer organizer_keeps orgs d p Hd)
    as H1.
  destruct (for_each process_single_organizer orgs d p) as [[d1 p1] e1].
  cbn [fst] in H1.
  destruct e1 as [e1|]; [intros H; injection H as <-; exact H1|].
  destruct (fetch_events_to_enrich (events_session pass) d1 8)
    as [evs|e]; [|intros H; injection H as <-; exact H1].
  pose proof (for_each_keeps process_single_event event_keeps evs d1 p1 H1)
    as H2.
  destruct (for_each process_single_event evs d1 p1) as [[d2 p2] e2].
  cbn [fst] in H2.
  destruct e2 as [e2|]; [intros H; injection H as <-; exact H2|].
  destruct orgs as [|o orgs]; [destruct evs as [|ev evs]|].
  - intros H; injection H as <-; exact H2.
  - now apply IH.
  - now apply IH.
Qed.

Hypothesis selects :
  forall sess d orgs,
    J d -> fetch_organizers_to_enrich sess d 8 = Ok orgs -> orgs <> [].

Lemma enrich_passes_busy limit :
  forall fuel pass d p r,
    J d ->
    enrich_passes process_single_organizer process_single_event
                  organizers_session events_session fuel pass limit d p
    = Some r ->
    why r <> NothingLeft.
Proof.
  induction fuel as [|f IH]; intros pass d p r Hd; [discriminate|].
  cbn [enrich_passes].
  destruct (p <? limit)%Z; [|intros H; injection H as <-; discriminate].
  destruct (fetch_organizers_to_enrich (organizers_session pass) d 8)
    as [orgs|e] eqn:Eo; [|intros H; injection H as <-; discriminate].
  pose proof (selects _ _ _ Hd Eo) as Ho.
  pose proof (for_each_keeps process_single_organizer organizer_keeps orgs d p Hd)
    as H1.
  destruct (for_each process_single_organizer orgs d p) as [[d1 p1] e1].
  cbn [fst] in H1.
  destruct e1 as [e1|]; [intros H; injection H as <-; discriminate|].
  destruct (fetch_events_to_enrich (events_session pass) d1 8)
    as [evs|e]; [|intros H; injection H as <-; discriminate].
  pose proof (for_each_keeps process_single_event event_keeps evs d1 p1 H1)
    as H2.
  destruct (for_each process_single_event evs d1 p1) as [[d2 p2] e2].
  cbn [fst] in H2.
  destruct e2 as [e2|]; [intros H; injection H as <-; discriminate|].
  destruct orgs as [|o orgs]; [contradiction|].
  now apply IH.
Qed.

End RunnerInvariant.

Section BatchRun.
Import Filling Enrich.

Lemma organizer_step_enriched c d org :
  enriched d (fst (organizer_step c d org)).
Proof.
  unfold organizer_step.
  destruct (locate_ein_spec c (Store d []) org) as (_ & _ & A & _).
  destruct (process_single_organizer_after_search c (Store d []) org)
    as (A' & _).
  destruct (process_single_organizer c (Store d []) org) as [st e].
  cbn [fst db] in *. eapply enriched_trans; eassumption.
Qed.

Lemma event_step_spec c d ev :
  enriched d (fst (event_step c d ev))
  /\ Db.organizers (fst (event_step c d ev)) = Db.organizers d.
Proof.
  unfold event_step, process_single_event. cbn [db].
  destruct (Py.truthy (gpt_call (event_client c ev) 4));
    [|split; [apply enriched_refl | reflexivity]].
  destruct (update_event_fields _ _ _ _ _) as [d'|e] eqn:U;
    [|split; [apply enriched_refl | reflexivity]].
  destruct (update_event_fields_enriched _ _ _ _ _ _ U) as (A & _ & C).
  cbn [fst db]. now split.
Qed.

End BatchRun.

Section BatchRunFacts.
Import Filling Enrich.

Lemma enriched_columns d d' :
  enriched d d' ->
  List.map organizer_identity (Db.organizers d')
  = List.map organizer_identity (Db.organizers d)
  /\ List.map event_identity (Db.events d')
     = List.map event_identity (Db.events d).
Proof.
  intros (O & E & _). split.
  - induction O as [|r r' l l' (I & _) _ IH]; cbn [List.map]; [reflexivity|].
    now rewrite I, IH.
  - induction E as [|r r' l l' (I & _) _ IH]; cbn [List.map]; [reflexivity|].
    now rewrite I, IH.
Qed.

Lemma map_through {A B C : Type} (f : A -> B) (g : B -> C) (l l' : list A) :
  List.map f l' = List.map f l ->
  List.map (fun x => g (f x)) l' = List.map (fun x => g (f x)) l.
Proof. intros H. now rewrite <- !(List.map_map f g), H. Qed.

Lemma enriched_keys d d' :
  enriched d d' ->
  List.map Db.org_id (Db.organizers d') = List.map Db.org_id (Db.organizers d)
  /\ List.map Db.org_uid (Db.organizers d') = List.map Db.org_uid (Db.organizers d)
  /\ List.map Db.ev_id (Db.events d') = List.map Db.ev_id (Db.events d)
  /\ List.map Db.ev_uid (Db.events d') = List.map Db.ev_uid (Db.events d)
  /\ List.map Db.ev_organizer_id (Db.events d')
     = List.map Db.ev_organizer_id (Db.events d).
Proof.
  intros H. destruct (enriched_columns _ _ H) as (O & E).
  repeat split.
  - exact (map_through organizer_identity
             (fun '(id, _, _, _, _, _, _, _) => id) _ _ O).
  - exact (map_through organizer_identity
             (fun '(_, uid, _, _, _, _, _, _) => uid) _ _ O).
  - exact (map_through event_identity
             (fun '(id, _, _, _, _, _, _, _) => id) _ _ E).
  - exact (map_through event_identity
             (fun '(_, uid, _, _, _, _, _, _) => uid) _ _ E).
  - exact (map_through event_identity
             (fun '(_, _, _, _, _, _, _, oid) => oid) _ _ E).
Qed.

Lemma Forall_through_map {A B : Type} (f : A -> B) (P : B -> Prop) (l l' : list A) :
  List.map f l' = List.map f l ->
  Forall (fun x => P (f x)) l -> Forall (fun x => P (f x)) l'.
Proof.
  intros H F. apply Forall_map. rewrite H. now apply Forall_map.
Qed.

Lemma enriched_keeps_invariants d d' :
  enriched d d' ->
  (Store.unique_uids d -> Store.unique_uids d')
  /\ (Store.ids_in_sequence d -> Store.ids_in_sequence d')
  /\ (Store.events_have_organizers d -> Store.events_have_organizers d').
Proof.
  intros H. destruct (enriched_keys _ _ H) as (Oi & Ou & Ei & Eu & Eo).
  destruct H as (_ & _ & _ & Ao & Ae).
  split; [|split].
  - intros (U1 & U2). split; congruence.
  - intros (P1 & P2 & F1 & N1 & F2 & N2). unfold Store.ids_in_sequence.
    rewrite Ao, Ae, Oi, Ei. repeat split; try assumption.
    + now apply (Forall_through_map Db.org_id
                   (fun id => (0 < id < Db.organizers_auto_increment d)%Z)
                   _ _ Oi).
    + now apply (Forall_through_map Db.ev_id
                   (fun id => (0 < id < Db.events_auto_increment d)%Z)
                   _ _ Ei).
  - unfold Store.events_have_organizers, Store.event_has_organizer.
    intros F.
    assert (G : Forall (fun e => match Db.ev_organizer_id e with
                                 | Some oid => In oid (List.map Db.org_id (Db.organizers d))
                                 | None => True
                                 end) (Db.events d)).
    { eapply Forall_impl; [|exact F]. intros e. cbv beta.
      destruct (Db.ev_organizer_id e) as [oid|]; [|trivial].
      intros (r & Hr & <-). now apply in_map. }
    apply (Forall_through_map Db.ev_organizer_id
             (fun o => match o with
                       | Some oid => In oid (List.map Db.org_id (Db.organizers d))
                       | None => True
                       end) _ _ Eo) in G.
    eapply Forall_impl; [|exact G]. intros e. cbv beta.
    destruct (Db.ev_organizer_id e) as [oid|]; [|trivial].
    rewrite <- Oi. intros He. apply in_map_iff in He as (r & Hr & Hin).
    now exists r.
Qed.

Lemma enrich_data_enriched c organizers_session events_session limit d :
  exists r,
    enrich_data c organizers_session events_session limit d = Some r
    /\ enriched d (EinEnrichment.end_db r).
Proof.
  unfold enrich_data, EinEnrichment.enrich_data.
  destruct (enrich_passes_spec (organizer_step c) (event_step c)
              organizers_session events_session limit
              (S (Z.to_nat limit)) 0 d 0) as (r & E & _).
  { rewrite Z.sub_0_r. lia. }
  exists r. split; [exact E|].
  apply (enrich_passes_keeps (organizer_step c) (event_step c)
           organizers_session events_session (enriched d)) in E.
  - exact E.
  - intros x o Hx. eapply enriched_trans; [exact Hx|].
    apply organizer_step_enriched.
  - intros x ev Hx. eapply enriched_trans; [exact Hx|].
    apply event_step_spec.
  - apply enriched_refl.
Qed.

End BatchRunFacts.


(** X16. The invariants of the store that [process_links] keeps survive the
    enrichment stage: after [enrich_data] the identity keys are still
    unique, the ids still positive, unique and below the counters, and
    every event still points to a stored organizer, whenever that was so
    before. *)
Theorem enrich_data_keeps_store_invariants :
  forall (c : Enrich.collaborators)
         (organizers_session events_session : nat -> Db.session)
         (limit : Z) (d : Db.database),
  exists r,
    Enrich.enrich_data c organizers_session events_session limit d = Some r
    /\ (Store.unique_uids d -> Store.unique_uids (EinEnrichment.end_db r))
    /\ (Store.ids_in_sequence d -> Store.ids_in_sequence (EinEnrichment.end_db r))
    /\ (Store.events_have_organizers d ->
        Store.events_have_organizers (EinEnrichment.end_db r)).
Proof.
  intros c os es limit d.
  destruct (enrich_data_enriched c os es limit d) as (r & E & H).
  exists r. split; [exact E|]. now apply enriched_keeps_invariants.
Qed.

Section SearchLog.
Import Filling Enrich.


End SearchLog.



Section Starvation.
Import Filling Enrich.

Lemma awaits_ein_same r r' :
  Db.org_name r' = Db.org_name r -> Db.org_ein r' = Db.org_ein r ->
  awaits_ein r = true -> awaits_ein r' = true.
Proof.
  unfold awaits_ein, EinEnrichment.organizer_selectable. intros -> ->.
  intros H. apply andb_true_iff in H as [H N]. rewrite N in *.
  cbn [orb] in *. now rewrite H.
Qed.

Lemma existsb_awaits rows rows' :
  Forall2 (fun r r' => Db.org_name r' = Db.org_name r
                       /\ Db.org_ein r' = Db.org_ein r) rows rows' ->
  List.existsb awaits_ein rows = true -> List.existsb awaits_ein rows' = true.
Proof.
  induction 1 as [|r r' l l' [Hn He] _ IH]; cbn [List.existsb]; [trivial|].
  intros H. apply orb_true_iff in H as [H|H]; apply orb_true_iff.
  - left. now apply (awaits_ein_same r r').
  - right. now apply IH.
Qed.

Lemma set_other_column r a :
  String.eqb (fst a) "ein" = false ->
  Db.org_name (set_organizer_column r a) = Db.org_name r
  /\ Db.org_ein (set_organizer_column r a) = Db.org_ein r.
Proof.
  destruct a as [column v]. cbn [fst]. intros N.
  unfold set_organizer_column. rewrite N.
  destruct (String.eqb column "facebook"); [now split|].
  destruct (String.eqb column "instagram"); [now split|].
  destruct (String.eqb column "contact_title"); now split.
Qed.

Lemma fold_other_columns to_set :
  Forall (fun a => String.eqb (fst a) "ein" = false) to_set ->
  forall r,
    Db.org_name (fold_left set_organizer_column to_set r) = Db.org_name r
    /\ Db.org_ein (fold_left set_organizer_column to_set r) = Db.org_ein r.
Proof.
  induction 1 as [|a to_set Ha _ IH]; intros r; cbn [fold_left]; [now split|].
  destruct (IH (set_organizer_column r a)) as [-> ->].
  now apply set_other_column.
Qed.

Lemma assignments_without_ein fields :
  Py.dict_get fields "ein" = VNone ->
  Forall (fun a => String.eqb (fst a) "ein" = false)
         (organizer_assignments fields).
Proof.
  intros E. unfold organizer_assignments. rewrite E. cbn [Py.truthy app].
  apply Forall_app; split; [|apply Forall_app; split].
  - destruct (negb _); repeat constructor.
  - destruct (negb _); repeat constructor.
  - destruct (negb _); repeat constructor.
Qed.

Lemma update_organizer_full_without_ein sess d org_id fields d' :
  Py.dict_get fields "ein" = VNone ->
  update_organizer_full sess d org_id fields = Ok d' ->
  Forall2 (fun r r' => Db.org_name r' = Db.org_name r
                       /\ Db.org_ein r' = Db.org_ein r)
          (Db.organizers d) (Db.organizers d').
Proof.
  intros E. pose proof (assignments_without_ein _ E) as A.
  assert (Same : Forall2 (fun r r' => Db.org_name r' = Db.org_name r
                                      /\ Db.org_ein r' = Db.org_ein r)
                         (Db.organizers d) (Db.organizers d)).
  { apply Forall2_refl. now split. }
  unfold update_organizer_full.
  destruct sess as [|msg|]; [discriminate| |];
    destruct (organizer_assignments fields) as [|a to_set];
    intros H; try discriminate; injection H as <-; try exact Same;
    unfold update_organizers, with_organizers; cbn [Db.organizers];
    apply Forall2_map_r; intros r;
    (destruct (Z.eqb (Db.org_id r) org_id);
     [now apply fold_other_columns | now split]).
Qed.

Lemma organizer_step_without_ein c d org :
  fst (EinEnrichment.search_ein_multisource
         (providers c) (Py.str (Db.org_name org))) = None ->
  Forall2 (fun r r' => Db.org_name r' = Db.org_name r
                       /\ Db.org_ein r' = Db.org_ein r)
          (Db.organizers d) (Db.organizers (fst (organizer_step c d org))).
Proof.
  intros F. unfold organizer_step.
  destruct (locate_ein_spec c (Store d []) org) as (S1 & _ & _ & _ & _ & K).
  cbv zeta in S1, K. rewrite F in S1. specialize (K F). cbn [db] in K.
  destruct (process_single_organizer_inv c (Store d []) org)
    as (_ & [E|(fields & d' & _ & N & U & E)]);
    destruct (process_single_organizer c (Store d []) org) as [st e];
    cbn [fst] in *; rewrite E.
  - rewrite K. apply Forall2_refl. now split.
  - rewrite <- K.
    exact (update_organizer_full_without_ein _ _ _ _ _ (N S1) U).
Qed.

Lemma event_step_organizers c d ev :
  Db.organizers (fst (event_step c d ev)) = Db.organizers d.
Proof. apply event_step_spec. Qed.

Lemma awaiting_is_selected sess d orgs :
  List.existsb awaits_ein (Db.organizers d) = true ->
  EinEnrichment.fetch_organizers_to_enrich sess d 8 = Ok orgs ->
  orgs <> [].
Proof.
  intros J. unfold EinEnrichment.fetch_organizers_to_enrich, EinEnrichment.select.
  destruct sess; try discriminate. intros H. injection H as <-.
  apply existsb_exists in J as (r & Hin & Hr).
  unfold awaits_ein in Hr. apply andb_true_iff in Hr as [Hs _].
  assert (F : In r (List.filter EinEnrichment.organizer_selectable
                                (Db.organizers d))).
  { apply filter_In. now split. }
  destruct (List.filter EinEnrichment.organizer_selectable (Db.organizers d));
    [destruct F | discriminate].
Qed.

End Starvation.

(** X18. When the searches find a tax id for nobody, the batch run cannot
    finish its work: an organizer that is selected and has no tax id stays
    selected whatever else is filled in, so every pass selects organizers
    again and [enrich_data] never stops because nothing is left; it stops on
    the budget or on an exception, with such an organizer still waiting. *)
Theorem enrich_data_never_done_without_ein :
  forall (c : Enrich.collaborators)
         (organizers_session events_session : nat -> Db.session)
         (limit : Z) (d : Db.database) (r : EinEnrichment.report),
    (forall name,
        fst (EinEnrichment.search_ein_multisource (Enrich.providers c) name)
        = None) ->
    List.existsb Filling.awaits_ein (Db.organizers d) = true ->
    Enrich.enrich_data c organizers_session events_session limit d = Some r ->
    EinEnrichment.why r <> EinEnrichment.NothingLeft
    /\ List.existsb Filling.awaits_ein (Db.organizers (EinEnrichment.end_db r))
       = true.
Proof.
  intros c os es limit d r F J E.
  unfold Enrich.enrich_data, EinEnrichment.enrich_data in E.
  assert (Ko : forall x o,
             List.existsb Filling.awaits_ein (Db.organizers x) = true ->
             List.existsb Filling.awaits_ein
               (Db.organizers (fst (Enrich.organizer_step c x o))) = true).
  { intros x o. apply existsb_awaits, organizer_step_without_ein, F. }
  assert (Ke : forall x ev,
             List.existsb Filling.awaits_ein (Db.organizers x) = true ->
             List.existsb Filling.awaits_ein
               (Db.organizers (fst (Enrich.event_step c x ev))) = true).
  { intros x ev. now rewrite event_step_organizers. }
  split.
  - exact (enrich_passes_busy (Enrich.organizer_step c) (Enrich.event_step c)
             os es
             (fun x => List.existsb Filling.awaits_ein (Db.organizers x) = true)
             Ko Ke awaiting_is_selected limit _ _ _ _ _ J E).
  - exact (enrich_passes_keeps (Enrich.organizer_step c) (Enrich.event_step c)
             os es
             (fun x => List.existsb Filling.awaits_ein (Db.organizers x) = true)
             Ko Ke limit _ _ _ _ _ J E).
Qed.

Lemma enrich_data_never_done_without_ein_witness :
  exists r,
    Enrich.enrich_data Batch.unhelpful (fun _ => Db.Executed)
                       (fun _ => Db.Executed) 2 Worlds.three_pending = Some r
    /\ EinEnrichment.why r <> EinEnrichment.NothingLeft
    /\ List.existsb Filling.awaits_ein (Db.organizers (EinEnrichment.end_db r))
       = true.
Proof.
  eexists. split; [vm_compute; reflexivity|].
  apply (enrich_data_never_done_without_ein Batch.unhelpful
           (fun _ => Db.Executed) (fun _ => Db.Executed) 2 Worlds.three_pending).
  - intros name. reflexivity.
  - reflexivity.
  - vm_compute. reflexivity.
Defined.

(** X19. A reply to the event prompt that decodes to a truthy value other
    than a mapping (a JSON list, say) makes [process_single_event] raise
    [AttributeError] out of [update_event_fields] before anything is
    written, and nothing catches it: the loop of [enrich_data] over the
    events stops at that event, which is not counted as processed. *)
Theorem process_single_event_aborts_on_non_mapping :
  forall (c : Enrich.collaborators) (st : Enrich.store) (ev : Db.event_row)
         (rest : list Db.event_row) (p : Z),
    Py.truthy (Enrich.gpt_call (Enrich.event_client c ev) 4) = true ->
    (forall d, Enrich.gpt_call (Enrich.event_client c ev) 4 <> VDict d) ->
    Enrich.event_session c (Db.ev_id ev) <> Db.NoConnection ->
    Enrich.process_single_event c st ev
    = (st, Some (Exn "AttributeError"
                     ("'" ++ Py.type_name (Enrich.gpt_call (Enrich.event_client c ev) 4)
                          ++ "' object has no attribute 'get'")))
    /\ EinEnrichment.for_each (Enrich.event_step c) (ev :: rest) (Enrich.db st) p
       = (Enrich.db st, p,
          Some (Exn "AttributeError"
                    ("'" ++ Py.type_name (Enrich.gpt_call (Enrich.event_client c ev) 4)
                         ++ "' object has no attribute 'get'"))).
Proof.
  intros c st ev rest p T N S.
  assert (U : forall d,
             Enrich.update_event_fields (Enrich.json_dumps c)
               (Enrich.event_session c (Db.ev_id ev)) d (Db.ev_id ev)
               (Enrich.gpt_call (Enrich.event_client c ev) 4)
             = Raise (Exn "AttributeError"
                          ("'" ++ Py.type_name
                                    (Enrich.gpt_call (Enrich.event_client c ev) 4)
                               ++ "' object has no attribute 'get'"))).
  { intros d. unfold Enrich.update_event_fields.
    destruct (Enrich.event_session c (Db.ev_id ev)); [contradiction| |];
      destruct (Enrich.gpt_call (Enrich.event_client c ev) 4);
      try reflexivity; exfalso; now apply (N items). }
  split.
  - unfold Enrich.process_single_event. now rewrite T, U.
  - cbn [EinEnrichment.for_each]. unfold Enrich.event_step,
      Enrich.process_single_event. cbn [Enrich.db]. now rewrite T, U.
Qed.

Lemma process_single_event_aborts_on_non_mapping_witness :
  Enrich.process_single_event Batch.unhelpful
    (Enrich.Store Batch.one_of_each []) Batch.spring_gala
  = (Enrich.Store Batch.one_of_each [],
     Some (Exn "AttributeError"
               ("'" ++ Py.type_name
                         (Enrich.gpt_call
                            (Enrich.event_client Batch.unhelpful Batch.spring_gala) 4)
                    ++ "' object has no attribute 'get'")))
  /\ EinEnrichment.for_each (Enrich.event_step Batch.unhelpful)
       (Batch.spring_gala :: [])
       (Enrich.db (Enrich.Store Batch.one_of_each [])) 0
     = (Enrich.db (Enrich.Store Batch.one_of_each []), 0%Z,
        Some (Exn "AttributeError"
                  ("'" ++ Py.type_name
                            (Enrich.gpt_call
                               (Enrich.event_client Batch.unhelpful Batch.spring_gala) 4)
                       ++ "' object has no attribute 'get'"))).
Proof.
  apply (process_single_event_aborts_on_non_mapping Batch.unhelpful
           (Enrich.Store Batch.one_of_each []) Batch.spring_gala [] 0).
  - vm_compute. reflexivity.
  - intros d. vm_compute. discriminate.
  - vm_compute. discriminate.
Defined.

Section EnrichGptCall.
Import Enrich.

Lemma enrich_gpt_attempts_stops client :
  forall j a remaining,
    (j < remaining)%nat ->
    (forall i, (a <= i < a + j)%nat -> Filling.retried (client i) = true) ->
    Filling.retried (client (a + j)%nat) = false ->
    gpt_attempts client a remaining = Filling.settled (client (a + j)%nat).
Proof.
  induction j as [|j IH]; intros a remaining Hr Hb Hf.
  - rewrite Nat.add_0_r in *.
    destruct remaining as [|k]; [lia|]. cbn [gpt_attempts].
    unfold Filling.settled, Filling.retried in *.
    destruct (client a) as [content|e]; [reflexivity|].
    apply orb_false_iff in Hf as [Hf ->]. rewrite Hf. reflexivity.
  - destruct remaining as [|k]; [lia|]. cbn [gpt_attempts].
    assert (Ha : Filling.retried (client a) = true) by (apply Hb; lia).
    unfold Filling.retried in Ha.
    destruct (client a) as [content|e]; [discriminate|].
    replace (a + S j)%nat with (S a + j)%nat in * by lia.
    assert (E : gpt_attempts client (S a) k
                = Filling.settled (client (S a + j)%nat)).
    { apply IH; [lia| |exact Hf]. intros i Hi. apply Hb. lia. }
    destruct (PyStr.contains "rate limit" (PyStr.lower (exn_msg e))
              || PyStr.contains "429" (exn_msg e)); [exact E|].
    cbn [orb] in Ha. rewrite Ha. exact E.
Qed.

Lemma enrich_gpt_attempts_exhausted client :
  forall remaining a,
    (forall i, (a <= i < a + remaining)%nat -> Filling.retried (client i) = true) ->
    gpt_attempts client a remaining = VDict [].
Proof.
  induction remaining as [|k IH]; intros a Hb; [reflexivity|].
  cbn [gpt_attempts].
  assert (Ha : Filling.retried (client a) = true) by (apply Hb; lia).
  unfold Filling.retried in Ha.
  destruct (client a) as [content|e]; [discriminate|].
  assert (E : gpt_attempts client (S a) k = VDict []).
  { apply IH. intros i Hi. apply Hb. lia. }
  destruct (PyStr.contains "rate limit" (PyStr.lower (exn_msg e))
            || PyStr.contains "429" (exn_msg e)); [exact E|].
  cbn [orb] in Ha. rewrite Ha. exact E.
Qed.

End EnrichGptCall.

(** X20. [gpt_call] of ein_enrichment.py returns what the first reply
    decodes to, whatever that is: only an exception that names a rate limit
    or a transient failure leads to another attempt, a reply that is not
    JSON gives the empty mapping without one, and an empty reply is read as
    the empty mapping; when every attempt ends in such an exception the
    result is the empty mapping. *)
Theorem enrich_gpt_call_takes_first_reply :
  forall (client : nat -> res string) (max_retries : nat),
    (forall k,
        (1 <= k <= max_retries)%nat ->
        (forall i, (1 <= i < k)%nat -> Filling.retried (client i) = true) ->
        Filling.retried (client k) = false ->
        Enrich.gpt_call client max_retries = Filling.settled (client k))
    /\ ((forall i, (1 <= i <= max_retries)%nat ->
                   Filling.retried (client i) = true) ->
        Enrich.gpt_call client max_retries = VDict []).
Proof.
  intros client max_retries. split.
  - intros k Hk Hb Hf. unfold Enrich.gpt_call.
    replace k with (1 + (k - 1))%nat in Hf |- * by lia.
    apply enrich_gpt_attempts_stops; [lia| |exact Hf].
    intros i Hi. apply Hb. lia.
  - intros H. apply enrich_gpt_attempts_exhausted. intros i Hi. apply H. lia.
Qed.

(** ** fetcher.py *)
Section FetchPage.
Import Fetcher.

Lemma attempts_found headless tries :
  forall remaining attempt html,
    fst (attempts headless tries attempt remaining) = Some html ->
    PyStr.is_empty html = false.
Proof.
  induction remaining as [|k IH]; intros attempt html; cbn [attempts];
    [discriminate|].
  destruct (headless attempt) as [h|e].
  - destruct (PyStr.is_empty h) eqn:E; cbn [negb].
    + specialize (IH (S attempt) html).
      destruct (attempts headless tries (S attempt) k). exact IH.
    + cbn [fst]. intros H. now injection H as <-.
  - destruct (Nat.eqb attempt tries); [discriminate|].
    specialize (IH (S attempt) html).
    destruct (attempts headless tries (S attempt) k). exact IH.
Qed.

Lemma attempts_first headless tries :
  forall j attempt remaining html,
    (j < remaining)%nat ->
    (forall i, (attempt <= i < attempt + j)%nat -> gives_page (headless i) = false) ->
    (attempt + remaining = S tries)%nat ->
    headless (attempt + j)%nat = Ok html -> PyStr.is_empty html = false ->
    fst (attempts headless tries attempt remaining) = Some html
    /\ List.length (List.filter is_headless
                      (snd (attempts headless tries attempt remaining)))
       = S j
    /\ List.existsb is_requests
         (snd (attempts headless tries attempt remaining)) = false.
Proof.
  induction j as [|j IH]; intros attempt remaining html Hr Hb Ht Hk He.
  - rewrite Nat.add_0_r in Hk. destruct remaining as [|k]; [lia|].
    cbn [attempts]. rewrite Hk, He. cbn. now repeat split.
  - destruct remaining as [|k]; [lia|]. cbn [attempts].
    assert (Ha : gives_page (headless attempt) = false) by (apply Hb; lia).
    replace (attempt + S j)%nat with (S attempt + j)%nat in Hk by lia.
    destruct (IH (S attempt) k html) as (F & L & R);
      [lia | intros i Hi; apply Hb; lia | lia | exact Hk | exact He |].
    assert (N : Nat.eqb attempt tries = false) by (apply Nat.eqb_neq; lia).
    unfold gives_page in Ha.
    destruct (headless attempt) as [h|e].
    + rewrite Ha. destruct (attempts headless tries (S attempt) k) as [f s].
      cbn [fst snd] in *. cbn [List.filter is_headless List.existsb is_requests
                               List.length orb].
      now rewrite L, R.
    + rewrite N. destruct (attempts headless tries (S attempt) k) as [f s].
      cbn [fst snd] in *. cbn [List.filter is_headless List.existsb is_requests
                               List.length orb].
      now rewrite L, R.
Qed.

Lemma attempts_all_fail headless tries :
  forall remaining attempt,
    (forall i, (attempt <= i < attempt + remaining)%nat ->
               gives_page (headless i) = false) ->
    (attempt + remaining = S tries)%nat ->
    fst (attempts headless tries attempt remaining) = None
    /\ List.length (List.filter is_headless
                      (snd (attempts headless tries attempt remaining)))
       = remaining
    /\ List.existsb is_requests
         (snd (attempts headless tries attempt remaining)) = false.
Proof.
  induction remaining as [|k IH]; intros attempt Hb Ht; [now repeat split|].
  cbn [attempts].
  assert (Ha : gives_page (headless attempt) = false) by (apply Hb; lia).
  unfold gives_page in Ha.
  assert (Rec : (attempt <> tries) ->
                fst (attempts headless tries (S attempt) k) = None
                /\ List.length (List.filter is_headless
                                  (snd (attempts headless tries (S attempt) k)))
                   = k
                /\ List.existsb is_requests
                     (snd (attempts headless tries (S attempt) k)) = false).
  { intros N. apply IH; [intros i Hi; apply Hb; lia | lia]. }
  destruct (headless attempt) as [h|e].
  - rewrite Ha.
    destruct k as [|k'].
    + cbn. now repeat split.
    + destruct Rec as (F & L & R); [lia|].
      destruct (attempts headless tries (S attempt) (S k')) as [f s].
      cbn [fst snd] in *. cbn [List.filter is_headless List.existsb is_requests
                               List.length orb].
      now rewrite L, R.
  - destruct (Nat.eqb_spec attempt tries) as [E|N].
    + assert (k = 0)%nat by lia. subst k. cbn. now repeat split.
    + destruct (Rec N) as (F & L & R).
      destruct (attempts headless tries (S attempt) k) as [f s].
      cbn [fst snd] in *. cbn [List.filter is_headless List.existsb is_requests
                               List.length orb].
      now rewrite L, R.
Qed.

End FetchPage.

(** X21. [fetch_page] answers [None] or a page that is not empty, never an
    empty text.  The page of the first headless attempt (of at most
    [tries]) that gives one is returned at once, with no plain request;
    only when all [tries] attempts raised or gave nothing is the plain
    request made, if it is enabled, and then only a status 200 with a body
    counts. *)
Theorem fetch_page_outcome :
  forall (headless : string -> nat -> res string)
         (get : string -> res Fetcher.response)
         (url : string) (tries : nat) (requests_fallback : bool),
    (forall html,
        fst (Fetcher.fetch_page headless get url tries requests_fallback)
        = Some html -> PyStr.is_empty html = false)
    /\ (forall k html,
          (1 <= k <= tries)%nat ->
          (forall i, (1 <= i < k)%nat ->
                     Fetcher.gives_page (headless url i) = false) ->
          headless url k = Ok html -> PyStr.is_empty html = false ->
          fst (Fetcher.fetch_page headless get url tries requests_fallback)
          = Some html
          /\ List.length
               (List.filter Fetcher.is_headless
                  (snd (Fetcher.fetch_page headless get url tries
                                           requests_fallback))) = k
          /\ List.existsb Fetcher.is_requests
               (snd (Fetcher.fetch_page headless get url tries
                                        requests_fallback)) = false)
    /\ ((forall i, (1 <= i <= tries)%nat ->
                   Fetcher.gives_page (headless url i) = false) ->
        fst (Fetcher.fetch_page headless get url tries requests_fallback)
        = (if requests_fallback
           then Fetcher._fetch_with_requests get url else None)
        /\ List.length
             (List.filter Fetcher.is_headless
                (snd (Fetcher.fetch_page headless get url tries
                                         requests_fallback))) = tries
        /\ List.existsb Fetcher.is_requests
             (snd (Fetcher.fetch_page headless get url tries
                                      requests_fallback))
           = requests_fallback).
Proof.
  intros headless get url tries fb. unfold Fetcher.fetch_page.
  split; [|split].
  - intros html.
    pose proof (attempts_found (headless url) tries tries 1) as F.
    destruct (Fetcher.attempts (headless url) tries 1 tries) as [[h|] steps].
    + cbn [fst] in *. exact (F html).
    + destruct fb; [|discriminate]. cbn [fst].
      unfold Fetcher._fetch_with_requests.
      destruct (get url) as [resp|e]; [|discriminate].
      destruct (Z.eqb (Fetcher.status_code resp) 200); [|discriminate].
      destruct (PyStr.is_empty (Fetcher.text resp)) eqn:E; [discriminate|].
      cbn [andb negb]. intros H. now injection H as <-.
  - intros k html Hk Hb Ho He.
    destruct (attempts_first (headless url) tries (k - 1) 1 tries html)
      as (F & L & R);
      [lia | intros i Hi; apply Hb; lia | lia
       | now replace (1 + (k - 1))%nat with k by lia | exact He |].
    destruct (Fetcher.attempts (headless url) tries 1 tries) as [f steps].
    cbn [fst snd] in *. subst f. cbn [fst snd].
    split; [reflexivity|]. split; [lia | exact R].
  - intros Hb.
    destruct (attempts_all_fail (headless url) tries tries 1) as (F & L & R);
      [intros i Hi; apply Hb; lia | lia |].
    destruct (Fetcher.attempts (headless url) tries 1 tries) as [f steps].
    cbn [fst snd] in *. subst f.
    destruct fb; cbn [fst snd].
    + split; [reflexivity|].
      rewrite List.filter_app, List.length_app, List.existsb_app, L, R.
      cbn. split; [lia | reflexivity].
    + now repeat split.
Qed.

(** ** search_scraper.py *)
Section ScraperFacts.
Import Scraper.

Lemma cleaned_links results :
  Forall (fun r => PyStr.is_empty (r_link r) = false) (cleaned results).
Proof.
  induction results as [|r rest IH]; cbn [cleaned]; [constructor|].
  destruct (PyStr.is_empty (text_or_empty _)) eqn:E; cbn [negb];
    [exact IH | constructor; [exact E | exact IH]].
Qed.

Lemma Forall_firstn {A : Type} (P : A -> Prop) (n : nat) (l : list A) :
  Forall P l -> Forall P (firstn n l).
Proof.
  intros H. revert n. induction H as [|x l Hx _ IH]; intros [|n]; cbn;
    constructor; auto.
Qed.

Lemma unset_key_finds_nothing key http q n :
  PyStr.is_empty key = true \/ key = "YOUR_SERPAPI_KEY" ->
  serpapi_search key http q n = ([], []).
Proof.
  unfold serpapi_search. intros [E| ->]; [now rewrite E|].
  now rewrite orb_true_r.
Qed.

Lemma scraper_search_bounds key http q n :
  (List.length (snd (serpapi_search key http q n)) <= 1)%nat
  /\ Forall (fun request => snd request = n) (snd (serpapi_search key http q n)).
Proof.
  unfold serpapi_search.
  destruct (PyStr.is_empty key || String.eqb key "YOUR_SERPAPI_KEY");
    [cbn; split; [lia | constructor]|].
  destruct (http q n); cbn; (split; [lia | now repeat constructor]).
Qed.

Lemma unset_key_saves_nothing key http session :
  PyStr.is_empty key = true \/ key = "YOUR_SERPAPI_KEY" ->
  forall queries p, fst (run_queries key http session queries p) = p.
Proof.
  intros K. induction queries as [|q rest IH]; intros p; cbn [run_queries];
    [reflexivity|].
  destruct (SEARCH_SAVE_LIMIT <=? total_saved p)%nat; [reflexivity|].
  rewrite (unset_key_finds_nothing _ _ _ _ K). cbn [fst save_results].
  specialize (IH p). destruct (run_queries key http session rest p).
  exact IH.
Qed.

Lemma distinct_urls_snoc same l x :
  distinct_urls same l ->
  Forall (fun r => same (rl_url r) (rl_url x) = false) l ->
  distinct_urls same (l ++ [x]).
Proof.
  induction l as [|r l IH]; cbn [distinct_urls app]; intros D F.
  - split; [constructor | exact I].
  - destruct D as [Dr D]. inversion F as [|? ? Fr Fl]; subst. split.
    + apply Forall_app. split; [exact Dr | now constructor].
    + now apply IH.
Qed.

Lemma save_raw_link_grown t0 sess p q title url snippet :
  grown t0 p ->
  (total_saved p < SEARCH_SAVE_LIMIT)%nat ->
  PyStr.is_empty url = false ->
  grown t0
    (Progress (fst (save_raw_link sess (table p) q title url snippet))
              (if snd (save_raw_link sess (table p) q title url snippet)
               then S (total_saved p) else total_saved p)
              (S (statements p))).
Proof.
  intros (W & L & Su & Fr & new & R & Ln & Le) Hlt Hu.
  destruct W as (W1 & W2 & W3 & W4).
  unfold save_raw_link.
  destruct sess; cbn [fst snd];
    try (repeat split; try assumption; exists new; now repeat split).
  destruct (List.existsb (fun r => same_url (table p) (rl_url r) url)
                         (rows (table p))) eqn:Ex; cbn [fst snd].
  - unfold grown, well_formed, with_rows.
    cbn [table total_saved rows auto_increment same_url found_rows].
    split; [|split; [|split; [exact Su|split; [exact Fr|]]]].
    + repeat split; try assumption.
      eapply Forall_impl; [|exact W3]. intros r Hr. cbv beta in Hr.
      destruct (autoinc_gaps (table p)); lia.
    + destruct (found_rows (table p)); lia.
    + exists new. split; [exact R|]. rewrite Fr. split.
      * destruct (found_rows t0); lia.
      * intros F. rewrite F. now apply Le.
  - unfold grown, well_formed, with_rows.
    cbn [table total_saved rows auto_increment same_url found_rows].
    split; [|split; [lia|split; [exact Su|split; [exact Fr|]]]].
    + split; [|split; [|split]].
      * apply Forall_app. split; [exact W1|]. now repeat constructor.
      * apply distinct_urls_snoc; [exact W2|].
        apply Forall_forall. intros r Hr. cbn [rl_url].
        destruct (same_url (table p) (rl_url r) url) eqn:S; [|reflexivity].
        assert (T : List.existsb
                      (fun r0 => same_url (table p) (rl_url r0) url)
                      (rows (table p)) = true).
        { apply existsb_exists. now exists r. }
        congruence.
      * apply Forall_app. split.
        -- eapply Forall_impl; [|exact W3]. intros r Hr. cbv beta in Hr. lia.
        -- repeat constructor. cbn [rl_id]. lia.
      * rewrite List.map_app. cbn [List.map rl_id]. apply NoDup_snoc; [exact W4|].
        intros Hin. apply in_map_iff in Hin as (r & Hid & Hr).
        assert (Hlt' : (rl_id r < auto_increment (table p))%Z).
        { pose proof (proj1 (Forall_forall _ _) W3 r Hr) as H. exact H. }
        lia.
    + exists (new ++ [LinkRow (auto_increment (table p)) (Utf8.take 255 q)
                              (Utf8.take 255 title) url snippet])%list.
      rewrite R, <- app_assoc, List.length_app. cbn [List.length].
      split; [reflexivity|]. split; [lia|]. intros F. specialize (Le F). lia.
Qed.

Lemma save_results_grown t0 session q :
  forall results p, grown t0 p -> grown t0 (save_results session q results p).
Proof.
  induction results as [|item rest IH]; intros p G; cbn [save_results];
    [exact G|].
  destruct (Nat.leb_spec SEARCH_SAVE_LIMIT (total_saved p)) as [Hge|Hlt];
    [exact G|].
  destruct (PyStr.is_empty (r_link item)) eqn:E; [now apply IH|].
  pose proof (save_raw_link_grown t0 (session (statements p)) p q
                (r_title item) (r_link item) (r_snippet item) G Hlt E) as S.
  destruct (save_raw_link (session (statements p)) (table p) q
                          (r_title item) (r_link item) (r_snippet item))
    as [t saved].
  cbn [fst snd] in S. now apply IH.
Qed.

Lemma run_queries_grown t0 key http session :
  forall queries p,
    grown t0 p -> grown t0 (fst (run_queries key http session queries p)).
Proof.
  induction queries as [|q rest IH]; intros p G; cbn [run_queries];
    [exact G|].
  destruct (SEARCH_SAVE_LIMIT <=? total_saved p)%nat; [exact G|].
  specialize (IH (save_results session q
                    (fst (serpapi_search key http q SEARCH_RESULTS_PER_QUERY)) p)
                 (save_results_grown t0 session q _ p G)).
  destruct (run_queries key http session rest _) as [p' asked].
  exact IH.
Qed.

Lemma main_grown key http session t :
  well_formed t -> grown t (fst (main key http session t)).
Proof.
  intros W. unfold main. apply run_queries_grown.
  unfold grown. cbn [table total_saved].
  split; [exact W|]. split; [unfold SEARCH_SAVE_LIMIT; lia|].
  split; [reflexivity|]. split; [reflexivity|].
  exists []. rewrite app_nil_r. now repeat split.
Qed.

End ScraperFacts.

(** X22. [serpapi_search] of search_scraper.py sends at most one request
    and returns at most [num_results] results, each with an address that
    is not empty; a failing request gives no result.  With the key empty,
    as the module has it, or left as the placeholder, it sends nothing and
    returns nothing, so that [main] asks nothing and saves nothing. *)
Theorem scraper_search_results :
  forall (key : string) (http : string -> nat -> res Scraper.payload)
         (query : string) (num_results : nat),
    (List.length (snd (Scraper.serpapi_search key http query num_results)) <= 1)%nat
    /\ (List.length (fst (Scraper.serpapi_search key http query num_results))
        <= num_results)%nat
    /\ Forall (fun r => PyStr.is_empty (Scraper.r_link r) = false)
              (fst (Scraper.serpapi_search key http query num_results))
    /\ ((exists e, http query num_results = Raise e) ->
        fst (Scraper.serpapi_search key http query num_results) = [])
    /\ (PyStr.is_empty key = true \/ key = "YOUR_SERPAPI_KEY" ->
        Scraper.serpapi_search key http query num_results = ([], [])
        /\ forall session t,
             fst (Scraper.main key http session t) = Scraper.Progress t 0 0).
Proof.
  intros key http query n.
  assert (K : PyStr.is_empty key = true \/ key = "YOUR_SERPAPI_KEY" ->
              Scraper.serpapi_search key http query n = ([], [])
              /\ forall session t,
                   fst (Scraper.main key http session t) = Scraper.Progress t 0 0).
  { intros K. split; [now apply unset_key_finds_nothing|].
    intros session t. now apply unset_key_saves_nothing. }
  assert (M : (List.length (snd (Scraper.serpapi_search key http query n)) <= 1)%nat
              /\ (List.length (fst (Scraper.serpapi_search key http query n)) <= n)%nat
              /\ Forall (fun r => PyStr.is_empty (Scraper.r_link r) = false)
                        (fst (Scraper.serpapi_search key http query n))
              /\ ((exists e, http query n = Raise e) ->
                  fst (Scraper.serpapi_search key http query n) = [])).
  { unfold Scraper.serpapi_search.
    destruct (PyStr.is_empty key || String.eqb key "YOUR_SERPAPI_KEY").
    { cbn [fst snd List.length]. split; [lia|]. split; [lia|].
      split; [constructor | reflexivity]. }
    destruct (http query n) as [data|e] eqn:H; cbn [fst snd List.length].
    - split; [lia|]. split; [apply firstn_le_length|].
      split; [apply Forall_firstn, cleaned_links|].
      intros [e He]; discriminate.
    - split; [lia|]. split; [lia|]. split; [constructor | reflexivity]. }
  destruct M as (M1 & M2 & M3 & M4).
  split; [exact M1|]. split; [exact M2|]. split; [exact M3|].
  split; [exact M4 | exact K].
Qed.

(** X23. [main] of search_scraper.py keeps the table of links well formed:
    if no stored address is empty, no two stored addresses are equal for
    the collation of the unique column, and the ids are distinct and below
    the counter, the same holds after the run.  The run only appends
    rows, it counts at most [SEARCH_SAVE_LIMIT] saved links, and the rows
    it adds are at most as many as it counted, exactly as many when the
    connector does not count matched rows. *)
Theorem scraper_main_keeps_links_well_formed :
  forall (key : string) (http : string -> nat -> res Scraper.payload)
         (session : nat -> Db.session) (t : Scraper.links_table),
    Scraper.well_formed t ->
    Scraper.well_formed (Scraper.table (fst (Scraper.main key http session t)))
    /\ (Scraper.total_saved (fst (Scraper.main key http session t))
        <= Scraper.SEARCH_SAVE_LIMIT)%nat
    /\ exists new,
         Scraper.rows (Scraper.table (fst (Scraper.main key http session t)))
         = (Scraper.rows t ++ new)%list
         /\ (List.length new
             <= Scraper.total_saved (fst (Scraper.main key http session t)))%nat
         /\ (Scraper.found_rows t = false ->
             List.length new
             = Scraper.total_saved (fst (Scraper.main key http session t))).
Proof.
  intros key http session t W.
  destruct (main_grown key http session t W) as (W' & L & _ & _ & N).
  split; [exact W'|]. split; [exact L | exact N].
Qed.

Lemma scraper_main_keeps_links_well_formed_witness :
  Scraper.well_formed
    (Scraper.table (fst (Scraper.main "key" Scraper.one_gala
                                      (fun _ => Db.Executed) Scraper.no_links)))
  /\ (Scraper.total_saved (fst (Scraper.main "key" Scraper.one_gala
                                             (fun _ => Db.Executed)
                                             Scraper.no_links))
      <= Scraper.SEARCH_SAVE_LIMIT)%nat
  /\ exists new,
       Scraper.rows
         (Scraper.table (fst (Scraper.main "key" Scraper.one_gala
                                           (fun _ => Db.Executed)
                                           Scraper.no_links)))
       = (Scraper.rows Scraper.no_links ++ new)%list
       /\ (List.length new
           <= Scraper.total_saved
                (fst (Scraper.main "key" Scraper.one_gala
                                   (fun _ => Db.Executed) Scraper.no_links)))%nat
       /\ (Scraper.found_rows Scraper.no_links = false ->
           List.length new
           = Scraper.total_saved
               (fst (Scraper.main "key" Scraper.one_gala
                                  (fun _ => Db.Executed) Scraper.no_links))).
Proof.
  apply (scraper_main_keeps_links_well_formed "key" Scraper.one_gala
           (fun _ => Db.Executed) Scraper.no_links).
  unfold Scraper.well_formed, Scraper.no_links. cbn.
  repeat split; constructor.
Defined.

(** ** The deep search of parser.py *)
Section DeepSearch.
Import PyStr Deep.

Lemma lstrip_head s :
  match lstrip s with
  | String c _ => isspace c = false
  | EmptyString => True
  end.
Proof.
  induction s as [|c r IH]; cbn [lstrip]; [exact I|].
  destruct (isspace c) eqn:E; [exact IH | exact E].
Qed.

Lemma strip_strip s : strip (strip s) = strip s.
Proof.
  unfold strip. pose proof (lstrip_head s) as H.
  destruct (lstrip s) as [|c r]; [reflexivity|].
  assert (L : lstrip (rstrip (String c r)) = rstrip (String c r)).
  { cbn [rstrip]. destruct (rstrip r); [rewrite H|]; cbn [lstrip]; now rewrite H. }
  now rewrite L, rstrip_rstrip.
Qed.

Lemma dedupe_spec :
  forall qrs seen,
    NoDup (dedupe seen qrs)
    /\ Forall (fun q => ~ In q seen /\ is_query q) (dedupe seen qrs).
Proof.
  induction qrs as [|q rest IH]; intros seen; cbn [dedupe];
    [split; constructor|].
  destruct (is_empty (strip q)) eqn:E; cbn [negb andb]; [apply IH|].
  destruct (List.existsb (String.eqb (strip q)) seen) eqn:S; cbn [negb];
    [apply IH|].
  destruct (IH (strip q :: seen)) as [N F]. split.
  - constructor; [|exact N]. intros Hin.
    apply (proj1 (Forall_forall _ _) F) in Hin as [Hn _].
    apply Hn. now left.
  - constructor.
    + split; [|split; [exact E | apply strip_strip]].
      intros Hin.
      assert (T : List.existsb (String.eqb (strip q)) seen = true).
      { apply existsb_exists. exists (strip q). split; [exact Hin|].
        apply String.eqb_refl. }
      congruence.
    + eapply Forall_impl; [|exact F]. intros x [Hn Hq]. split; [|exact Hq].
      intros Hin. apply Hn. now right.
Qed.

Lemma NoDup_firstn {A : Type} (n : nat) (l : list A) :
  NoDup l -> NoDup (firstn n l).
Proof.
  intros H. revert n. induction H as [|x l Hx _ IH]; intros [|n]; cbn;
    try constructor; [|apply IH].
  intros Hin. apply Hx. revert Hin. clear. revert n.
  induction l as [|y l IH]; intros [|n]; cbn; try tauto.
  intros [->|H]; [now left | right; eauto].
Qed.

Lemma queries_shape qrs :
  (List.length (firstn 6 (dedupe [] qrs)) <= 6)%nat
  /\ NoDup (firstn 6 (dedupe [] qrs))
  /\ Forall is_query (firstn 6 (dedupe [] qrs)).
Proof.
  destruct (dedupe_spec qrs []) as [N F].
  split; [apply firstn_le_length|]. split; [now apply NoDup_firstn|].
  apply Forall_firstn. eapply Forall_impl; [|exact F]. now intros q [_ H].
Qed.

Lemma field_or_dict d k default :
  exists v, field_or (VDict d) k default = Ok v.
Proof.
  unfold field_or. destruct (Py.truthy (VDict d)); cbn [Py.py_get bind]; eauto.
Qed.

Lemma year_of_dict d : exists y, year_of (VDict d) = Ok y.
Proof.
  unfold year_of. destruct (Py.truthy (VDict d)); [|eauto].
  cbn [Py.py_get bind].
  destruct (Py.truthy (Py.dict_get d "event_date")); [|eauto].
  destruct (Py.dict_get d "event_date"); eauto.
Qed.

Lemma add_links_spec :
  forall results candidate_urls,
    NoDup candidate_urls ->
    Forall (fun u => is_empty u = false) candidate_urls ->
    NoDup (add_links results candidate_urls)
    /\ Forall (fun u => is_empty u = false) (add_links results candidate_urls).
Proof.
  induction results as [|r rest IH]; intros c N F; cbn [add_links];
    [now split|].
  destruct (is_empty (Scraper.r_link r)) eqn:E; cbn [negb andb];
    [now apply IH|].
  destruct (List.existsb (String.eqb (Scraper.r_link r)) c) eqn:S; cbn [negb];
    [now apply IH|].
  apply IH.
  - apply NoDup_snoc; [exact N|]. intros Hin.
    assert (T : List.existsb (String.eqb (Scraper.r_link r)) c = true).
    { apply existsb_exists. exists (Scraper.r_link r). split; [exact Hin|].
      apply String.eqb_refl. }
    congruence.
  - apply Forall_app. split; [exact F | now repeat constructor].
Qed.

Lemma collect_spec key http :
  forall queries candidate_urls,
    NoDup candidate_urls ->
    Forall (fun u => is_empty u = false) candidate_urls ->
    NoDup (fst (collect key http queries candidate_urls))
    /\ Forall (fun u => is_empty u = false)
              (fst (collect key http queries candidate_urls))
    /\ (List.length (snd (collect key http queries candidate_urls))
        <= List.length queries)%nat
    /\ Forall (fun request => snd request = SEARCH_RESULTS_PER_QUERY)
              (snd (collect key http queries candidate_urls)).
Proof.
  induction queries as [|q rest IH]; intros c N F; cbn [collect].
  - cbn. repeat split; [exact N | exact F | lia | constructor].
  - pose proof (scraper_search_bounds key http q SEARCH_RESULTS_PER_QUERY)
      as (R1 & R2).
    destruct (Scraper.serpapi_search key http q SEARCH_RESULTS_PER_QUERY)
      as [results requests]. cbn [fst snd] in R1, R2.
    destruct (add_links_spec results c N F) as [N' F'].
    destruct (DEEP_SEARCH_MAX_PAGES * 2 <=? List.length (add_links results c))%nat.
    + cbn [fst snd List.length]. repeat split; [exact N' | exact F' | lia | exact R2].
    + destruct (IH (add_links results c) N' F') as (A & B & C & D).
      destruct (collect key http rest (add_links results c)) as [found more].
      cbn [fst snd] in *. rewrite List.length_app. cbn [List.length].
      repeat split; [exact A | exact B | lia |].
      apply Forall_app. now split.
Qed.

Lemma aggregate_spec fetch get_text max_pages chars_per_page :
  forall urls cnt,
    (cnt + List.length (fst (aggregate fetch get_text urls max_pages
                                       chars_per_page cnt))
     <= Nat.max cnt max_pages)%nat
    /\ Forall (fun text => (Utf8.length text <= chars_per_page)%nat)
              (fst (aggregate fetch get_text urls max_pages chars_per_page cnt))
    /\ (List.length (snd (aggregate fetch get_text urls max_pages
                                    chars_per_page cnt))
        <= List.length urls)%nat.
Proof.
  induction urls as [|u rest IH]; intros cnt; cbn [aggregate].
  - cbn. repeat split; [lia | constructor | lia].
  - destruct (Nat.leb_spec max_pages cnt) as [Hge|Hlt].
    + cbn. repeat split; [lia | constructor | lia].
    + set (kept := match fetch u with
                   | Some html =>
                       if is_empty html then None
                       else match get_text html with
                            | Ok text =>
                                if is_empty text then None
                                else Some (Utf8.take chars_per_page text)
                            | Raise _ => None
                            end
                   | None => None
                   end).
      assert (K : forall text, kept = Some text ->
                               (Utf8.length text <= chars_per_page)%nat).
      { unfold kept. intros text.
        destruct (fetch u) as [html|]; [|discriminate].
        destruct (is_empty html); [discriminate|].
        destruct (get_text html) as [x|e]; [|discriminate].
        destruct (is_empty x); [discriminate|].
        intros H. injection H as <-. apply utf8_take_length. }
      destruct kept as [text|].
      * destruct (IH (S cnt)) as (A & B & C).
        destruct (aggregate fetch get_text rest max_pages chars_per_page (S cnt))
          as [texts asked].
        cbn [fst snd List.length] in *.
        repeat split; [lia | constructor; [now apply K | exact B] | lia].
      * destruct (IH cnt) as (A & B & C).
        destruct (aggregate fetch get_text rest max_pages chars_per_page cnt)
          as [texts asked].
        cbn [fst snd List.length] in *. repeat split; [lia | exact B | lia].
Qed.

End DeepSearch.

(** X24. [build_deep_search_queries] returns at most six queries, all
    different, none empty and none with whitespace at its ends.  For a
    mapping it fails exactly when [urlparse] does, with the exception of
    [urlparse]: the first call is guarded, the second is not. *)
Theorem build_deep_search_queries_shape :
  forall (urlparse : string -> res Deep.url_parts) (url : string)
         (parsed : value),
    (forall queries,
        Deep.build_deep_search_queries urlparse url parsed = Ok queries ->
        (List.length queries <= 6)%nat
        /\ NoDup queries /\ Forall Deep.is_query queries)
    /\ (forall d,
          parsed = VDict d ->
          match urlparse url with
          | Ok _ =>
              exists queries,
                Deep.build_deep_search_queries urlparse url parsed = Ok queries
          | Raise e =>
              Deep.build_deep_search_queries urlparse url parsed = Raise e
          end).
Proof.
  intros urlparse url parsed. split.
  - intros queries. unfold Deep.build_deep_search_queries.
    destruct (Deep.field_or parsed "event_name" VNone) as [en|e];
      [|discriminate]. cbn [bind].
    destruct (Deep.field_or parsed "organizer_name" VNone) as [on|e];
      [|discriminate]. cbn [bind].
    destruct (urlparse url) as [parts|e]; [|discriminate]. cbn [bind].
    destruct (Deep.year_of parsed) as [year|e]; [|discriminate]. cbn [bind].
    destruct (Deep.field_or parsed "venue_city" (VStr EmptyString)) as [city|e];
      [|discriminate]. cbn [bind].
    intros H. injection H as <-. apply queries_shape.
  - intros d ->. unfold Deep.build_deep_search_queries.
    destruct (field_or_dict d "event_name" VNone) as [en ->]. cbn [bind].
    destruct (field_or_dict d "organizer_name" VNone) as [on ->]. cbn [bind].
    destruct (urlparse url) as [parts|e]; [|reflexivity]. cbn [bind].
    destruct (year_of_dict d) as [year ->]. cbn [bind].
    destruct (field_or_dict d "venue_city" (VStr EmptyString)) as [city ->].
    cbn [bind]. eauto.
Qed.

(** X25. The deep search stays within its budget: for the queries it is
    given it sends at most one search request per query, each for six
    results, and keeps at most twelve candidate links, all different and
    none empty; of a list of pages [fetch_and_aggregate_snippets] asks for
    each page at most once and keeps at most [max_pages] texts of at most
    [chars_per_page] characters each. *)
Theorem deep_search_budget :
  forall (t : Deep.tools) (queries urls : list string)
         (max_pages chars_per_page : nat),
    (List.length (Deep.candidates t queries) <= 12)%nat
    /\ NoDup (Deep.candidates t queries)
    /\ Forall (fun u => PyStr.is_empty u = false) (Deep.candidates t queries)
    /\ (List.length
          (snd (Deep.collect (Deep.serpapi_key t) (Deep.serpapi_http t)
                             queries []))
        <= List.length queries)%nat
    /\ Forall (fun request => snd request = 6%nat)
              (snd (Deep.collect (Deep.serpapi_key t) (Deep.serpapi_http t)
                                 queries []))
    /\ (List.length
          (fst (Deep.aggregate (Deep.fetch_page t) (Deep.get_text t) urls
                               max_pages chars_per_page 0))
        <= max_pages)%nat
    /\ Forall (fun text => (Utf8.length text <= chars_per_page)%nat)
              (fst (Deep.aggregate (Deep.fetch_page t) (Deep.get_text t) urls
                                   max_pages chars_per_page 0))
    /\ (List.length
          (snd (Deep.aggregate (Deep.fetch_page t) (Deep.get_text t) urls
                               max_pages chars_per_page 0))
        <= List.length urls)%nat.
Proof.
  intros t queries urls max_pages chars_per_page.
  destruct (collect_spec (Deep.serpapi_key t) (Deep.serpapi_http t) queries []
              (NoDup_nil _) (Forall_nil _)) as (N & F & L & R).
  destruct (aggregate_spec (Deep.fetch_page t) (Deep.get_text t)
              max_pages chars_per_page urls 0) as (A & B & C).
  unfold Deep.candidates.
  split; [apply firstn_le_length|]. split; [now apply NoDup_firstn|].
  split; [now apply Forall_firstn|]. split; [exact L|]. split; [exact R|].
  split; [cbn [Nat.add] in A; lia|]. split; [exact B | exact C].
Qed.

Section UnsetKey.
Import Deep.

Lemma collect_without_key key http :
  PyStr.is_empty key = true \/ key = "YOUR_SERPAPI_KEY" ->
  forall queries, collect key http queries [] = ([], []).
Proof.
  intros K. induction queries as [|q rest IH]; cbn [collect]; [reflexivity|].
  rewrite (unset_key_finds_nothing _ _ _ _ K). cbn [add_links List.length].
  change (DEEP_SEARCH_MAX_PAGES * 2 <=? 0)%nat with false.
  now rewrite IH.
Qed.

Lemma search_without_key t url parsed :
  PyStr.is_empty (serpapi_key t) = true \/ serpapi_key t = "YOUR_SERPAPI_KEY" ->
  search_of t url parsed = Parser.DeepNoCandidates
  \/ exists e, search_of t url parsed = Parser.DeepRaises e.
Proof.
  intros K. unfold search_of.
  destruct (build_deep_search_queries _ _ _) as [queries|e]; [|eauto].
  unfold candidates. rewrite (collect_without_key _ _ K). now left.
Qed.

End UnsetKey.

(** X26. With the key of search_scraper.py empty, as the module has it, or
    left as the placeholder, the deep synthesis of [process_links] is
    without effect: [deep_synthesize_fields] finds no candidate link for
    any record (or fails on the address), makes no request to the model,
    and the escalation returns the record as it got it. *)
Theorem escalation_without_search_key :
  forall (t : Deep.tools) (w : Parser.world) (url : string) (data : value),
    PyStr.is_empty (Deep.serpapi_key t) = true
    \/ Deep.serpapi_key t = "YOUR_SERPAPI_KEY" ->
    (Deep.search_of t url data = Parser.DeepNoCandidates
     \/ exists e, Deep.search_of t url data = Parser.DeepRaises e)
    /\ (Deep.deep_synthesize_fields t url data = Ok []
        \/ exists e, Deep.deep_synthesize_fields t url data = Raise e)
    /\ Parser.escalate (Deep.world_of t w) url data = data.
Proof.
  intros t w url data K.
  pose proof (search_without_key t url data K) as S.
  split; [exact S|].
  unfold Parser.escalate, Deep.deep_synthesize_fields, Deep.world_of.
  cbn [Parser.deep_search_of].
  destruct S as [->|[e ->]]; cbn [Parser.deep_synthesize_fields].
  - split; [now left | reflexivity].
  - split; [right; now exists e | reflexivity].
Qed.

Lemma escalation_without_search_key_witness :
  (Deep.search_of Deep.as_shipped "https://example.org/gala"
                  (VDict [("event_name", VStr "Spring Gala")])
   = Parser.DeepNoCandidates
   \/ exists e,
        Deep.search_of Deep.as_shipped "https://example.org/gala"
                       (VDict [("event_name", VStr "Spring Gala")])
        = Parser.DeepRaises e)
  /\ (Deep.deep_synthesize_fields Deep.as_shipped "https://example.org/gala"
                                  (VDict [("event_name", VStr "Spring Gala")])
      = Ok []
      \/ exists e,
           Deep.deep_synthesize_fields Deep.as_shipped "https://example.org/gala"
                                       (VDict [("event_name", VStr "Spring Gala")])
           = Raise e)
  /\ Parser.escalate
       (Deep.world_of Deep.as_shipped
                      (Worlds.answering Worlds.reply_four_missing "{}"))
       "https://example.org/gala"
       (VDict [("event_name", VStr "Spring Gala")])
     = VDict [("event_name", VStr "Spring Gala")].
Proof.
  apply (escalation_without_search_key Deep.as_shipped
           (Worlds.answering Worlds.reply_four_missing "{}")
           "https://example.org/gala"
           (VDict [("event_name", VStr "Spring Gala")])).
  left. reflexivity.
Defined.

(** ** The export *)
Section ExportFacts.
Import Sheets.

Lemma find_last_by_id (orgs : list Db.organizer_row) (o : Db.organizer_row) :
  NoDup (List.map Db.org_id orgs) -> In o orgs ->
  List.find (fun x => Z.eqb (Db.org_id x) (Db.org_id o)) (List.rev orgs) = Some o.
Proof.
  intros N Hin.
  destruct (List.find (fun x => Z.eqb (Db.org_id x) (Db.org_id o)) (List.rev orgs))
    as [x|] eqn:F.
  - apply find_some in F as [Hx E]. apply Z.eqb_eq in E.
    apply in_rev in Hx. f_equal.
    clear -N Hin Hx E. induction orgs as [|y l IH]; [destruct Hin|].
    cbn [List.map] in N. inversion N as [|? ? Hy Nl]; subst.
    destruct Hin as [->|Hin], Hx as [->|Hx]; try reflexivity.
    + exfalso. apply Hy. rewrite <- E. now apply in_map.
    + exfalso. apply Hy. rewrite E. now apply in_map.
    + now apply IH.
  - apply in_rev in Hin. pose proof (find_none _ _ F o Hin) as E.
    cbv beta in E. rewrite Z.eqb_refl in E. discriminate.
Qed.

End ExportFacts.

(** X27. The three tables of the export are rectangular and fit the range
    that is cleared before they are written: a header row and one row per
    record, of 18, 10 and 13 cells, so never more than the 26 columns A to
    Z.  A missing date is exported as the text [None].  When the database
    gives no connection the reads return no rows and the export writes the
    bare header rows, over whatever the sheets held. *)
Theorem export_tables_shape :
  forall (events : list Db.event_row) (orgs : list Db.organizer_row)
         (d : Db.database),
    Sheets.rectangular 18 (Sheets.prepare_event_data events)
    /\ Sheets.rectangular 10 (Sheets.prepare_organizer_data orgs)
    /\ Sheets.rectangular 13 (Sheets.prepare_combined_data events orgs)
    /\ List.length (Sheets.prepare_event_data events) = S (List.length events)
    /\ List.length (Sheets.prepare_organizer_data orgs) = S (List.length orgs)
    /\ List.length (Sheets.prepare_combined_data events orgs)
       = S (List.length events)
    /\ Forall (fun e => Db.ev_date e = VNone ->
                        List.nth_error (Sheets.event_cells e) 1
                        = Some (VStr "None")) events
    /\ Sheets.export_tables Db.NoConnection Db.NoConnection d
       = Ok [ ("Events", [List.map VStr Sheets.EVENT_HEADERS]);
              ("Organizers", [List.map VStr Sheets.ORGANIZER_HEADERS]);
              ("Events+Organizers", [List.map VStr Sheets.COMBINED_HEADERS]) ].
Proof.
  intros events orgs d. unfold Sheets.rectangular.
  split; [|split; [|split]].
  - constructor; [reflexivity|]. apply Forall_map, Forall_forall.
    intros e _. reflexivity.
  - constructor; [reflexivity|]. apply Forall_map, Forall_forall.
    intros o _. reflexivity.
  - constructor; [reflexivity|]. apply Forall_map, Forall_forall.
    intros e _. unfold Sheets.combined_cells. rewrite List.length_app.
    destruct (Sheets.org_map_get orgs (Db.ev_organizer_id e)); reflexivity.
  - unfold Sheets.prepare_event_data, Sheets.prepare_organizer_data,
      Sheets.prepare_combined_data. cbn [List.length].
    rewrite !List.length_map. repeat split.
    apply Forall_forall. intros e _ E. cbn. now rewrite E.
Qed.

(** X28. Under the invariants that the pipeline keeps (distinct organizer
    ids, every event pointing to a stored organizer), the combined table
    joins each event with its own organizer: the last five cells of the row
    of an event are the name, tax id, e-mail, phone and website of the
    stored organizer whose id the event carries, and five empty cells for
    an event without organizer. *)
Theorem combined_table_joins_organizers :
  forall d : Db.database,
    Store.ids_in_sequence d ->
    Store.events_have_organizers d ->
    Forall
      (fun e =>
         match Db.ev_organizer_id e with
         | Some id =>
             exists o,
               In o (Db.organizers d) /\ Db.org_id o = id
               /\ List.skipn 8 (Sheets.combined_cells (Db.organizers d) e)
                  = [ Db.org_name o; Db.org_ein o; Db.org_email o;
                      Db.org_phone o; Db.org_website o ]
         | None =>
             List.skipn 8 (Sheets.combined_cells (Db.organizers d) e)
             = [ VNone; VNone; VNone; VNone; VNone ]
         end)
      (Db.events d)
    /\ List.tl (Sheets.prepare_combined_data (Db.events d) (Db.organizers d))
       = List.map (Sheets.combined_cells (Db.organizers d)) (Db.events d).
Proof.
  intros d (_ & _ & _ & N & _) H. split; [|reflexivity].
  unfold Store.events_have_organizers, Store.event_has_organizer in H.
  eapply Forall_impl; [|exact H]. intros e. cbv beta.
  unfold Sheets.combined_cells, Sheets.org_map_get.
  destruct (Db.ev_organizer_id e) as [id|]; [|reflexivity].
  intros (o & Hin & <-). exists o. split; [exact Hin|]. split; [reflexivity|].
  now rewrite (find_last_by_id _ _ N Hin).
Qed.

Lemma combined_table_joins_organizers_witness :
  Forall
    (fun e =>
       match Db.ev_organizer_id e with
       | Some id =>
           exists o,
             In o (Db.organizers Batch.one_of_each) /\ Db.org_id o = id
             /\ List.skipn 8 (Sheets.combined_cells
                                (Db.organizers Batch.one_of_each) e)
                = [ Db.org_name o; Db.org_ein o; Db.org_email o;
                    Db.org_phone o; Db.org_website o ]
       | None =>
           List.skipn 8 (Sheets.combined_cells
                           (Db.organizers Batch.one_of_each) e)
           = [ VNone; VNone; VNone; VNone; VNone ]
       end)
    (Db.events Batch.one_of_each)
  /\ List.tl (Sheets.prepare_combined_data (Db.events Batch.one_of_each)
                                           (Db.organizers Batch.one_of_each))
     = List.map (Sheets.combined_cells (Db.organizers Batch.one_of_each))
                (Db.events Batch.one_of_each).
Proof.
  apply (combined_table_joins_organizers Batch.one_of_each).
  - unfold Store.ids_in_sequence. cbn.
    repeat split; try lia; repeat constructor; cbn; try lia; intros [].
  - unfold Store.events_have_organizers, Store.event_has_organizer. cbn.
    constructor; [|constructor].
    exists (Worlds.unknown_organizer 1 "Example Foundation").
    split; [now left | reflexivity].
Defined.

(** ** main.py *)
Section Pipeline.
Import Main.

Lemma run_scripts_spec h :
  forall scripts,
    (exists rest,
        List.map snd scripts = (snd (run_scripts h scripts) ++ rest)%list)
    /\ (fst (run_scripts h scripts) = AllFinished
        <-> Forall (fun s => script_exists h (snd s) = true
                             /\ returncode h (snd s) = 0%Z) scripts)
    /\ (fst (run_scripts h scripts) = AllFinished ->
        snd (run_scripts h scripts) = List.map snd scripts)
    /\ (forall code, fst (run_scripts h scripts) = SysExit code -> code <> 0%Z)
    /\ Forall (fun f => script_exists h f = true
                        /\ returncode h f = 0%Z)
              (List.removelast (snd (run_scripts h scripts))).
Proof.
  induction scripts as [|[title filename] rest IH]; cbn [run_scripts].
  - cbn. repeat split; try (intros; constructor); try discriminate.
    now exists [].
  - destruct (script_exists h filename) eqn:E; cbn [negb].
    2:{ cbn [fst snd List.map]. split; [eexists; reflexivity|].
        split; [split; [discriminate|]|].
        - intros H. inversion H as [|? ? [H1 _] _]; subst. cbn in H1. congruence.
        - split; [discriminate|]. split; [|constructor].
          intros code H. injection H as <-. discriminate. }
    destruct (Z.eqb_spec (returncode h filename) 0) as [Z0|Z0]; cbn [negb].
    + destruct IH as ((more & P) & A & S & C & L).
      destruct (run_scripts h rest) as [e started]. cbn [fst snd] in *.
      cbn [List.map snd]. split; [exists more; now rewrite P|].
      split; [|split; [|split]].
      * rewrite A. split.
        -- intros H. constructor; [now split | exact H].
        -- intros H. now inversion H.
      * intros H. now rewrite (S H).
      * exact C.
      * destruct started as [|f started]; [constructor|].
        change (List.removelast (filename :: f :: started))
          with (filename :: List.removelast (f :: started)).
        constructor; [now split | exact L].
    + cbn [fst snd List.map]. split; [exists (List.map snd rest); reflexivity|].
      split; [split; [discriminate|]|].
      * intros H. inversion H as [|? ? [_ H2] _]; subst. cbn in H2. congruence.
      * split; [discriminate|]. split; [|constructor].
        intros code H. injection H as <-. exact Z0.
Qed.

End Pipeline.

(** X29. [main] of main.py runs the steps in the order of [SCRIPTS] and
    stops at the first that is missing or exits with a code other than 0:
    the scripts it started are a prefix of the list and all of them but the
    last exited with 0.  It returns normally exactly when the key of the
    model is set, the database is there and every step exists and exits
    with 0; otherwise it ends in [sys.exit] with a code other than 0.  The
    fourth step is the file named [python export_to_sheets.py]: without a
    file of that very name the run never finishes all steps. *)
Theorem main_runs_steps_in_order :
  forall h : Main.host,
    (exists rest,
        List.map snd Main.SCRIPTS = (snd (Main.main h) ++ rest)%list)
    /\ (fst (Main.main h) = Main.AllFinished
        <-> Main.check_env h = true /\ Main.ensure_database h = true
            /\ Forall (fun s => Main.script_exists h (snd s) = true
                                /\ Main.returncode h (snd s) = 0%Z)
                      Main.SCRIPTS)
    /\ (forall code, fst (Main.main h) = Main.SysExit code -> code <> 0%Z)
    /\ Forall (fun f => Main.script_exists h f = true
                        /\ Main.returncode h f = 0%Z)
              (List.removelast (snd (Main.main h)))
    /\ (Main.script_exists h "python export_to_sheets.py" = false ->
        fst (Main.main h) <> Main.AllFinished).
Proof.
  intros h.
  destruct (run_scripts_spec h Main.SCRIPTS) as (P & A & _ & C & L).
  assert (M : fst (Main.main h) = Main.AllFinished
              <-> Main.check_env h = true /\ Main.ensure_database h = true
                  /\ Forall (fun s => Main.script_exists h (snd s) = true
                                      /\ Main.returncode h (snd s) = 0%Z)
                            Main.SCRIPTS).
  { unfold Main.main.
    destruct (Main.check_env h); cbn [negb];
      [|split; [discriminate | intros [H _]; discriminate]].
    destruct (Main.ensure_database h); cbn [negb];
      [|split; [discriminate | intros (_ & H & _); discriminate]].
    rewrite A. split; [now intros H | now intros (_ & _ & H)]. }
  split; [|split; [exact M|split; [|split]]].
  - unfold Main.main.
    destruct (Main.check_env h); cbn [negb]; [|eexists; reflexivity].
    destruct (Main.ensure_database h); cbn [negb]; [exact P|].
    eexists; reflexivity.
  - unfold Main.main. intros code.
    destruct (Main.check_env h); cbn [negb];
      [|intros H; injection H as <-; discriminate].
    destruct (Main.ensure_database h); cbn [negb];
      [apply C | intros H; injection H as <-; discriminate].
  - unfold Main.main.
    destruct (Main.check_env h); cbn [negb]; [|constructor].
    destruct (Main.ensure_database h); cbn [negb]; [exact L | constructor].
  - intros E H. apply M in H as (_ & _ & F).
    unfold Main.SCRIPTS in F.
    assert (G := proj1 (Forall_forall _ _) F
                   ("Export to Google Sheets", "python export_to_sheets.py")).
    cbn [snd] in G. destruct G as [G _]; [cbn; tauto|]. congruence.
Qed.

(** ** Deduplication through the pipeline *)
Section PipelineDedupe.
Import PyStr Parser.










End PipelineDedupe.


